(** * Verification of [metaflow/runner/click_api.py]

    A shallow embedding of the click-to-Python API translator: the click
    metadata ([click.Command], [click.Group] and their parameters), the
    parameter binder [_method_sanity_check], the compiler of signatures
    ([extract_all_params], [extract_command], [extract_group]), the
    [MetaflowAPI] objects with their chains and parent links, kept in an
    explicit store because the Python code mutates and shares them, and
    the serializer [MetaflowAPI.execute].  What the module asks of Python
    itself (the checks of [inspect.Parameter] and [inspect.Signature], the
    attributes of class [object]) is a parameter of the development, the
    class [Python]; typeguard's [check_type], [json.dumps] and the
    constructor [click.Option] are parameters of the functions that call
    them. *)

From Stdlib Require Import ZArith String Ascii List Bool Lia DecimalString.
From stdpp Require Import base option list.
Import ListNotations.
Open Scope string_scope.
Set Warnings "-register-all".

(** ** Python values

    The values a caller can pass as keyword arguments.  An [atom] is
    anything that is not a Python [list]; objects of the other types of
    the table [click_to_python_types] (float, UUID, datetime, tuple, dict)
    are opaque and carried with the text that [str] gives for them. *)

Inductive atom : Type :=
| ANone
| ABool (b : bool)
| AInt (z : Z)
| AStr (s : string)
| AObj (str_form : string).

Inductive value : Type :=
| VAtom (a : atom)
| VList (l : list atom).

(** [str(v)] for a value that is not a list. *)
Definition py_str (a : atom) : string :=
  match a with
  | ANone => "None"
  | ABool true => "True"
  | ABool false => "False"
  | AInt z => NilZero.string_of_int (Z.to_int z)
  | AStr s => s
  | AObj r => r
  end.

(** [v == True] and [v == False]: Python's [bool] is a subclass of [int],
    so [1 == True] and [0 == False] hold as well. Opaque objects and lists
    compare unequal. *)
Definition py_eq_True (v : value) : bool :=
  match v with
  | VAtom (ABool b) => b
  | VAtom (AInt z) => Z.eqb z 1
  | _ => false
  end.

Definition py_eq_False (v : value) : bool :=
  match v with
  | VAtom (ABool b) => negb b
  | VAtom (AInt z) => Z.eqb z 0
  | _ => false
  end.

(** [v != "flag"] on a value that is not a list. *)
Definition py_ne_flag (a : atom) : bool :=
  match a with
  | AStr s => negb (String.eqb s "flag")
  | _ => true
  end.

(** [s.strip("-")]: drops every leading and every trailing dash. *)
Definition is_dash (c : ascii) : bool := Ascii.eqb c "-"%char.

Fixpoint lstrip_dash (s : string) : string :=
  match s with
  | EmptyString => EmptyString
  | String c s' => if is_dash c then lstrip_dash s' else s
  end.

Fixpoint rstrip_dash (s : string) : string :=
  match s with
  | EmptyString => EmptyString
  | String c s' =>
      match rstrip_dash s' with
      | EmptyString => if is_dash c then EmptyString else String c EmptyString
      | r => String c r
      end
  end.

Definition strip_dashes (s : string) : string := rstrip_dash (lstrip_dash s).

(** ** Exceptions and results *)

Inductive click_type : Type :=
| StringParamType | IntParamType | FloatParamType | BoolParamType
| UUIDParameterType | Path | DateTime | Tuple | Choice | File
| JSONTypeClass | FilePathClass | LocalFileInput
| OtherParamType (type_name : string).

Inductive py_type : Type :=
| Pstr | Pint | Pfloat | Pbool | PUUID | Pdatetime | Ptuple | PJSON.

(** The annotations [get_annotation] builds: [t], [List[t]], [Optional[t]]
    and [Optional[List[t]]]. *)
Inductive annotation : Type :=
| Plain (t : py_type)
| ListOf (t : py_type)
| OptionalOf (t : py_type)
| OptionalListOf (t : py_type).

(** The exceptions the module can raise.  [ValueError] carries its message;
    [TypeError] carries the three fields its message is formatted from
    (parameter, expected annotation, declared default).  The three
    [TypeError]s that Python itself raises when it binds the arguments of a
    call carry the name of the argument: a keyword argument named like a
    parameter that a positional argument already fills, a parameter left
    without argument, and a keyword argument that the function does not
    take. *)
Inductive exn : Type :=
| ValueError (msg : string)
| TypeError (k : string) (expected : annotation) (dflt : value)
| TypeError_multiple_values (arg : string)
| TypeError_missing_argument (arg : string)
| TypeError_unexpected_keyword (arg : string)
| KeyError (key : string)
| KeyErrorType (t : click_type)
| IndexError
| UnboundLocalError (var : string)
| AttributeError
| RuntimeError (msg : string).

Inductive res (A : Type) : Type :=
| Ok (a : A)
| Raise (e : exn).
Arguments Ok {A} a.
Arguments Raise {A} e.

Definition res_bind {A B : Type} (r : res A) (k : A -> res B) : res B :=
  match r with
  | Ok a => k a
  | Raise e => Raise e
  end.

Declare Scope res_scope.
Delimit Scope res_scope with res.
Notation "x <- c ;; k" := (res_bind c (fun x => k))
  (at level 100, c at next level, right associativity) : res_scope.
Open Scope res_scope.

Definition is_Ok {A : Type} (r : res A) : bool :=
  match r with Ok _ => true | Raise _ => false end.

(** ** Ordered dictionaries

    [dict] and [OrderedDict] keep insertion order; assigning to a key that
    is present replaces the value in place, assigning to a new key appends. *)

Definition odict (V : Type) : Type := list (string * V).

Fixpoint od_get {V : Type} (k : string) (d : odict V) : option V :=
  match d with
  | [] => None
  | (k', v) :: d' => if String.eqb k k' then Some v else od_get k d'
  end.

Definition od_mem {V : Type} (k : string) (d : odict V) : bool :=
  match od_get k d with Some _ => true | None => false end.

Fixpoint od_set {V : Type} (k : string) (v : V) (d : odict V) : odict V :=
  match d with
  | [] => [(k, v)]
  | (k', v') :: d' =>
      if String.eqb k k' then (k', v) :: d' else (k', v') :: od_set k v d'
  end.

(** [d.update(other)] (and a sequence of assignments in a loop). *)
Definition od_update {V : Type} (other : list (string * V)) (d : odict V) : odict V :=
  fold_left (fun acc kv => od_set (fst kv) (snd kv) acc) other d.

Definition od_keys {V : Type} (d : odict V) : list string := map fst d.
Definition od_values {V : Type} (d : odict V) : list V := map snd d.

(** [d[k]], which raises [KeyError] on a missing key. *)
Definition od_index {V : Type} (k : string) (d : odict V) : res V :=
  match od_get k d with
  | Some v => Ok v
  | None => Raise (KeyError k)
  end.

(** ** Click parameters *)

Inductive param_class : Type :=
| Argument      (* click.Argument *)
| Option_       (* click.Option *)
| OtherParameter.

Record param : Type := mkParam {
  param_class_of : param_class;
  param_name : string;
  param_opts : list string;
  param_secondary_opts : list string;
  param_type : click_type;
  param_required : bool;
  param_multiple : bool;
  param_nargs : Z;
  param_default : value;
  param_is_bool_flag : bool
}.

Definition click_to_python_types (t : click_type) : res py_type :=
  match t with
  | StringParamType => Ok Pstr
  | IntParamType => Ok Pint
  | FloatParamType => Ok Pfloat
  | BoolParamType => Ok Pbool
  | UUIDParameterType => Ok PUUID
  | Path => Ok Pstr
  | DateTime => Ok Pdatetime
  | Tuple => Ok Ptuple
  | Choice => Ok Pstr
  | File => Ok Pstr
  | JSONTypeClass => Ok PJSON
  | FilePathClass => Ok Pstr
  | LocalFileInput => Ok Pstr
  | OtherParamType _ => Raise (KeyErrorType t)
  end.

Definition get_annotation (p : param) : res annotation :=
  py <- click_to_python_types (param_type p) ;;
  let many := param_multiple p || Z.eqb (param_nargs p) (-1) in
  if negb (param_required p) then
    if many then Ok (OptionalListOf py) else Ok (OptionalOf py)
  else
    if many then Ok (ListOf py) else Ok (Plain py).

(** [annotation == JSON]. [JSON] is itself a [Union] that contains [None],
    and [typing] flattens nested unions, so [Optional[JSON]] is equal to
    [JSON]. *)
Definition annotation_is_JSON (a : annotation) : bool :=
  match a with
  | Plain PJSON | OptionalOf PJSON => true
  | _ => false
  end.

Inductive inspect_kind : Type := POSITIONAL_ONLY | KEYWORD_ONLY.

Record inspect_param : Type := mkInspect {
  ip_name : string;
  ip_kind : inspect_kind;
  ip_default : value;
  ip_annotation : annotation
}.

(** What the module asks of Python itself, and the source does not show:
    the exception, if any, that the constructor
    [inspect.Parameter(name=.., kind=..)] raises for a name and a kind (a
    name that is a keyword or no identifier is refused); the exception, if
    any, that [Signature.replace(parameters=..)] raises for parameters in
    this order (a positional-only parameter after a keyword-only one is
    refused); and the names of the attributes that every object has from
    the class [object] and from its own class object ([__class__],
    [__dict__], [__doc__], [__repr__] and the like). *)
Class Python : Type := {
  inspect_Parameter_error : string -> inspect_kind -> option exn;
  inspect_Signature_error : list inspect_param -> option exn;
  object_attribute : string -> bool
}.

(** The arguments of the call are evaluated first, [get_annotation(p)]
    among them; then the constructor checks the name. *)
Definition get_inspect_param_obj {py : Python} (p : param) (kind : inspect_kind)
    : res inspect_param :=
  a <- get_annotation p ;;
  match inspect_Parameter_error (param_name p) kind with
  | Some e => Raise e
  | None => Ok (mkInspect (param_name p) kind (param_default p) a)
  end.

(** ** Signatures: [extract_all_params]

    The five ordered dictionaries [extract_all_params] returns. *)

Record signature : Type := mkSignature {
  params_sigs : odict inspect_param;
  possible_arg_params : odict param;
  possible_opt_params : odict param;
  annotations : odict annotation;
  defaults : odict value
}.

(** The dictionaries filled by the loop over [cmd_obj.params]. *)
Record extraction : Type := mkExtraction {
  arg_params_sigs : odict inspect_param;
  opt_params_sigs : odict inspect_param;
  arg_parameters : odict param;
  opt_parameters : odict param;
  x_annotations : odict annotation;
  x_defaults : odict value
}.

Definition empty_extraction : extraction := mkExtraction [] [] [] [] [] [].

Section Signatures.
Context {py : Python}.

(** One iteration of [for each_param in cmd_obj.params]. *)
Definition extract_param (x : extraction) (each_param : param) : res extraction :=
  x1 <- match param_class_of each_param with
        | Argument =>
            sig <- get_inspect_param_obj each_param POSITIONAL_ONLY ;;
            Ok (mkExtraction
                  (od_set (param_name each_param) sig (arg_params_sigs x))
                  (opt_params_sigs x)
                  (od_set (param_name each_param) each_param (arg_parameters x))
                  (opt_parameters x) (x_annotations x) (x_defaults x))
        | Option_ =>
            sig <- get_inspect_param_obj each_param KEYWORD_ONLY ;;
            Ok (mkExtraction
                  (arg_params_sigs x)
                  (od_set (param_name each_param) sig (opt_params_sigs x))
                  (arg_parameters x)
                  (od_set (param_name each_param) each_param (opt_parameters x))
                  (x_annotations x) (x_defaults x))
        | OtherParameter => Ok x
        end ;;
  a <- get_annotation each_param ;;
  Ok (mkExtraction
        (arg_params_sigs x1) (opt_params_sigs x1)
        (arg_parameters x1) (opt_parameters x1)
        (od_set (param_name each_param) a (x_annotations x1))
        (od_set (param_name each_param) (param_default each_param) (x_defaults x1))).

Fixpoint extract_params (x : extraction) (params : list param) : res extraction :=
  match params with
  | [] => Ok x
  | p :: rest => x' <- extract_param x p ;; extract_params x' rest
  end.

Definition extract_all_params (params : list param) : res signature :=
  x <- extract_params empty_extraction params ;;
  (* first, fill in positional arguments; then, fill in keyword arguments *)
  let sigs := od_update (opt_params_sigs x) (od_update (arg_params_sigs x) []) in
  Ok (mkSignature sigs (arg_parameters x) (opt_parameters x)
        (x_annotations x) (x_defaults x)).

(** [inspect.signature(_method).replace(parameters=params_sigs.values())],
    the assignment to [m.__signature__] that [from_cli], [extract_group]
    and [extract_command] make once [extract_all_params] returned. *)
Definition signature_replace (sig : signature) : res unit :=
  match inspect_Signature_error (od_values (params_sigs sig)) with
  | Some e => Raise e
  | None => Ok tt
  end.

End Signatures.

(** ** The binder: [_method_sanity_check] *)

(** [method_params = {"args": {...}, "options": {...}}]. *)
Record method_params : Type := mkMethodParams {
  mp_args : odict value;
  mp_options : odict value
}.

(** [p.opts[0].strip("-")]; indexing an empty list raises [IndexError]. *)
Definition first_stripped (l : list string) : res string :=
  match l with
  | o :: _ => Ok (strip_dashes o)
  | [] => Raise IndexError
  end.

Definition cli_name_of (p : param) : res string := first_stripped (param_opts p).

Definition unknown_argument_msg (supplied_k : string) (possible : list string) : string :=
  "Unknown argument: '" ++ supplied_k ++ "', possible args are: "
    ++ String.concat ", " possible.

Definition missing_argument_msg (cli_name : string) : string :=
  "Missing argument: " ++ cli_name ++ " is required.".

(** The names of the four parameters of [_method_sanity_check]. *)
Definition binder_parameters : list string :=
  ["possible_arg_params"; "possible_opt_params"; "annotations"; "defaults"].

Definition is_binder_parameter (k : string) : bool :=
  existsb (String.eqb k) binder_parameters.

Section Binder.

(** The two library functions the binder calls: typeguard's [check_type]
    ([true] when the value has the annotated type, [false] when it raises
    [TypeCheckError]) and [json.dumps]. *)
Variable check_type : value -> annotation -> bool.
Variable json_dumps : value -> string.

(** The state of the loop over the supplied keyword arguments:
    [method_params] and the local variable [cli_name], which a boolean
    flag whose value is neither [True] nor [False] leaves as the previous
    iteration set it ([None] while it is unbound). *)
Record bind_state : Type := mkBindState {
  bs_params : method_params;
  bs_cli_name : option string
}.

Definition bind_init : bind_state := mkBindState (mkMethodParams [] []) None.

Definition set_arg (cli_name : string) (v : value) (st : bind_state) : bind_state :=
  mkBindState
    (mkMethodParams (od_set cli_name v (mp_args (bs_params st)))
                    (mp_options (bs_params st)))
    (Some cli_name).

Definition set_option (cli_name : string) (v : value) (st : bind_state) : bind_state :=
  mkBindState
    (mkMethodParams (mp_args (bs_params st))
                    (od_set cli_name v (mp_options (bs_params st))))
    (Some cli_name).

Definition flag_marker : value := VAtom (AStr "flag").

(** One iteration of [for supplied_k, supplied_v in kwargs.items()]. *)
Definition bind_supplied (sig : signature) (possible_params : odict param)
    (st : bind_state) (kv : string * value) : res bind_state :=
  let '(supplied_k, supplied_v) := kv in
  if negb (od_mem supplied_k possible_params) then
    Raise (ValueError (unknown_argument_msg supplied_k (od_keys possible_params)))
  else
    ann <- od_index supplied_k (annotations sig) ;;
    _ <- (if check_type supplied_v ann then Ok tt
          else dflt <- od_index supplied_k (defaults sig) ;;
               Raise (TypeError supplied_k ann dflt)) ;;
    (* because Click expects stringified JSON.. *)
    let supplied_v :=
      if annotation_is_JSON ann then VAtom (AStr (json_dumps supplied_v))
      else supplied_v in
    match od_get supplied_k (possible_arg_params sig) with
    | Some p =>
        cli_name <- cli_name_of p ;;
        Ok (set_arg cli_name supplied_v st)
    | None =>
        match od_get supplied_k (possible_opt_params sig) with
        | Some p =>
            if param_is_bool_flag p then
              (* it is a boolean flag.. *)
              if py_eq_True supplied_v then
                cli_name <- cli_name_of p ;;
                Ok (set_option cli_name flag_marker st)
              else if py_eq_False supplied_v then
                match param_secondary_opts p with
                | _ :: _ =>
                    cli_name <- first_stripped (param_secondary_opts p) ;;
                    Ok (set_option cli_name flag_marker st)
                | [] => Ok st  (* continue *)
                end
              else
                match bs_cli_name st with
                | Some cli_name => Ok (set_option cli_name flag_marker st)
                | None => Raise (UnboundLocalError "cli_name")
                end
            else
              cli_name <- cli_name_of p ;;
              Ok (set_option cli_name supplied_v st)
        | None => Ok st
        end
    end.

Fixpoint bind_all_supplied (sig : signature) (possible_params : odict param)
    (st : bind_state) (kwargs : list (string * value)) : res bind_state :=
  match kwargs with
  | [] => Ok st
  | kv :: rest =>
      st' <- bind_supplied sig possible_params st kv ;;
      bind_all_supplied sig possible_params st' rest
  end.

(** The loop [for _, possible_v in possible_params.items()]. *)
Fixpoint check_required (mp : method_params) (possible : list param) : res unit :=
  match possible with
  | [] => Ok tt
  | possible_v :: rest =>
      cli_name <- cli_name_of possible_v ;;
      if negb (od_mem cli_name (mp_args mp)) && negb (od_mem cli_name (mp_options mp))
         && param_required possible_v
      then Raise (ValueError (missing_argument_msg cli_name))
      else check_required mp rest
  end.

Definition merged_params (sig : signature) : odict param :=
  od_update (possible_opt_params sig) (od_update (possible_arg_params sig) []).

(** The call [_method_sanity_check(possible_arg_params, possible_opt_params,
    annotations, defaults, **kwargs)].  Python binds the four positional
    arguments, then the keyword arguments in their order: the first one
    named like one of the four parameters raises [TypeError], before the
    body runs. *)
Definition _method_sanity_check (sig : signature) (kwargs : list (string * value))
    : res method_params :=
  match List.find (fun kv => is_binder_parameter (fst kv)) kwargs with
  | Some kv => Raise (TypeError_multiple_values (fst kv))
  | None =>
      let possible_params := merged_params sig in
      st <- bind_all_supplied sig possible_params bind_init kwargs ;;
      _ <- check_required (bs_params st) (od_values possible_params) ;;
      Ok (bs_params st)
  end.

End Binder.

(** ** Click commands and the compiled callables *)

(** [click.Command], [click.Group] (with its ordered [commands]) and any
    other object a group may hold, with the text of its type. The names of
    the commands are taken to differ from the names that the methods of
    [MetaflowAPI] and the functions [_method] look up on an object
    ([parent], [chain], [execute], [_chain], [_API_NAME],
    [_compute_flow_parameters] and the special methods of Python): a member
    of such a name would stand in their way. *)
Inductive command : Type :=
| Command (name : string) (params : list param) (has_flow_params : bool)
| Group (name : string) (params : list param) (commands : list (string * command))
| OtherCommand (name : string) (type_text : string).

Definition command_name (c : command) : string :=
  match c with
  | Command n _ _ | Group n _ _ | OtherCommand n _ => n
  end.

Definition command_params (c : command) : list param :=
  match c with
  | Command _ ps _ | Group _ ps _ => ps
  | OtherCommand _ _ => []
  end.

(** A flow-level [metaflow.Parameter]: its name, the class attribute
    [IS_CONFIG_PARAMETER] and the keyword arguments handed to
    [click.Option]. *)
Record option_kwargs : Type := mkKwargs {
  kw_type : click_type;
  kw_required : bool;
  kw_multiple : bool;
  kw_default : value;
  kw_is_flag : bool
}.

Record flow_parameter : Type := mkFlowParameter {
  fp_name : string;
  IS_CONFIG_PARAMETER : bool;
  fp_kwargs : option_kwargs
}.

(** The function [_method] that [extract_group] and [extract_command]
    return, with what its closure holds: the signature and, for a group,
    the class built from [class_dict]. *)
Inductive callable : Type :=
| GroupMethod (cls_name : string) (class_dict : list (string * callable))
    (sig : signature)
| CommandMethod (cmd_name : string) (sig : signature).

Definition cannot_handle_msg (name type_text : string) : string :=
  "Cannot handle " ++ name ++ " of type " ++ type_text.

Section Compiler.

Context {py : Python}.

(** The constructor [click.Option(("--name",), **kwargs)]. *)
Variable click_Option : string -> option_kwargs -> param.

(** [for p in flow_parameters[::-1]: cmd_obj.params.insert(0, ...)]. *)
Definition insert_flow_params (flow_parameters : list flow_parameter)
    (params : list param) : list param :=
  fold_left
    (fun ps p => click_Option ("--" ++ fp_name p) (fp_kwargs p) :: ps)
    (rev flow_parameters) params.

(** [extract_command]: returns the parameter list of [cmd_obj] as the call
    leaves it, and the callable (or the exception raised). *)
Definition extract_command (name : string) (params : list param)
    (has_flow_params : bool) (flow_parameters : list flow_parameter)
    : list param * res callable :=
  let params' :=
    if has_flow_params then insert_flow_params flow_parameters params
    else params in
  (params',
   sig <- extract_all_params params' ;;
   _ <- signature_replace sig ;;
   Ok (CommandMethod name sig)).

(** The loop [for _, sub_cmd_obj in cmd_obj.commands.items()] of
    [extract_group], over the function applied to each child: returns the
    children as the loop leaves them, and [class_dict] (or the exception
    raised). *)
Section Loop.
Variable extract_sub : command -> command * res callable.

Fixpoint extract_loop (cs : list (string * command))
    (class_dict : odict callable) {struct cs}
    : list (string * command) * res (odict callable) :=
  match cs with
  | [] => ([], Ok class_dict)
  | (k, sub_cmd_obj) :: rest =>
      let '(sub', r) := extract_sub sub_cmd_obj in
      match r with
      | Raise e => ((k, sub') :: rest, Raise e)
      | Ok m =>
          let '(rest', r') :=
            extract_loop rest (od_set (command_name sub_cmd_obj) m class_dict) in
          ((k, sub') :: rest', r')
      end
  end.
End Loop.

(** [extract_group], and the dispatch on the kind of [cmd_obj] that its
    loop and [_lazy_load_command] both make: returns the command as the
    call leaves it, and the callable (or the exception raised). *)
Fixpoint extract (flow_parameters : list flow_parameter) (cmd_obj : command)
    {struct cmd_obj} : command * res callable :=
  match cmd_obj with
  | Group name params commands =>
      let '(commands', r) :=
        extract_loop (extract flow_parameters) commands [] in
      (Group name params commands',
       class_dict <- r ;;
       sig <- extract_all_params params ;;
       _ <- signature_replace sig ;;
       Ok (GroupMethod name class_dict sig))
  | Command name params has_flow_params =>
      let '(params', r) :=
        extract_command name params has_flow_params flow_parameters in
      (Command name params' has_flow_params, r)
  | OtherCommand name type_text =>
      (cmd_obj, Raise (RuntimeError (cannot_handle_msg name type_text)))
  end.

Definition extract_group (name : string) (params : list param)
    (commands : list (string * command)) (flow_parameters : list flow_parameter)
    : command * res callable :=
  extract flow_parameters (Group name params commands).

End Compiler.

(** ** The store of [MetaflowAPI] objects *)

Abbreviation loc := nat (only parsing).

(** The value of one chain entry [{name: params}]: the dictionary [params],
    whose keys ["args"] and ["options"] are removed by [dict.pop]. *)
Record stored_params : Type := mkStored {
  sp_args : option (odict value);
  sp_options : option (odict value)
}.

Definition store_params (mp : method_params) : stored_params :=
  mkStored (Some (mp_args mp)) (Some (mp_options mp)).

Definition chain_entry : Type := (string * stored_params)%type.

Inductive api_class : Type :=
| RootClass (flow_file : string)
| GroupClass (name : string) (class_dict : odict callable).

Definition _API_NAME (c : api_class) : string :=
  match c with
  | RootClass flow_file => flow_file
  | GroupClass name _ => name
  end.

(** A flow class, through what [_get_parameters] yields. *)
Record flow_cls : Type := mkFlowCls {
  _get_parameters : list flow_parameter
}.

Record api_object : Type := mkObject {
  obj_class : api_class;
  _parent : option loc;
  _chain : list chain_entry;
  _flow_cls : option flow_cls;
  _cached_computed_parameters : option (list flow_parameter);
  (* attributes [setattr(_self, name, result)] adds to the instance *)
  obj_attrs : odict callable
}.

(** The objects, the click metadata [cli_collection] that the root class
    closes over (and [extract_command] updates in place), and the trace of
    the calls [param.init()], each of which is taken to return. *)
Record state : Type := mkState {
  heap : list api_object;
  cli_collection : command;
  init_calls : list string
}.

(** What a call does: it returns or raises, in a new state, or the model
    has no behaviour for it ([Stuck]: a reference to no object, a parent
    link that never reaches a root, or the call of an attribute that is
    neither a compiled callable nor [execute]). *)
Inductive outcome (A : Type) : Type :=
| Returns (st : state) (a : A)
| Raises (st : state) (e : exn)
| Stuck.
Arguments Returns {A} st a.
Arguments Raises {A} st e.
Arguments Stuck {A}.

Definition set_heap (st : state) (h : list api_object) : state :=
  mkState h (cli_collection st) (init_calls st).

Definition MetaflowAPI__init__ (cls : api_class) (parent : option loc)
    (flow : option flow_cls) (kwargs : method_params) : api_object :=
  mkObject cls parent [(_API_NAME cls, store_params kwargs)] flow None [].

(** ** The serializer: [MetaflowAPI.execute] *)

Definition emit_args (args : odict value) : list atom :=
  flat_map (fun kv => match snd kv with
                      | VList l => l
                      | VAtom a => [a]
                      end) args.

Definition flag_token (k : string) : atom := AStr ("--" ++ k).

Definition emit_option (kv : string * value) : list atom :=
  match snd kv with
  | VList l => flat_map (fun i => [flag_token (fst kv); AStr (py_str i)]) l
  | VAtom a =>
      flag_token (fst kv) :: (if py_ne_flag a then [AStr (py_str a)] else [])
  end.

Definition emit_options (options : odict value) : list atom :=
  flat_map emit_option options.

(** [params.pop(key, {})]. *)
Definition pop_default (d : option (odict value)) : odict value :=
  match d with Some x => x | None => [] end.

(** The body of [for cmd, params in each_cmd.items()]: the tokens appended,
    and the entry as the two [pop]s leave it. *)
Definition emit_cmd (e : chain_entry) : list atom :=
  AStr (fst e) :: emit_args (pop_default (sp_args (snd e)))
    ++ emit_options (pop_default (sp_options (snd e))).

Definition popped (e : chain_entry) : chain_entry := (fst e, mkStored None None).

(** [while current.parent: parents.append(current.parent); ...]. *)
Fixpoint collect_parents (fuel : nat) (h : list api_object) (current : loc)
    : option (list loc) :=
  match h !! current with
  | None => None
  | Some o =>
      match _parent o with
      | None => Some []
      | Some p =>
          match fuel with
          | O => None
          | S fuel' =>
              match collect_parents fuel' h p with
              | Some ps => Some (p :: ps)
              | None => None
              end
          end
      end
  end.

Definition set_chain (o : api_object) (c : list chain_entry) : api_object :=
  mkObject (obj_class o) (_parent o) c (_flow_cls o)
    (_cached_computed_parameters o) (obj_attrs o).

(** The loop over [final_chain], one object's chain at a time. *)
Fixpoint serialize (h : list api_object) (ls : list loc)
    : list atom * list api_object :=
  match ls with
  | [] => ([], h)
  | l :: rest =>
      match h !! l with
      | None => serialize h rest
      | Some o =>
          let h' := <[l := set_chain o (map popped (_chain o))]> h in
          let '(toks, h'') := serialize h' rest in
          ((flat_map emit_cmd (_chain o) ++ toks)%list, h'')
      end
  end.

Definition execute (st : state) (self : loc) : outcome (list atom) :=
  match collect_parents (length (heap st)) (heap st) self with
  | None => Stuck
  | Some parents =>
      let '(components, h) := serialize (heap st) (rev parents ++ [self]) in
      Returns (set_heap st h) components
  end.

(** Every parent link points to an object created earlier: the stores the
    API builds are of this kind, and on them the walk to the root ends. *)
Definition wf_heap (h : list api_object) : Prop :=
  forall l o p, h !! l = Some o -> _parent o = Some p -> p < l.

(** ** The API: root callable, member access, invocation *)

Definition set_cached (o : api_object) (c : option (list flow_parameter))
    : api_object :=
  mkObject (obj_class o) (_parent o) (_chain o) (_flow_cls o) c (obj_attrs o).

Definition set_attrs (o : api_object) (a : odict callable) : api_object :=
  mkObject (obj_class o) (_parent o) (_chain o) (_flow_cls o)
    (_cached_computed_parameters o) a.

Definition non_start_msg : string :=
  "Computing flow-level parameters for a non start API. "
    ++ "Please report to the Metaflow team.".

Definition not_config (p : flow_parameter) : bool := negb (IS_CONFIG_PARAMETER p).

(** [MetaflowAPI._compute_flow_parameters]. *)
Definition _compute_flow_parameters (st : state) (self : loc)
    : outcome (list flow_parameter) :=
  match heap st !! self with
  | None => Stuck
  | Some o =>
      match _flow_cls o, _parent o with
      | Some flow, None =>
          match _cached_computed_parameters o with
          | Some cached => Returns st cached
          | None =>
              let computed := List.filter not_config (_get_parameters flow) in
              Returns
                (mkState (<[self := set_cached o (Some computed)]> (heap st))
                   (cli_collection st)
                   (init_calls st ++ map fp_name computed)%list)
                computed
          end
      | _, _ => Raises st (RuntimeError non_start_msg)
      end
  end.

(** [cli_collection.get_command(None, name)] of a [click.Group]; a plain
    command has no such method. *)
Definition get_command (cli : command) (name : string) : res (option command) :=
  match cli with
  | Group _ _ commands => Ok (od_get name commands)
  | _ => Raise AttributeError
  end.

(** The metadata after the child [name] was updated in place. *)
Definition with_command (cli : command) (name : string) (c : command) : command :=
  match cli with
  | Group n ps commands => Group n ps (od_set name c commands)
  | _ => cli
  end.

(** What a call of a compiled callable returns: a new chain object, or the
    tokens. *)
Inductive retval : Type :=
| RObject (l : loc)
| RTokens (components : list atom).

(** The function [_method] that [from_cli] returns. *)
Record root_method : Type := mkRootMethod {
  rm_flow_file : string;
  rm_flow_cls : option flow_cls;
  rm_sig : signature
}.

(** What an attribute access returns: a compiled callable, bound to the
    object, or an attribute that Python finds by its normal lookup, given
    by its name. *)
Inductive attribute : Type :=
| Member (m : callable)
| Own (name : string).

(** The names that the class [MetaflowAPI] and its instances define: the
    three properties, the attributes that [__init__] assigns, the methods,
    and the entries of the [class_dict] the class of the object is built
    from, other than the members of a group. *)
Definition properties : list string := ["parent"; "chain"; "name"].

Definition instance_attributes : list string :=
  ["_parent"; "_chain"; "_flow_cls"; "_cached_computed_parameters"].

Definition methods : list string :=
  ["__init__"; "from_cli"; "execute"; "_compute_flow_parameters"].

Definition class_entries (c : api_class) : list string :=
  match c with
  | RootClass _ =>
      ["__module__"; "_API_NAME"; "_internal_getattr"; "__getattr__"]
  | GroupClass _ _ => ["__module__"; "_API_NAME"]
  end.

Definition named (names : list string) (name : string) : bool :=
  existsb (String.eqb name) names.

(** The members of the class of an object: [extract_group] puts the
    callables of the children into [class_dict]; the class that [from_cli]
    builds has none. *)
Definition class_member (c : api_class) (name : string) : option callable :=
  match c with
  | RootClass _ => None
  | GroupClass _ class_dict => od_get name class_dict
  end.

Section Api.

Context {py : Python}.
Variable check_type : value -> annotation -> bool.
Variable json_dumps : value -> string.
Variable click_Option : string -> option_kwargs -> param.

Definition set_cli (st : state) (c : command) : state :=
  mkState (heap st) c (init_calls st).

(** [_lazy_load_command], with [flow_parameters] the name of the method
    [_compute_flow_parameters], as [from_cli] binds it. *)
Definition _lazy_load_command (st : state) (_self : loc) (name : string)
    : outcome callable :=
  match _compute_flow_parameters st _self with
  | Stuck => Stuck
  | Raises st1 e => Raises st1 e
  | Returns st1 flow_parameters =>
      match get_command (cli_collection st1) name with
      | Raise e => Raises st1 e
      | Ok None => Raises st1 AttributeError
      | Ok (Some cmd_obj) =>
          let '(cmd_obj', r) := extract click_Option flow_parameters cmd_obj in
          let st2 := set_cli st1 (with_command (cli_collection st1) name cmd_obj') in
          match r with
          | Raise e => Raises st2 e
          | Ok result =>
              match heap st2 !! _self with
              | None => Stuck
              | Some o =>
                  Returns
                    (set_heap st2
                       (<[_self := set_attrs o (od_set name result (obj_attrs o))]>
                          (heap st2)))
                    result
              end
          end
      end
  end.

(** Python's normal lookup of [obj.name], which comes before
    [__getattr__]: a property of [MetaflowAPI] (unless a member of the
    class hides it), then the attributes of the instance (those of
    [__init__], and those [setattr] added), then what the class of the
    object, [MetaflowAPI] and [object] define.  A member of the class is a
    function, which an attribute of the instance of the same name hides. *)
Definition normal_lookup (o : api_object) (name : string) : option attribute :=
  match class_member (obj_class o) name with
  | Some m =>
      if named instance_attributes name then Some (Own name)
      else match od_get name (obj_attrs o) with
           | Some m' => Some (Member m')
           | None => Some (Member m)
           end
  | None =>
      if named properties name || named instance_attributes name
      then Some (Own name)
      else match od_get name (obj_attrs o) with
           | Some m' => Some (Member m')
           | None =>
               if named methods name
                  || named (class_entries (obj_class o)) name
                  || object_attribute name
               then Some (Own name)
               else None
           end
  end.

(** The attribute access [obj.name]: the normal lookup, then
    [__getattr__], which only the class that [from_cli] builds defines, as
    [_lazy_load_command]. *)
Definition py_getattr (st : state) (obj : loc) (name : string)
    : outcome attribute :=
  match heap st !! obj with
  | None => Stuck
  | Some o =>
      match normal_lookup o name with
      | Some a => Returns st a
      | None =>
          match obj_class o with
          | GroupClass _ _ => Raises st AttributeError
          | RootClass _ =>
              match _lazy_load_command st obj name with
              | Returns st1 m => Returns st1 (Member m)
              | Raises st1 e => Raises st1 e
              | Stuck => Stuck
              end
          end
      end
  end.

Definition alloc (st : state) (o : api_object) : state :=
  set_heap st (heap st ++ [o])%list.

Definition append_chain (o : api_object) (e : chain_entry) : api_object :=
  set_chain o (_chain o ++ [e])%list.

(** The call [m(_self, **kwargs)] of a compiled callable, which is the
    function [_method(_self, **kwargs)]: a keyword argument named [_self]
    raises [TypeError], the parameter being filled already. *)
Definition call_method (st : state) (_self : loc) (m : callable)
    (kwargs : list (string * value)) : outcome retval :=
  if od_mem "_self" kwargs then Raises st (TypeError_multiple_values "_self")
  else
  match m with
  | GroupMethod cls_name class_dict sig =>
      match _method_sanity_check check_type json_dumps sig kwargs with
      | Raise e => Raises st e
      | Ok method_params =>
          Returns
            (alloc st (MetaflowAPI__init__ (GroupClass cls_name class_dict)
                         (Some _self) None method_params))
            (RObject (length (heap st)))
      end
  | CommandMethod cmd_name sig =>
      match _method_sanity_check check_type json_dumps sig kwargs with
      | Raise e => Raises st e
      | Ok method_params =>
          match heap st !! _self with
          | None => Stuck
          | Some o =>
              let st1 :=
                set_heap st
                  (<[_self := append_chain o (cmd_name, store_params method_params)]>
                     (heap st)) in
              match execute st1 _self with
              | Returns st2 components => Returns st2 (RTokens components)
              | Raises st2 e => Raises st2 e
              | Stuck => Stuck
              end
          end
      end
  end.

(** [MetaflowAPI.from_cli], after the flow class was loaded from
    [flow_file] and the decorator options were added to [cli_collection]. *)
Definition from_cli (flow_file : string) (flow : option flow_cls)
    (cli : command) : res root_method :=
  match cli with
  | OtherCommand _ _ => Raise AttributeError
  | _ =>
      sig <- extract_all_params (command_params cli) ;;
      _ <- signature_replace sig ;;
      Ok (mkRootMethod flow_file flow sig)
  end.

(** How Python binds the arguments of [api(...)], a call with keyword
    arguments only of the function [_method(_self, **kwargs)] that
    [from_cli] returns.  A keyword argument [_self] fills the parameter
    [_self], which the body does not use, and is not among [kwargs].
    Without it the parameter takes the last of [m.__defaults__], the
    defaults of the parameters of the command line; when there is none, the
    call raises [TypeError]. *)
Definition root_kwargs (sig : signature) (kwargs : list (string * value))
    : res (list (string * value)) :=
  if od_mem "_self" kwargs then
    Ok (List.filter (fun kv => negb (String.eqb (fst kv) "_self")) kwargs)
  else
    match defaults sig with
    | [] => Raise (TypeError_missing_argument "_self")
    | _ :: _ => Ok kwargs
    end.

(** The call [api(...)] with keyword arguments [kwargs] of the root callable. *)
Definition call_root (st : state) (m : root_method)
    (kwargs : list (string * value)) : outcome retval :=
  match root_kwargs (rm_sig m) kwargs with
  | Raise e => Raises st e
  | Ok kwargs =>
      match _method_sanity_check check_type json_dumps (rm_sig m) kwargs with
      | Raise e => Raises st e
      | Ok method_params =>
          Returns
            (alloc st (MetaflowAPI__init__ (RootClass (rm_flow_file m)) None
                         (rm_flow_cls m) method_params))
            (RObject (length (heap st)))
      end
  end.

(** [obj.name(...)] with keyword arguments [kwargs]: the attribute access
    followed by the call.  The call of a compiled callable is
    [call_method]; [obj.execute(...)] is the method [execute], which takes
    no keyword argument.  The call of any other attribute that the normal
    lookup finds is not a call of the API, and has no behaviour here. *)
Definition invoke (st : state) (obj : loc) (name : string)
    (kwargs : list (string * value)) : outcome retval :=
  match py_getattr st obj name with
  | Returns st1 (Member m) => call_method st1 obj m kwargs
  | Returns st1 (Own n) =>
      if String.eqb n "execute" then
        match kwargs with
        | [] =>
            match execute st1 obj with
            | Returns st2 components => Returns st2 (RTokens components)
            | Raises st2 e => Raises st2 e
            | Stuck => Stuck
            end
        | (k, _) :: _ => Raises st1 (TypeError_unexpected_keyword k)
        end
      else Stuck
  | Raises st1 e => Raises st1 e
  | Stuck => Stuck
  end.

End Api.


(** ** A concrete command line, for the examples *)

Module Example.

(** A type check standing for typeguard's on the values of the examples
    ([None], booleans, integers, strings and lists of these): [isinstance]
    on a value that is not a list, with integers accepted where a float is
    expected, element by element on a list, and [None] accepted by the
    optional annotations. *)
Definition atom_has_type (a : atom) (t : py_type) : bool :=
  match a, t with
  | AStr _, Pstr => true
  | AInt _, Pint => true
  | ABool _, Pbool => true
  | ABool _, Pint => true
  | AInt _, Pfloat => true
  | ABool _, Pfloat => true
  | _, PJSON => true
  | _, _ => false
  end.

Definition check_type (v : value) (a : annotation) : bool :=
  match a, v with
  | Plain t, VAtom x => atom_has_type x t
  | OptionalOf _, VAtom ANone => true
  | OptionalOf t, VAtom x => atom_has_type x t
  | ListOf t, VList l => forallb (fun x => atom_has_type x t) l
  | OptionalListOf _, VAtom ANone => true
  | OptionalListOf t, VList l => forallb (fun x => atom_has_type x t) l
  | _, _ => false
  end.

(** [json.dumps] on the values of the examples: [null], [true] and
    [false], an integer in decimal, a string between double quotes with the
    quote, the backslash and the characters outside the printable ASCII
    range escaped, and a list between brackets. *)
Definition double_quote : string := String (ascii_of_nat 34) EmptyString.

Definition hex_digit (n : nat) : string :=
  String.substring n 1 "0123456789abcdef".

Definition json_escape (c : ascii) : string :=
  let n := nat_of_ascii c in
  if Nat.eqb n 34 then "\" ++ double_quote
  else if Nat.eqb n 92 then "\\"
  else if Nat.eqb n 10 then "\n"
  else if Nat.eqb n 13 then "\r"
  else if Nat.eqb n 9 then "\t"
  else if Nat.eqb n 8 then "\b"
  else if Nat.eqb n 12 then "\f"
  else if Nat.leb 32 n && Nat.leb n 126 then String c EmptyString
  else "\u00" ++ hex_digit (Nat.div n 16) ++ hex_digit (Nat.modulo n 16).

Fixpoint json_escape_string (s : string) : string :=
  match s with
  | EmptyString => EmptyString
  | String c s' => json_escape c ++ json_escape_string s'
  end.

Definition json_atom (a : atom) : string :=
  match a with
  | ANone => "null"
  | ABool true => "true"
  | ABool false => "false"
  | AInt z => NilZero.string_of_int (Z.to_int z)
  | AStr s => double_quote ++ json_escape_string s ++ double_quote
  | AObj r => r
  end.

Definition json_dumps (v : value) : string :=
  match v with
  | VAtom a => json_atom a
  | VList l => "[" ++ String.concat ", " (map json_atom l) ++ "]"
  end.

(** Python, for the examples: the keywords of the language and the
    identifiers made of ASCII letters, digits and underscores, for the
    check of [inspect.Parameter] on a name that is not empty; the order of
    the kinds for the check of [inspect.Signature]; and the attributes of
    [object] and of a class object. *)
Definition keywords : list string :=
  ["False"; "None"; "True"; "and"; "as"; "assert"; "async"; "await";
   "break"; "class"; "continue"; "def"; "del"; "elif"; "else"; "except";
   "finally"; "for"; "from"; "global"; "if"; "import"; "in"; "is";
   "lambda"; "nonlocal"; "not"; "or"; "pass"; "raise"; "return"; "try";
   "while"; "with"; "yield"].

Definition is_letter (c : ascii) : bool :=
  let n := nat_of_ascii c in
  (Nat.leb 65 n && Nat.leb n 90) || (Nat.leb 97 n && Nat.leb n 122)
  || Nat.eqb n 95.

Definition is_digit (c : ascii) : bool :=
  let n := nat_of_ascii c in Nat.leb 48 n && Nat.leb n 57.

Fixpoint identifier_rest (s : string) : bool :=
  match s with
  | EmptyString => true
  | String c s' => (is_letter c || is_digit c) && identifier_rest s'
  end.

Definition isidentifier (s : string) : bool :=
  match s with
  | EmptyString => false
  | String c s' => is_letter c && identifier_rest s'
  end.

Definition invalid_name_msg (name : string) : string :=
  "'" ++ name ++ "' is not a valid parameter name".

Definition Parameter_error (name : string) (kind : inspect_kind) : option exn :=
  let keyword := match kind with
                 | KEYWORD_ONLY => named keywords name
                 | POSITIONAL_ONLY => false
                 end in
  if keyword || negb (isidentifier name)
  then Some (ValueError (invalid_name_msg name))
  else None.

Definition wrong_order_msg : string :=
  "wrong parameter order: keyword-only parameter before positional-only parameter".

Fixpoint Signature_error (params : list inspect_param) : option exn :=
  match params with
  | [] => None
  | p :: rest =>
      match ip_kind p with
      | POSITIONAL_ONLY => Signature_error rest
      | KEYWORD_ONLY =>
          if existsb (fun q => match ip_kind q with
                               | POSITIONAL_ONLY => true
                               | KEYWORD_ONLY => false
                               end) rest
          then Some (ValueError wrong_order_msg)
          else None
      end
  end.

Definition object_attributes : list string :=
  ["__class__"; "__delattr__"; "__dict__"; "__dir__"; "__doc__"; "__eq__";
   "__format__"; "__ge__"; "__getattribute__"; "__getstate__"; "__gt__";
   "__hash__"; "__init_subclass__"; "__le__"; "__lt__"; "__ne__"; "__new__";
   "__reduce__"; "__reduce_ex__"; "__repr__"; "__setattr__"; "__sizeof__";
   "__str__"; "__subclasshook__"; "__weakref__"].

Definition python : Python :=
  Build_Python Parameter_error Signature_error (named object_attributes).

(** [click.Option(("--name",), **kwargs)], the name with underscores. *)
Definition underscore (c : ascii) : ascii :=
  if is_dash c then "_"%char else c.

Fixpoint underscores (s : string) : string :=
  match s with
  | EmptyString => EmptyString
  | String c s' => String (underscore c) (underscores s')
  end.

Definition click_Option (decl : string) (kw : option_kwargs) : param :=
  mkParam Option_ (underscores (strip_dashes decl)) [decl] []
    (kw_type kw) (kw_required kw) (kw_multiple kw) 1 (kw_default kw)
    (kw_is_flag kw).

Definition opt (name : string) (decl : string) (t : click_type)
    (required multiple : bool) : param :=
  mkParam Option_ name [decl] [] t required multiple 1 (VAtom ANone) false.

Definition flag (name : string) (decl : string) (secondary : list string)
    (required : bool) : param :=
  mkParam Option_ name [decl] secondary BoolParamType required false 1
    (VAtom (ABool false)) true.

Definition argument (name : string) (required : bool) (nargs : Z) : param :=
  mkParam Argument name [name] [] StringParamType required false nargs
    (VAtom ANone) false.

Definition metadata : param := opt "metadata" "--metadata" StringParamType false false.
Definition tags : param := opt "tags" "--tags" StringParamType false true.
Definition decospecs : param := opt "decospecs" "--decospecs" StringParamType false true.
Definition max_workers : param := opt "max_workers" "--max-workers" IntParamType false false.

Definition run : command := Command "run" [tags; decospecs; max_workers] false.

Definition verbose : param := flag "verbose" "--verbose" ["--quiet"] false.
Definition force : param := flag "force" "--force" [] false.
Definition files : param := argument "files" false (-1).

(** The signature of a parameter list whose types are all in the table. *)
Definition sig_of (params : list param) : signature :=
  match extract_all_params (py := python) params with
  | Ok sig => sig
  | Raise _ => mkSignature [] [] [] [] []
  end.

(** A required option that declares a default, and a required flag. *)
Definition retries : param :=
  mkParam Option_ "retries" ["--retries"] [] IntParamType true false 1
    (VAtom (AInt 5)) false.

Definition confirm : param := flag "confirm" "--confirm" ["--no-confirm"] true.

(** A flow-level parameter and a leaf that takes the flow parameters. *)
Definition alpha : flow_parameter :=
  mkFlowParameter "alpha" false (mkKwargs IntParamType false false (VAtom (AInt 3)) false).

Definition run_with_flow_params : command :=
  Command "run" [tags; decospecs; max_workers] true.

Definition step : command :=
  Command "step" [argument "step_name" true 1] false.

Definition kubernetes : command := Group "kubernetes" [] [("step", step)].

Definition start : command :=
  Group "start" [metadata] [("run", run); ("kubernetes", kubernetes)].

Definition flow : flow_cls := mkFlowCls [].

(** A flow class with a flow-level parameter and a config parameter. *)
Definition config : flow_parameter :=
  mkFlowParameter "config" true (mkKwargs StringParamType false false (VAtom ANone) false).

Definition flow_with_parameters : flow_cls := mkFlowCls [config; alpha].

(** A state with one root object, as [api()] creates it. *)
Definition root_object (flow_class : option flow_cls) : api_object :=
  MetaflowAPI__init__ (RootClass "flow.py") None flow_class
    (mkMethodParams [] []).

Definition one_root (flow_class : option flow_cls) : state :=
  mkState [root_object flow_class] start [].

Definition initial (cli : command) : state := mkState [] cli [].

Definition abc_def : value := VList [AStr "abc"; AStr "def"].

Definition run_kwargs : list (string * value) :=
  [("tags", abc_def); ("decospecs", VList [AStr "kubernetes"]);
   ("max_workers", VAtom (AInt 5))].

Definition expected_tokens : list atom :=
  map AStr ["--metadata"; "local"; "run"; "--tags"; "abc"; "--tags"; "def";
            "--decospecs"; "kubernetes"; "--max-workers"; "5"].

Definition returned_state {A : Type} (st0 : state) (o : outcome A) : state :=
  match o with
  | Returns st _ | Raises st _ => st
  | Stuck => st0
  end.

Definition returned_object (o : outcome retval) : loc :=
  match o with
  | Returns _ (RObject l) => l
  | _ => 0
  end.

Definition returned_tokens (o : outcome retval) : list atom :=
  match o with
  | Returns _ (RTokens components) => components
  | _ => []
  end.

Section Chains.
Context {py : Python}.
Variable check : value -> annotation -> bool.
Variable dumps : value -> string.
Variable mk_option : string -> option_kwargs -> param.
Variable flow_file : string.
Variable flow_class : option flow_cls.

(** [api(metadata="local")] for the callable [api] that [from_cli]
    returns for [flow_file]. *)
Definition call_api (kwargs : list (string * value)) : outcome retval :=
  match from_cli flow_file flow_class start with
  | Raise e => Raises (initial start) e
  | Ok api => call_root check dumps (initial start) api kwargs
  end.

(** The state after [root = api(...)] with the keyword arguments
    [kwargs]; the root object is at location 0. *)
Definition with_root (kwargs : list (string * value)) : state :=
  returned_state (initial start) (call_api kwargs).

(** The state after [root = api()] and [k = root.kubernetes()]; the
    objects are at locations 0 and 1. *)
Definition with_group : state :=
  returned_state (initial start)
    (invoke check dumps mk_option (with_root []) 0 "kubernetes" []).


(** [api(metadata="local").run(tags=["abc", "def"], ...)]. *)
Definition end_to_end : outcome retval :=
  match call_api [("metadata", VAtom (AStr "local"))] with
  | Returns st (RObject root) =>
      invoke check dumps mk_option st root "run" run_kwargs
  | other => other
  end.
End Chains.

(** The command line of the example with the leaf [run] flagged
    [has_flow_params]. *)
Definition start_with_flow_params : command :=
  Group "start" [metadata]
    [("run", run_with_flow_params); ("kubernetes", kubernetes)].

(** A second command line: a leaf that takes a required flag with a
    secondary spelling, a leaf that takes a multi-value option and an
    optional flag, and a leaf that takes a flag whose one spelling is
    short. *)
Definition deploy : command := Command "deploy" [confirm] false.

Definition launch : command := Command "launch" [tags; verbose] false.

Definition brief : param := flag "brief" "-b" [] false.

Definition status : command := Command "status" [brief] false.

Definition tool : command :=
  Group "tool" [metadata]
    [("deploy", deploy); ("launch", launch); ("status", status)].

(** The state after [root = api()] for the callable [api] that [from_cli]
    returns for this command line; the root object is at location 0. *)
Definition tool_root : state :=
  returned_state (initial tool)
    (match from_cli (py := python) "flow.py" (Some flow) tool with
     | Raise e => Raises (initial tool) e
     | Ok api => call_root check_type json_dumps (initial tool) api []
     end).

(** [root.name(...)] on that state. *)
Definition tool_call (name : string) (kwargs : list (string * value))
    : outcome retval :=
  invoke (py := python) check_type json_dumps click_Option tool_root 0 name kwargs.

End Example.

(** ** Notions used in the statements *)

(** No leaf of the tree is flagged [has_flow_params]. *)
Fixpoint no_flow_params (c : command) : bool :=
  match c with
  | Command _ _ has_flow_params => negb has_flow_params
  | Group _ _ commands =>
      (fix all (cs : list (string * command)) : bool :=
         match cs with
         | [] => true
         | (_, sub) :: rest => no_flow_params sub && all rest
         end) commands
  | OtherCommand _ _ => true
  end.

(** The option [extract_command] builds for a flow-level parameter. *)
Definition flow_option (click_Option : string -> option_kwargs -> param)
    (p : flow_parameter) : param :=
  click_Option ("--" ++ fp_name p) (fp_kwargs p).

(** The value at a key after an update: the last one the update assigns,
    or the one already there. *)
Fixpoint od_last {V : Type} (k : string) (l : list (string * V))
    (dflt : option V) : option V :=
  match l with
  | [] => dflt
  | (k', v) :: l' => od_last k l' (if String.eqb k k' then Some v else dflt)
  end.

(** The annotation of a parameter whose type is in the table. *)
Definition ann_of (p : param) : annotation :=
  match get_annotation p with
  | Ok a => a
  | Raise _ => Plain Pstr
  end.

(** The exception one parameter makes [extract_all_params] raise: the
    [KeyError] of a type that is not in the table; else, for an argument or
    an option, what [inspect.Parameter] raises for its name. *)
Definition param_error {py : Python} (p : param) : option exn :=
  match get_annotation p with
  | Raise e => Some e
  | Ok _ =>
      match param_class_of p with
      | Argument => inspect_Parameter_error (param_name p) POSITIONAL_ONLY
      | Option_ => inspect_Parameter_error (param_name p) KEYWORD_ONLY
      | OtherParameter => None
      end
  end.

(** The exception [extract_all_params] stops with: that of the first
    parameter that has one. *)
Fixpoint first_error {py : Python} (params : list param) : option exn :=
  match params with
  | [] => None
  | p :: rest =>
      match param_error p with
      | Some e => Some e
      | None => first_error rest
      end
  end.

(** The assignments [d[p.name] = val p] that a loop over [params] makes for
    the parameters selected by [sel]. *)
Definition entries {W : Type} (sel : param -> bool) (val : param -> W)
    (params : list param) : list (string * W) :=
  map (fun p => (param_name p, val p)) (List.filter sel params).

Definition is_argument (p : param) : bool :=
  match param_class_of p with Argument => true | _ => false end.

Definition is_option (p : param) : bool :=
  match param_class_of p with Option_ => true | _ => false end.

Definition inspect_of (kind : inspect_kind) (p : param) : inspect_param :=
  mkInspect (param_name p) kind (param_default p) (ann_of p).

(** The dictionaries of [extract_all_params] after a loop over [params]
    that raises nothing. *)
Definition extracted (x : extraction) (params : list param) : extraction :=
  mkExtraction
    (od_update (entries is_argument (inspect_of POSITIONAL_ONLY) params) (arg_params_sigs x))
    (od_update (entries is_option (inspect_of KEYWORD_ONLY) params) (opt_params_sigs x))
    (od_update (entries is_argument (fun p => p) params) (arg_parameters x))
    (od_update (entries is_option (fun p => p) params) (opt_parameters x))
    (od_update (entries (fun _ => true) ann_of params) (x_annotations x))
    (od_update (entries (fun _ => true) param_default params) (x_defaults x)).

Definition signature_of (x : extraction) : signature :=
  mkSignature
    (od_update (opt_params_sigs x) (od_update (arg_params_sigs x) []))
    (arg_parameters x) (opt_parameters x) (x_annotations x) (x_defaults x).




(** The pairs [--name value], one for each value. *)
Definition flag_pairs (name : string) (values : list atom) : list atom :=
  flat_map (fun i => [flag_token name; AStr (py_str i)]) values.

(** The name under which the binder stores a parameter. *)
Definition canonical_name (p : param) : string :=
  strip_dashes (hd "" (param_opts p)).

Definition in_binding (mp : method_params) (n : string) : bool :=
  od_mem n (mp_args mp) || od_mem n (mp_options mp).

(** A declaration marked required with no entry under its name. *)
Definition missing_required (mp : method_params) (p : param) : bool :=
  negb (in_binding mp (canonical_name p)) && param_required p.

Definition has_spelling (p : param) : Prop := param_opts p <> [].

(** The declarations of a signature, in the order of the required check. *)
Definition declarations (sig : signature) : list param :=
  od_values (merged_params sig).

(** The claim on required parameters as the specification words it: the
    binder raises the missing-argument error exactly when a required
    declaration has no supplied value and no default. *)
Definition required_claim (check_type : value -> annotation -> bool)
    (json_dumps : value -> string) (sig : signature)
    (kwargs : list (string * value)) : Prop :=
  (exists n, _method_sanity_check check_type json_dumps sig kwargs =
             Raise (ValueError (missing_argument_msg n)))
  <->
  (exists p, In p (declarations sig) /\ param_required p = true
             /\ od_mem (param_name p) kwargs = false
             /\ param_default p = VAtom ANone).

(** Python binds the call of the binder: no supplied key is the name of
    one of its four parameters. *)
Definition call_binds (kwargs : list (string * value)) : Prop :=
  List.find (fun kv => is_binder_parameter (fst kv)) kwargs = None.

(** The keyword arguments of a call other than [_self]. *)
Definition other_than_self (kwargs : list (string * value))
    : list (string * value) :=
  List.filter (fun kv => negb (String.eqb (fst kv) "_self")) kwargs.

(** A supplied key that matches no declaration. *)
Definition has_unknown_key (sig : signature) (kwargs : list (string * value))
    : Prop :=
  exists kv, In kv kwargs /\ od_mem (fst kv) (merged_params sig) = false.

(** The claim on unknown keys as the specification words it: whenever some
    supplied key matches no declaration, the binder raises the
    unknown-argument error. *)
Definition unknown_key_claim (check_type : value -> annotation -> bool)
    (json_dumps : value -> string) (sig : signature)
    (kwargs : list (string * value)) : Prop :=
  has_unknown_key sig kwargs ->
  exists k, _method_sanity_check check_type json_dumps sig kwargs =
            Raise (ValueError (unknown_argument_msg k (od_keys (merged_params sig)))).

(** The signature a compiled callable binds with. *)
Definition callable_sig (m : callable) : signature :=
  match m with
  | GroupMethod _ _ sig | CommandMethod _ sig => sig
  end.

(** The tree with the options built from the flow-level parameters in
    front of the parameters of every leaf flagged [has_flow_params], and
    nothing else changed. *)
Fixpoint augmented (click_Option : string -> option_kwargs -> param)
    (fps : list flow_parameter) (c : command) : command :=
  match c with
  | Command n ps true =>
      Command n (map (flow_option click_Option) fps ++ ps)%list true
  | Command _ _ false => c
  | Group n ps commands =>
      Group n ps
        ((fix all (cs : list (string * command)) : list (string * command) :=
            match cs with
            | [] => []
            | (k, sub) :: rest => (k, augmented click_Option fps sub) :: all rest
            end) commands)
  | OtherCommand _ _ => c
  end.

(** [c'] is [c] with these options in front of the parameters of some of
    its leaves flagged [has_flow_params], and nothing else changed: the
    names, the parameters of the groups and of the other leaves, the keys
    and the order of the children are those of [c]. *)
Inductive augmented_at (click_Option : string -> option_kwargs -> param)
    (fps : list flow_parameter) : command -> command -> Prop :=
| augmented_nowhere c : augmented_at click_Option fps c c
| augmented_leaf n ps :
    augmented_at click_Option fps (Command n ps true)
      (Command n (map (flow_option click_Option) fps ++ ps)%list true)
| augmented_group n ps cs cs' :
    Forall2 (fun kc kc' => fst kc = fst kc'
                           /\ augmented_at click_Option fps (snd kc) (snd kc'))
      cs cs' ->
    augmented_at click_Option fps (Group n ps cs) (Group n ps cs').

(** The claim on compilation as the specification words it: a second
    compilation gives the same callable, and compilation leaves the
    metadata as it found it. *)
Definition compilation_claim {py : Python}
    (click_Option : string -> option_kwargs -> param)
    (fps : list flow_parameter) (c : command) : Prop :=
  snd (extract click_Option fps (fst (extract click_Option fps c))) =
  snd (extract click_Option fps c)
  /\ fst (extract click_Option fps c) = c.

(** ** Runs of the API *)

(** The state an operation ends in. *)
Definition ends_in {A : Type} (o : outcome A) (st' : state) : Prop :=
  match o with
  | Returns st _ | Raises st _ => st = st'
  | Stuck => False
  end.

Section Runs.
Context {py : Python}.
Variable check_type : value -> annotation -> bool.
Variable json_dumps : value -> string.
Variable click_Option : string -> option_kwargs -> param.

(** One operation of a caller on the API. *)
Inductive api_step (st st' : state) : Prop :=
| step_call_root (m : root_method) (kwargs : list (string * value)) :
    ends_in (call_root check_type json_dumps st m kwargs) st' ->
    api_step st st'
| step_call_method (self : loc) (m : callable) (kwargs : list (string * value)) :
    ends_in (call_method check_type json_dumps st self m kwargs) st' ->
    api_step st st'
| step_getattr (obj : loc) (name : string) :
    ends_in (py_getattr click_Option st obj name) st' ->
    api_step st st'
| step_execute (self : loc) :
    ends_in (execute st self) st' ->
    api_step st st'
| step_compute (self : loc) :
    ends_in (_compute_flow_parameters st self) st' ->
    api_step st st'.

Inductive api_steps : state -> state -> Prop :=
| steps_refl st : api_steps st st
| steps_next st st' st'' :
    api_step st st' -> api_steps st' st'' -> api_steps st st''.

End Runs.

(** What no operation changes in an object: its parent, its flow class, its
    class, and its cache of flow parameters once it is filled. *)
Definition keeps_identity (o o' : api_object) : Prop :=
  _parent o' = _parent o /\ _flow_cls o' = _flow_cls o
  /\ obj_class o' = obj_class o
  /\ forall c, _cached_computed_parameters o = Some c ->
               _cached_computed_parameters o' = Some c.

Definition heap_extends (h h' : list api_object) : Prop :=
  forall l o, h !! l = Some o ->
              exists o', h' !! l = Some o' /\ keeps_identity o o'.

(** The claim on member access as worded: a name that matches no child
    command of the group raises [AttributeError]. *)
Definition missing_member_claim {py : Python}
    (click_Option : string -> option_kwargs -> param)
    (st : state) (obj : loc) (name : string) : Prop :=
  get_command (cli_collection st) name = Ok None ->
  exists st', py_getattr click_Option st obj name = Raises st' AttributeError.

(** The chains of a state, object by object. *)
Definition chain_at (st : state) (l : loc) : option (list chain_entry) :=
  _chain <$> heap st !! l.


(** The claim on the serializer as worded: a second serialization returns
    the tokens the first returned, and the first leaves the chains as they
    were. *)
Definition serializer_claim (st : state) (self : loc) : Prop :=
  forall st1 toks,
    execute st self = Returns st1 toks ->
    (exists st2, execute st1 self = Returns st2 toks)
    /\ forall l, chain_at st1 l = chain_at st l.



(** The claim on the end-to-end example as worded: the call chain returns
    exactly the expected tokens. *)
Definition end_to_end_claim (flow_file : string) : Prop :=
  exists st,
    Example.end_to_end (py := Example.python) Example.check_type
      Example.json_dumps Example.click_Option flow_file (Some Example.flow) =
    Returns st (RTokens Example.expected_tokens).



(** ** Loading the flow class: [extract_flow_class_from_file] *)

(** A class among the members of a loaded module: the class [FlowSpec]
    itself (a flow file imports it), a subclass of it, or any other
    class. *)
Inductive module_class : Type :=
| FlowSpec_itself
| FlowSpec_subclass (name : string) (cls : flow_cls)
| Other_class (name : string).

(** [kls != FlowSpec and issubclass(kls, FlowSpec)]. *)
Definition is_flow_subclass (kls : module_class) : bool :=
  match kls with
  | FlowSpec_subclass _ _ => true
  | _ => false
  end.

(** A module, through [inspect.getmembers(module, inspect.isclass)]. *)
Record py_module : Type := mkModule {
  class_members : list (string * module_class)
}.

(** The exceptions of the loader: the two the function raises itself, the
    [AttributeError] of [module_from_spec(None)], and whatever the code of
    the module raises, with its text. *)
Inductive load_exn : Type :=
| FileNotFoundError (msg : string)
| MetaflowException (msg : string)
| NoneType_AttributeError
| ModuleError (text : string).

(** The interpreter state the function reads and writes: [sys.path], the
    module-level cache [loaded_modules], and the trace of the files whose
    code was executed. *)
Record loader_state : Type := mkLoader {
  sys_path : list string;
  loaded_modules : odict py_module;
  executed : list string
}.

Definition file_not_present_msg (flow_file : string) : string :=
  "Flow file not present at '" ++ flow_file ++ "'".

Definition multiple_classes_msg (flow_file : string) : string :=
  "Multiple FlowSpec classes found in " ++ flow_file.

(** The loop [for _, kls in classes] with the local variable [flow_cls]. *)
Fixpoint pick_flow_class (flow_file : string)
    (classes : list (string * module_class)) (flow_cls : option module_class)
    : load_exn + option module_class :=
  match classes with
  | [] => inr flow_cls
  | (_, kls) :: rest =>
      if is_flow_subclass kls then
        match flow_cls with
        | Some _ => inl (MetaflowException (multiple_classes_msg flow_file))
        | None => pick_flow_class flow_file rest (Some kls)
        end
      else pick_flow_class flow_file rest flow_cls
  end.

(** [sys.path.remove(x)], with the [ValueError] of an absent [x] caught. *)
Fixpoint remove_first (x : string) (l : list string) : list string :=
  match l with
  | [] => []
  | y :: l' => if String.eqb x y then l' else y :: remove_first x l'
  end.

Definition in_path (x : string) (l : list string) : bool :=
  existsb (String.eqb x) l.

Section Loader.

(** The operating system and the import machinery: [os.path.exists];
    [os.path.dirname(os.path.abspath(...))]; whether
    [spec_from_file_location] finds a loader for the file (it returns
    [None] for a path it cannot load, a file without the suffix of a
    module for instance); and the execution of the code of the file by
    [exec_module], given [sys.path], which returns [sys.path] as the code
    leaves it, and the module or the text of the exception raised. *)
Variable path_exists : string -> bool.
Variable flow_dir_of : string -> string.
Variable spec_found : string -> bool.
Variable load_module : string -> list string -> list string * (string + py_module).

Definition extract_flow_class_from_file (st : loader_state) (flow_file : string)
    : loader_state * (load_exn + option module_class) :=
  if negb (path_exists flow_file) then
    (st, inl (FileNotFoundError (file_not_present_msg flow_file)))
  else
    let flow_dir := flow_dir_of flow_file in
    (* Only add to path if it's not already there *)
    let path_was_added := negb (in_path flow_dir (sys_path st)) in
    let path1 := if path_was_added then flow_dir :: sys_path st else sys_path st in
    (* try *)
    let '(st2, r) :=
      match od_get flow_file (loaded_modules st) with
      | Some module =>
          (mkLoader path1 (loaded_modules st) (executed st),
           pick_flow_class flow_file (class_members module) None)
      | None =>
          if negb (spec_found flow_file) then
            (* module_from_spec(None) raises; no code was executed *)
            (mkLoader path1 (loaded_modules st) (executed st),
             inl NoneType_AttributeError)
          else
          let '(path2, loaded) := load_module flow_file path1 in
          match loaded with
          | inl text =>
              (mkLoader path2 (loaded_modules st) (executed st ++ [flow_file])%list,
               inl (ModuleError text))
          | inr module =>
              (mkLoader path2 (od_set flow_file module (loaded_modules st))
                 (executed st ++ [flow_file])%list,
               pick_flow_class flow_file (class_members module) None)
          end
      end in
    (* finally: only remove from path if we added it *)
    (mkLoader
       (if path_was_added then remove_first flow_dir (sys_path st2)
        else sys_path st2)
       (loaded_modules st2) (executed st2),
     r).

End Loader.

(** The subclasses of [FlowSpec] among the members of a module. *)
Definition flow_subclasses (classes : list (string * module_class))
    : list module_class :=
  List.filter is_flow_subclass (map snd classes).

(** A flow file, for the examples of the loader. *)
Module LoaderExample.

Definition hello_flow : module_class := FlowSpec_subclass "HelloFlow" Example.flow.

Definition hello_module : py_module :=
  mkModule [("FlowSpec", FlowSpec_itself); ("HelloFlow", hello_flow);
            ("Helper", Other_class "Helper")].

Definition path_exists (f : string) : bool := String.eqb f "flow.py".

Definition flow_dir_of (f : string) : string := "/work".

Definition spec_found (f : string) : bool := true.

Definition load_module (f : string) (p : list string)
    : list string * (string + py_module) :=
  (p, inr hello_module).

Definition fresh : loader_state := mkLoader ["/usr/lib/python"] [] [].

End LoaderExample.

(** ** Notions for the further properties of the compiler *)

(** The exception the parameters of one node make its compilation raise:
    that of the first parameter that has one, else what
    [Signature.replace] raises for the parameters in the order of
    [params_sigs]. *)
Definition params_error {py : Python} (ps : list param) : option exn :=
  match first_error ps with
  | Some e => Some e
  | None =>
      inspect_Signature_error
        (od_values (params_sigs (signature_of (extracted empty_extraction ps))))
  end.

(** The exception the compilation of a tree stops with: that of the first
    node, children before the group that holds them, which is neither a
    command nor a group or whose parameters have one; for a leaf flagged
    [has_flow_params] the options built from the flow-level parameters
    count among its parameters. *)
Fixpoint compile_error {py : Python}
    (click_Option : string -> option_kwargs -> param)
    (fps : list flow_parameter) (c : command) : option exn :=
  match c with
  | Command _ ps has_flow_params =>
      params_error (if has_flow_params
                    then (map (flow_option click_Option) fps ++ ps)%list
                    else ps)
  | Group _ ps commands =>
      match (fix first (cs : list (string * command)) : option exn :=
               match cs with
               | [] => None
               | (_, sub) :: rest =>
                   match compile_error click_Option fps sub with
                   | Some e => Some e
                   | None => first rest
                   end
               end) commands with
      | Some e => Some e
      | None => params_error ps
      end
  | OtherCommand name type_text =>
      Some (RuntimeError (cannot_handle_msg name type_text))
  end.

(** The names of the children of a group, as the commands bear them. *)
Definition child_names (commands : list (string * command)) : list string :=
  map (fun kc => command_name (snd kc)) commands.

Module CompileExample.

(** The callable of a compilation that returns. *)
Definition returned_callable (r : res callable) : callable :=
  match r with
  | Ok m => m
  | Raise _ => CommandMethod "" (mkSignature [] [] [] [] [])
  end.

End CompileExample.

(** ** Notions for the further properties of the binder *)

(** The exceptions of the binder on a compiled signature: those its body
    raises, and that of Python when the call supplies one of the names of
    its own parameters. *)
Definition binder_error (e : exn) : Prop :=
  (exists k names, e = ValueError (unknown_argument_msg k names))
  \/ (exists k ann dflt, e = TypeError k ann dflt)
  \/ (exists n, e = ValueError (missing_argument_msg n))
  \/ e = UnboundLocalError "cli_name"
  \/ (exists k, In k binder_parameters /\ e = TypeError_multiple_values k).

(** A name a parameter can be stored under: that of its first spelling or
    that of its first secondary spelling. *)
Definition stored_name_of (p : param) (n : string) : Prop :=
  n = canonical_name p
  \/ exists s rest, param_secondary_opts p = s :: rest /\ n = strip_dashes s.

Definition declared_name (sig : signature) (n : string) : Prop :=
  exists p, (In p (od_values (possible_arg_params sig))
             \/ In p (od_values (possible_opt_params sig)))
            /\ stored_name_of p n.

(** The invariant of the loop over the supplied arguments: the names in
    the binding, and the name in the variable [cli_name], are names of
    declared parameters. *)
Definition names_declared (sig : signature) (st : bind_state) : Prop :=
  (forall n, in_binding (bs_params st) n = true -> declared_name sig n)
  /\ (forall n, bs_cli_name st = Some n -> declared_name sig n).

(** A supplied keyword argument for an option that is not a boolean flag,
    has a spelling and no JSON annotation, with a value of its type. *)
Definition plain_option (check_type : value -> annotation -> bool)
    (sig : signature) (kv : string * value) : Prop :=
  od_get (fst kv) (possible_arg_params sig) = None
  /\ exists p ann,
       od_get (fst kv) (possible_opt_params sig) = Some p
       /\ param_is_bool_flag p = false
       /\ has_spelling p
       /\ od_get (fst kv) (annotations sig) = Some ann
       /\ annotation_is_JSON ann = false
       /\ check_type (snd kv) ann = true.

(** The name an option is stored under. *)
Definition option_name (sig : signature) (k : string) : string :=
  match od_get k (possible_opt_params sig) with
  | Some p => canonical_name p
  | None => ""
  end.

(** The supplied values under the names of their options, in the order
    supplied. *)
Definition bound_as_supplied (sig : signature) (kwargs : list (string * value))
    : odict value :=
  map (fun kv => (option_name sig (fst kv), snd kv)) kwargs.

(** The tokens of a scalar option. *)
Definition scalar_tokens (name : string) (a : atom) : list atom :=
  flag_token name :: (if py_ne_flag a then [AStr (py_str a)] else []).

Module BinderExample.

(** An option of the JSON type. *)
Definition config_value : param :=
  mkParam Option_ "config_value" ["--config-value"] [] JSONTypeClass
    false false 1 (VAtom ANone) false.

End BinderExample.

(** ** Notions for the further properties of the store *)

(** The tokens of the chain of an object. *)
Definition chain_tokens (h : list api_object) (l : loc) : list atom :=
  match h !! l with
  | Some o => flat_map emit_cmd (_chain o)
  | None => []
  end.


(** The ancestors of an object, the parent first and the root last. *)
Inductive ancestors (h : list api_object) : loc -> list loc -> Prop :=
| ancestors_root l o :
    h !! l = Some o -> _parent o = None -> ancestors h l []
| ancestors_parent l o p ps :
    h !! l = Some o -> _parent o = Some p -> ancestors h p ps ->
    ancestors h l (p :: ps).


Section Built.
Context {py : Python}.
Variable check_type : value -> annotation -> bool.
Variable json_dumps : value -> string.
Variable click_Option : string -> option_kwargs -> param.


End Built.

(** The flow-level parameters a root object works with: its cache when it
    is filled, else the parameters of the flow class that are not config
    parameters. *)
Definition flow_parameters_of (o : api_object) (flow : flow_cls)
    : list flow_parameter :=
  match _cached_computed_parameters o with
  | Some cached => cached
  | None => List.filter not_config (_get_parameters flow)
  end.

(** The parameters a leaf is compiled with. *)
Definition compiled_params (click_Option : string -> option_kwargs -> param)
    (fps : list flow_parameter) (ps : list param) (has_flow_params : bool)
    : list param :=
  if has_flow_params then (map (flow_option click_Option) fps ++ ps)%list
  else ps.

(** The signature a leaf gets from its parameters: what
    [extract_all_params] returns, when the assignment of [__signature__]
    accepts it. *)
Definition compiled_signature {py : Python} (ps : list param) : res signature :=
  sig <- extract_all_params ps ;;
  _ <- signature_replace sig ;;
  Ok sig.

Module LeafExample.

(** A command line whose leaf [run] takes the flow-level parameters. *)
Definition cli : command :=
  Group "start" [Example.metadata] [("run", Example.run_with_flow_params)].

(** Two root objects of one flow class with a config parameter and an
    integer parameter, none of them used so far. *)
Definition two_roots : state :=
  mkState [Example.root_object (Some Example.flow_with_parameters);
           Example.root_object (Some Example.flow_with_parameters)] cli [].

Definition alpha_option : param :=
  flow_option Example.click_Option Example.alpha.

Definition after_first : state :=
  Example.returned_state two_roots
    (py_getattr (py := Example.python) Example.click_Option two_roots 0 "run").

End LeafExample.

(** * Properties *)

(** ** Ordered dictionaries *)

Section OdictFacts.
Context {V : Type}.
Implicit Types (d : odict V) (k : string) (v : V).

Lemma od_get_set_eq k v d : od_get k (od_set k v d) = Some v.
Proof.
  induction d as [|[k' v'] d IH]; simpl.
  - now rewrite String.eqb_refl.
  - destruct (String.eqb k k') eqn:E; simpl; rewrite E; auto.
Qed.

Lemma od_get_set_ne k k' v d :
  k <> k' -> od_get k' (od_set k v d) = od_get k' d.
Proof.
  intros Hne. induction d as [|[k0 v0] d IH]; simpl.
  - destruct (String.eqb k' k) eqn:E; auto.
    apply String.eqb_eq in E. congruence.
  - destruct (String.eqb k k0) eqn:E; simpl.
    + apply String.eqb_eq in E. subst k0.
      destruct (String.eqb k' k) eqn:E'; auto.
      apply String.eqb_eq in E'. congruence.
    + now rewrite IH.
Qed.

Lemma od_get_set k k' v d :
  od_get k' (od_set k v d) = if String.eqb k' k then Some v else od_get k' d.
Proof.
  destruct (String.eqb k' k) eqn:E.
  - apply String.eqb_eq in E. subst. apply od_get_set_eq.
  - apply od_get_set_ne. intros ->. now rewrite String.eqb_refl in E.
Qed.

Lemma od_mem_set k k' v d :
  od_mem k' (od_set k v d) = String.eqb k' k || od_mem k' d.
Proof.
  unfold od_mem. rewrite od_get_set. now destruct (String.eqb k' k).
Qed.

Lemma od_mem_set_same k v d : od_mem k (od_set k v d) = true.
Proof. now rewrite od_mem_set, String.eqb_refl. Qed.

Lemma od_mem_set_mono k k' v d :
  od_mem k' d = true -> od_mem k' (od_set k v d) = true.
Proof. intros H. rewrite od_mem_set, H. apply orb_true_r. Qed.

Lemma od_mem_keys k d : od_mem k d = true <-> In k (od_keys d).
Proof.
  unfold od_mem. induction d as [|[k' v'] d IH]; simpl.
  - split; [discriminate | tauto].
  - destruct (String.eqb k k') eqn:E.
    + apply String.eqb_eq in E. subst. tauto.
    + rewrite IH. split; [tauto | intros [->|]; auto].
      now rewrite String.eqb_refl in E.
Qed.

Lemma od_keys_set k v d :
  od_keys (od_set k v d) =
  if od_mem k d then od_keys d else (od_keys d ++ [k])%list.
Proof.
  unfold od_mem. induction d as [|[k' v'] d IH]; simpl; auto.
  destruct (String.eqb k k') eqn:E; simpl; auto.
  rewrite IH. now destruct (od_get k d).
Qed.

Lemma od_set_NoDup k v d : NoDup (od_keys d) -> NoDup (od_keys (od_set k v d)).
Proof.
  intros H. rewrite od_keys_set. destruct (od_mem k d) eqn:E; auto.
  apply NoDup_app. repeat split; auto.
  - intros x Hx Hx'. apply list_elem_of_In in Hx.
    apply list_elem_of_In in Hx'. destruct Hx' as [<-|[]].
    apply od_mem_keys in Hx. congruence.
  - apply NoDup_singleton.
Qed.

(** Two dictionaries with the same keys in the same order, no key twice,
    and the same value at every key are equal. *)
Lemma od_ext d1 d2 :
  NoDup (od_keys d1) -> od_keys d1 = od_keys d2 ->
  (forall k, od_get k d1 = od_get k d2) -> d1 = d2.
Proof.
  revert d2. induction d1 as [|[k v] d1 IH]; intros [|[k2 v2] d2] Hnd Hk Hg;
    simpl in *; try discriminate; auto.
  injection Hk as <- Hk. apply NoDup_cons in Hnd as [Hnin Hnd].
  pose proof (Hg k) as Hkk. rewrite String.eqb_refl in Hkk.
  injection Hkk as <-. f_equal. apply IH; auto.
  intros k'. specialize (Hg k'). destruct (String.eqb k' k) eqn:E; auto.
  apply String.eqb_eq in E. subst k'.
  assert (od_get k d1 = None) as ->.
  { destruct (od_get k d1) eqn:G; auto. exfalso. apply Hnin.
    apply list_elem_of_In, od_mem_keys. unfold od_mem. now rewrite G. }
  destruct (od_get k d2) eqn:G; auto. exfalso. apply Hnin.
  rewrite Hk. apply list_elem_of_In, od_mem_keys. unfold od_mem. now rewrite G.
Qed.

Lemma od_update_app (a b : list (string * V)) d :
  od_update (a ++ b) d = od_update b (od_update a d).
Proof. unfold od_update. apply fold_left_app. Qed.

Lemma od_update_NoDup (l : list (string * V)) d :
  NoDup (od_keys d) -> NoDup (od_keys (od_update l d)).
Proof.
  revert d. induction l as [|[k v] l IH]; intros d H; simpl; auto.
  apply IH. now apply od_set_NoDup.
Qed.

Lemma od_mem_update (l : list (string * V)) d k :
  od_mem k (od_update l d) = od_mem k l || od_mem k d.
Proof.
  revert d. induction l as [|[k' v'] l IH]; intros d; simpl; auto.
  change (od_mem k (od_update l (od_set k' v' d)) =
          od_mem k ((k', v') :: l) || od_mem k d).
  rewrite IH, od_mem_set. unfold od_mem at 3. simpl.
  destruct (String.eqb k k') eqn:E; simpl.
  - apply orb_true_r.
  - reflexivity.
Qed.

(** Updating with keys that are all present keeps the keys. *)
Lemma od_keys_update_present (l : list (string * V)) d :
  (forall k, od_mem k l = true -> od_mem k d = true) ->
  od_keys (od_update l d) = od_keys d.
Proof.
  revert d. induction l as [|[k v] l IH]; intros d H; simpl; auto.
  change (od_keys (od_update l (od_set k v d)) = od_keys d).
  rewrite IH.
  - rewrite od_keys_set, H; auto. unfold od_mem. simpl.
    now rewrite String.eqb_refl.
  - intros k' Hk'. rewrite od_mem_set. destruct (String.eqb k' k) eqn:E; auto.
    simpl. apply H. unfold od_mem. simpl. now rewrite E.
Qed.

Lemma od_get_update (l : list (string * V)) d k :
  od_get k (od_update l d) = od_last k l (od_get k d).
Proof.
  revert d. induction l as [|[k' v'] l IH]; intros d; simpl; auto.
  change (od_get k (od_update l (od_set k' v' d)) =
          od_last k l (if String.eqb k k' then Some v' else od_get k d)).
  now rewrite IH, od_get_set.
Qed.

Lemma od_last_idem (l : list (string * V)) k o :
  od_last k l (od_last k l o) = od_last k l o.
Proof.
  revert o. induction l as [|[k' v'] l IH]; intros o; simpl; auto.
  destruct (String.eqb k k') eqn:E; auto.
Qed.

(** Running the same assignments a second time changes nothing. *)
Lemma od_update_idem (l : list (string * V)) d :
  NoDup (od_keys d) -> od_update l (od_update l d) = od_update l d.
Proof.
  intros Hnd. apply od_ext.
  - now repeat apply od_update_NoDup.
  - apply od_keys_update_present. intros k Hk.
    rewrite od_mem_update, Hk. reflexivity.
  - intros k. rewrite !od_get_update. apply od_last_idem.
Qed.

End OdictFacts.

(** ** The compiler: [extract_all_params], [extract_command], [extract_group] *)

Lemma entries_app {W : Type} sel (val : param -> W) a b :
  entries sel val (a ++ b) = (entries sel val a ++ entries sel val b)%list.
Proof. unfold entries. now rewrite List.filter_app, map_app. Qed.

Lemma entries_cons {W : Type} sel (val : param -> W) p l :
  entries sel val (p :: l) =
  ((if sel p then [(param_name p, val p)] else []) ++ entries sel val l)%list.
Proof. unfold entries. simpl. now destruct (sel p). Qed.

Lemma od_update_entries_cons {W : Type} sel (val : param -> W) p l d :
  od_update (entries sel val (p :: l)) d =
  od_update (entries sel val l)
    (if sel p then od_set (param_name p) (val p) d else d).
Proof. rewrite entries_cons, od_update_app. now destruct (sel p). Qed.

Section SignatureFacts.
Context {py : Python}.

Lemma extract_param_ok x p :
  param_error p = None -> extract_param x p = Ok (extracted x [p]).
Proof.
  unfold param_error, extract_param, get_inspect_param_obj, extracted, entries,
    inspect_of, ann_of, is_argument, is_option.
  destruct (get_annotation p) as [a|e] eqn:Ha; [|discriminate].
  destruct x; simpl.
  destruct (param_class_of p); simpl; intros He; rewrite ?He, ?Ha; simpl;
    rewrite ?Ha; reflexivity.
Qed.

Lemma extract_param_raise x p e :
  param_error p = Some e -> extract_param x p = Raise e.
Proof.
  unfold param_error, extract_param, get_inspect_param_obj.
  destruct (get_annotation p) as [a|e'] eqn:Ha.
  - destruct (param_class_of p); simpl; try discriminate;
      now intros ->.
  - intros [= <-]. destruct (param_class_of p); reflexivity.
Qed.

Lemma extracted_cons x p l : extracted (extracted x [p]) l = extracted x (p :: l).
Proof.
  unfold extracted. rewrite !(od_update_entries_cons _ _ p l).
  destruct x; simpl. unfold entries. simpl.
  destruct (is_argument p), (is_option p); reflexivity.
Qed.

Lemma extract_params_spec x l :
  extract_params x l =
  match first_error l with
  | Some e => Raise e
  | None => Ok (extracted x l)
  end.
Proof.
  revert x. induction l as [|p l IH]; intros x; simpl.
  - destruct x; reflexivity.
  - destruct (param_error p) as [e|] eqn:Ha.
    + now rewrite (extract_param_raise x p e Ha).
    + rewrite (extract_param_ok x p Ha). simpl. rewrite IH.
      destruct (first_error l); auto. now rewrite extracted_cons.
Qed.

Lemma extract_all_params_spec l :
  extract_all_params l =
  match first_error l with
  | Some e => Raise e
  | None => Ok (signature_of (extracted empty_extraction l))
  end.
Proof.
  unfold extract_all_params. rewrite extract_params_spec.
  destruct (first_error l); reflexivity.
Qed.

Lemma first_error_app a b :
  first_error (a ++ b) =
  match first_error a with Some e => Some e | None => first_error b end.
Proof.
  induction a as [|p a IH]; simpl; auto. now destruct (param_error p).
Qed.

Lemma od_update_entries_twice {W : Type} sel (val : param -> W) a b :
  od_update (entries sel val (a ++ a ++ b)) [] =
  od_update (entries sel val (a ++ b)) [].
Proof.
  rewrite !entries_app, !od_update_app. f_equal.
  apply od_update_idem. constructor.
Qed.

(** Parameters that occur twice in a row at the front of the list give the
    signature they give when they occur once. *)
Lemma extract_all_params_twice a b :
  extract_all_params (a ++ a ++ b) = extract_all_params (a ++ b).
Proof.
  rewrite !extract_all_params_spec, !first_error_app.
  destruct (first_error a); auto. destruct (first_error b); auto.
  unfold extracted, signature_of. simpl.
  now rewrite !od_update_entries_twice.
Qed.

End SignatureFacts.

Section CompilerFacts.
Context {py : Python}.
Variable click_Option : string -> option_kwargs -> param.

Lemma insert_flow_params_app fps ps :
  insert_flow_params click_Option fps ps =
  (map (flow_option click_Option) fps ++ ps)%list.
Proof.
  unfold insert_flow_params. revert ps.
  induction fps as [|p fps IH]; intros ps; simpl; auto.
  rewrite fold_left_app. simpl. now rewrite IH.
Qed.

Lemma extract_command_twice name ps h fps :
  snd (extract_command click_Option name
         (fst (extract_command click_Option name ps h fps)) h fps) =
  snd (extract_command click_Option name ps h fps).
Proof.
  unfold extract_command. simpl. destruct h; auto.
  rewrite !insert_flow_params_app, extract_all_params_twice. reflexivity.
Qed.

(** Induction on a command tree, with the property for every child of a
    group. *)
Lemma command_tree_ind (P : command -> Prop) :
  (forall n ps h, P (Command n ps h)) ->
  (forall n ps cs, Forall (fun kc => P (snd kc)) cs -> P (Group n ps cs)) ->
  (forall n ty, P (OtherCommand n ty)) ->
  forall c, P c.
Proof.
  intros HC HG HO. fix IH 1. intros [n ps h|n ps cs|n ty].
  - apply HC.
  - apply HG. induction cs as [|[k c] cs IHcs].
    + constructor.
    + constructor; [exact (IH c) | exact IHcs].
  - apply HO.
Qed.

Lemma extract_name fps c :
  command_name (fst (extract click_Option fps c)) = command_name c.
Proof.
  destruct c as [n ps h|n ps cs|n ty]; simpl; auto.
  destruct (extract_loop (extract click_Option fps) cs []); reflexivity.
Qed.

Lemma extract_loop_twice fps cs :
  Forall (fun kc =>
            snd (extract click_Option fps (fst (extract click_Option fps (snd kc)))) =
            snd (extract click_Option fps (snd kc))) cs ->
  forall class_dict,
    snd (extract_loop (extract click_Option fps)
           (fst (extract_loop (extract click_Option fps) cs class_dict)) class_dict) =
    snd (extract_loop (extract click_Option fps) cs class_dict).
Proof.
  induction 1 as [|[k c] cs Hc _ IH]; intros class_dict; simpl; auto.
  simpl in Hc.
  destruct (extract click_Option fps c) as [c' r] eqn:E. simpl in Hc.
  pose proof (extract_name fps c) as Hn. rewrite E in Hn. simpl in Hn.
  destruct r as [m|e]; simpl.
  - specialize (IH (od_set (command_name c) m class_dict)).
    destruct (extract_loop (extract click_Option fps) cs
                (od_set (command_name c) m class_dict)) as [rest' r'] eqn:E2.
    simpl in *.
    destruct (extract click_Option fps c') as [c'' r2] eqn:E3. simpl in Hc.
    subst r2. rewrite Hn.
    destruct (extract_loop (extract click_Option fps) rest'
                (od_set (command_name c) m class_dict)) as [rest'' r''] eqn:E4.
    simpl in *. assumption.
  - destruct (extract click_Option fps c') as [c'' r2] eqn:E3. simpl in Hc.
    subst r2. reflexivity.
Qed.

(** Compiling the metadata a first compilation left gives the callable
    the first compilation gave. *)
Lemma extract_twice fps c :
  snd (extract click_Option fps (fst (extract click_Option fps c))) =
  snd (extract click_Option fps c).
Proof.
  induction c as [n ps h|n ps cs IH|n ty] using command_tree_ind; simpl; auto.
  - apply extract_command_twice.
  - pose proof (extract_loop_twice fps cs IH []) as H.
    destruct (extract_loop (extract click_Option fps) cs []) as [cs' r] eqn:E.
    simpl in *.
    destruct (extract_loop (extract click_Option fps) cs' []) as [cs'' r'] eqn:E'.
    simpl in *. now subst r'.
Qed.

Lemma extract_loop_unchanged fps cs :
  Forall (fun kc => no_flow_params (snd kc) = true ->
                    fst (extract click_Option fps (snd kc)) = snd kc) cs ->
  no_flow_params (Group "" [] cs) = true ->
  forall class_dict,
    fst (extract_loop (extract click_Option fps) cs class_dict) = cs.
Proof.
  induction 1 as [|[k c] cs Hc _ IH]; intros Hall class_dict; simpl; auto.
  simpl in Hc, Hall. apply andb_true_iff in Hall as [Hc1 Hrest].
  specialize (Hc Hc1).
  destruct (extract click_Option fps c) as [c' r] eqn:E. simpl in Hc. subst c'.
  destruct r as [m|e]; auto.
  specialize (IH Hrest (od_set (command_name c) m class_dict)).
  destruct (extract_loop (extract click_Option fps) cs
              (od_set (command_name c) m class_dict)) as [rest' r'].
  simpl in IH. now subst.
Qed.

(** Compilation leaves a tree without augmentable leaves as it is. *)
Lemma extract_unchanged fps c :
  no_flow_params c = true -> fst (extract click_Option fps c) = c.
Proof.
  induction c as [n ps h|n ps cs IH|n ty] using command_tree_ind; simpl; auto.
  - intros H. destruct h; [discriminate | reflexivity].
  - intros H. pose proof (extract_loop_unchanged fps cs IH H []) as Hl.
    destruct (extract_loop (extract click_Option fps) cs []) as [cs' r].
    simpl in *. now subst.
Qed.

End CompilerFacts.

(** ** The binder *)

Section BinderFacts.
Variable check_type : value -> annotation -> bool.
Variable json_dumps : value -> string.

Lemma od_mem_merged sig k :
  od_mem k (merged_params sig) =
  od_mem k (possible_opt_params sig) || od_mem k (possible_arg_params sig).
Proof.
  unfold merged_params. rewrite !od_mem_update.
  unfold od_mem at 3. simpl. now rewrite orb_false_r.
Qed.

Lemma od_mem_get {V : Type} k (d : odict V) v :
  od_get k d = Some v -> od_mem k d = true.
Proof. unfold od_mem. now intros ->. Qed.

(** The binder when Python binds its call: the loop over the supplied
    arguments, then the check of the required parameters. *)
Lemma sanity_check_body sig kwargs :
  call_binds kwargs ->
  _method_sanity_check check_type json_dumps sig kwargs =
  (st <- bind_all_supplied check_type json_dumps sig (merged_params sig)
           bind_init kwargs ;;
   _ <- check_required (bs_params st) (od_values (merged_params sig)) ;;
   Ok (bs_params st)).
Proof. unfold call_binds, _method_sanity_check. now intros ->. Qed.

(** When Python does not bind it: the first supplied key that names a
    parameter of the binder is reported. *)
Lemma sanity_check_unbound sig kwargs kv :
  List.find (fun kv => is_binder_parameter (fst kv)) kwargs = Some kv ->
  _method_sanity_check check_type json_dumps sig kwargs =
  Raise (TypeError_multiple_values (fst kv)).
Proof. unfold _method_sanity_check. now intros ->. Qed.

Lemma sanity_check_returns sig kwargs mp :
  _method_sanity_check check_type json_dumps sig kwargs = Ok mp ->
  call_binds kwargs
  /\ exists st,
       bind_all_supplied check_type json_dumps sig (merged_params sig)
         bind_init kwargs = Ok st
       /\ check_required (bs_params st) (od_values (merged_params sig)) = Ok tt
       /\ mp = bs_params st.
Proof.
  unfold _method_sanity_check, call_binds.
  destruct (List.find _ kwargs); [discriminate|].
  destruct (bind_all_supplied _ _ _ _ _ _) as [st|e]; simpl; [|discriminate].
  destruct (check_required _ _) as [u|e] eqn:Hr; simpl; [|discriminate].
  destruct u. intros [= <-]. split; [reflexivity|]. exists st. auto.
Qed.

(** The binder on one supplied keyword argument: the state after the
    loop decides the result, through the check of the required
    parameters. *)
Lemma sanity_check_single sig kv st :
  is_binder_parameter (fst kv) = false ->
  bind_supplied check_type json_dumps sig (merged_params sig) bind_init kv = Ok st ->
  _method_sanity_check check_type json_dumps sig [kv] =
  (_ <- check_required (bs_params st) (od_values (merged_params sig)) ;;
   Ok (bs_params st)).
Proof.
  intros Hk H. rewrite sanity_check_body.
  - simpl. now rewrite H.
  - unfold call_binds. simpl. now rewrite Hk.
Qed.

Lemma bind_supplied_option sig k v p ann st :
  od_get k (possible_arg_params sig) = None ->
  od_get k (possible_opt_params sig) = Some p ->
  od_get k (annotations sig) = Some ann ->
  annotation_is_JSON ann = false ->
  check_type v ann = true ->
  bind_supplied check_type json_dumps sig (merged_params sig) st (k, v) =
  if param_is_bool_flag p then
    if py_eq_True v then
      cli_name <- cli_name_of p ;;
      Ok (set_option cli_name flag_marker st)
    else if py_eq_False v then
      match param_secondary_opts p with
      | _ :: _ =>
          cli_name <- first_stripped (param_secondary_opts p) ;;
          Ok (set_option cli_name flag_marker st)
      | [] => Ok st
      end
    else
      match bs_cli_name st with
      | Some cli_name => Ok (set_option cli_name flag_marker st)
      | None => Raise (UnboundLocalError "cli_name")
      end
  else
    cli_name <- cli_name_of p ;;
    Ok (set_option cli_name v st).
Proof.
  intros Harg Hopt Hann Hjson Hty. unfold bind_supplied.
  rewrite od_mem_merged, (od_mem_get _ _ _ Hopt). simpl.
  unfold od_index. rewrite Hann. simpl. rewrite Hty. simpl.
  rewrite Hjson, Harg, Hopt. reflexivity.
Qed.


Lemma emit_option_flag k : emit_option (k, flag_marker) = [flag_token k].
Proof. reflexivity. Qed.

Lemma emit_option_list k vs : emit_option (k, VList vs) = flag_pairs k vs.
Proof. reflexivity. Qed.


Lemma emit_options_app a b :
  emit_options (a ++ b)%list = (emit_options a ++ emit_options b)%list.
Proof. unfold emit_options. apply flat_map_app. Qed.

Lemma emit_args_app a b :
  emit_args (a ++ b)%list = (emit_args a ++ emit_args b)%list.
Proof. unfold emit_args. apply flat_map_app. Qed.

End BinderFacts.


(** A spelling [--name] whose name neither begins nor ends with a dash
    is given back, as a token, as it is spelled. *)
Lemma flag_token_long n :
  lstrip_dash n = n -> rstrip_dash n = n ->
  flag_token (strip_dashes ("--" ++ n)) = AStr ("--" ++ n).
Proof.
  intros Hl Hr. unfold flag_token, strip_dashes. simpl. now rewrite Hl, Hr.
Qed.

(** C4, evaluated on the leaf [deploy], whose flag [--confirm/--no-confirm]
    is required, and on the leaf [status], whose flag is spelled [-b]:
    [root.deploy(confirm=True)] returns the tokens with the one token of
    the flag; [root.deploy(confirm=False)] stores the marker under the
    secondary name, and the check of the required parameters, which looks
    under the first name, raises: no token is produced;
    [root.status(brief=True)] returns the token [--b], two dashes before
    the name that is left of the spelling without its dashes, which is not
    the spelling of the flag. *)
Theorem C4_required_flag_supplied_false :
  (exists st,
     Example.tool_call "deploy" [("confirm", VAtom (ABool true))] =
     Returns st (RTokens (map AStr ["flow.py"; "deploy"; "--confirm"])))
  /\ (exists st,
        Example.tool_call "deploy" [("confirm", VAtom (ABool false))] =
        Raises st (ValueError "Missing argument: confirm is required."))
  /\ (exists st,
        Example.tool_call "status" [("brief", VAtom (ABool true))] =
        Returns st (RTokens (map AStr ["flow.py"; "status"; "--b"]))).
Proof.
  split; [|split]; eexists; vm_compute; reflexivity.
Qed.

(** C5, evaluated on the leaf [launch], with the multi-value option
    [--tags] and the optional flag [--verbose]:
    [root.launch(tags=["a", "b", "c"])] returns the three pairs;
    [root.launch(tags=["a", "b", "c"], verbose=None)] returns the one
    token [--tags]: the flag, supplied as [None], finds the variable
    [cli_name] as the option before it left it and stores the marker of
    the flags under that name, in place of the list. *)
Theorem C5_list_replaced_by_flag_marker :
  (exists st,
     Example.tool_call "launch" [("tags", VList [AStr "a"; AStr "b"; AStr "c"])] =
     Returns st
       (RTokens (map AStr ["flow.py"; "launch"; "--tags"; "a"; "--tags"; "b";
                           "--tags"; "c"])))
  /\ (exists st,
        Example.tool_call "launch"
          [("tags", VList [AStr "a"; AStr "b"; AStr "c"]);
           ("verbose", VAtom ANone)] =
        Returns st (RTokens (map AStr ["flow.py"; "launch"; "--tags"]))).
Proof. split; eexists; vm_compute; reflexivity. Qed.

(** ** Required parameters *)

Section RequiredFacts.
Variable check_type : value -> annotation -> bool.
Variable json_dumps : value -> string.

Lemma cli_name_of_spelled p :
  has_spelling p -> cli_name_of p = Ok (canonical_name p).
Proof.
  unfold has_spelling, cli_name_of, canonical_name, first_stripped.
  destruct (param_opts p); [congruence | reflexivity].
Qed.

(** The loop over the declarations stops at the first required one that
    has no entry in the binding. *)
Lemma check_required_find mp ps :
  Forall has_spelling ps ->
  check_required mp ps =
  match List.find (missing_required mp) ps with
  | Some p => Raise (ValueError (missing_argument_msg (canonical_name p)))
  | None => Ok tt
  end.
Proof.
  induction 1 as [|p ps Hp _ IH]; simpl; auto.
  rewrite (cli_name_of_spelled p Hp). simpl.
  unfold missing_required at 1, in_binding. rewrite negb_orb.
  destruct (negb (od_mem (canonical_name p) (mp_args mp))
            && negb (od_mem (canonical_name p) (mp_options mp))
            && param_required p); auto.
Qed.

(** What one iteration of the loop over the supplied arguments does to
    the binding: nothing, or one assignment. *)
Lemma bind_supplied_shape sig possible st kv st' :
  bind_supplied check_type json_dumps sig possible st kv = Ok st' ->
  st' = st \/ exists n v, st' = set_arg n v st \/ st' = set_option n v st.
Proof.
  destruct kv as [k v]. unfold bind_supplied, res_bind, od_index, cli_name_of,
    first_stripped.
  repeat match goal with
         | |- context [match ?x with _ => _ end] => destruct x eqn:?
         end; intros H; try discriminate; injection H as <-; eauto.
Qed.

Lemma in_binding_set_arg st n v n' :
  in_binding (bs_params st) n' = true ->
  in_binding (bs_params (set_arg n v st)) n' = true.
Proof.
  unfold in_binding. simpl. intros H. apply orb_true_iff in H as [H|H].
  - now rewrite (od_mem_set_mono _ _ _ _ H).
  - rewrite H. apply orb_true_r.
Qed.

Lemma in_binding_set_option st n v n' :
  in_binding (bs_params st) n' = true ->
  in_binding (bs_params (set_option n v st)) n' = true.
Proof.
  unfold in_binding. simpl. intros H. apply orb_true_iff in H as [H|H].
  - now rewrite H.
  - rewrite (od_mem_set_mono _ _ _ _ H). apply orb_true_r.
Qed.

(** An entry of the binding stays through the rest of the loop. *)
Lemma bind_supplied_keeps sig possible st kv st' n :
  bind_supplied check_type json_dumps sig possible st kv = Ok st' ->
  in_binding (bs_params st) n = true ->
  in_binding (bs_params st') n = true.
Proof.
  intros H Hin. apply bind_supplied_shape in H as [->|(n0 & v0 & [->| ->])]; auto.
  - now apply in_binding_set_arg.
  - now apply in_binding_set_option.
Qed.

Lemma bind_all_supplied_keeps sig possible kwargs st st' n :
  bind_all_supplied check_type json_dumps sig possible st kwargs = Ok st' ->
  in_binding (bs_params st) n = true ->
  in_binding (bs_params st') n = true.
Proof.
  revert st. induction kwargs as [|kv kwargs IH]; intros st; simpl.
  - now intros [= <-].
  - destruct (bind_supplied check_type json_dumps sig possible st kv) as [st1|e] eqn:E;
      simpl; [|discriminate].
    intros H Hin. apply (IH st1 H). eapply bind_supplied_keeps; eauto.
Qed.

(** A supplied positional, or a supplied option that is not a boolean
    flag, is in the binding after its iteration. *)
Lemma bind_supplied_enters sig possible st k v st' p :
  bind_supplied check_type json_dumps sig possible st (k, v) = Ok st' ->
  od_get k (possible_arg_params sig) = Some p
  \/ (od_get k (possible_arg_params sig) = None
      /\ od_get k (possible_opt_params sig) = Some p
      /\ param_is_bool_flag p = false) ->
  in_binding (bs_params st') (canonical_name p) = true.
Proof.
  intros H Hp. unfold bind_supplied, res_bind, od_index in H.
  destruct (negb (od_mem k possible)); [discriminate|].
  destruct (od_get k (annotations sig)) as [ann|]; [|discriminate].
  destruct (check_type v ann);
    [|destruct (od_get k (defaults sig)); discriminate].
  destruct Hp as [Ha|(Ha & Ho & Hf)]; rewrite Ha in H.
  - unfold cli_name_of, first_stripped, canonical_name in *.
    destruct (param_opts p); [discriminate|]. injection H as <-.
    unfold in_binding. simpl. now rewrite od_mem_set_same.
  - rewrite Ho, Hf in H.
    unfold cli_name_of, first_stripped, canonical_name in *.
    destruct (param_opts p); [discriminate|]. injection H as <-.
    unfold in_binding. simpl. rewrite od_mem_set_same. apply orb_true_r.
Qed.

Lemma bind_all_supplied_enters sig possible kwargs st st' k v p :
  bind_all_supplied check_type json_dumps sig possible st kwargs = Ok st' ->
  In (k, v) kwargs ->
  od_get k (possible_arg_params sig) = Some p
  \/ (od_get k (possible_arg_params sig) = None
      /\ od_get k (possible_opt_params sig) = Some p
      /\ param_is_bool_flag p = false) ->
  in_binding (bs_params st') (canonical_name p) = true.
Proof.
  revert st. induction kwargs as [|kv kwargs IH]; intros st; simpl.
  - intros _ [].
  - destruct (bind_supplied check_type json_dumps sig possible st kv) as [st1|e] eqn:E;
      simpl; [|discriminate].
    intros H [->|Hin] Hp.
    + eapply bind_all_supplied_keeps; eauto.
      eapply bind_supplied_enters; eauto.
    + eapply IH; eauto.
Qed.

End RequiredFacts.

(** C6 (as amended). Required enforcement. Once every supplied keyword
    argument was processed without error (Python binds the call of the
    binder, and the loop over the supplied arguments ends), the binder
    raises the missing-argument error, naming the parameter, exactly when
    some declaration marked required has no entry under its name in the
    binding: it names the first such declaration (positionals before
    options, each in declaration order), and returns the binding when there
    is none. Whether the declaration has a default plays no part. A required
    positional, or a required option that is not a boolean flag, that was
    supplied has its entry, so the error is not raised for it. *)
Theorem C6_required_enforcement
    (check_type : value -> annotation -> bool) (json_dumps : value -> string)
    (sig : signature) (kwargs : list (string * value)) (st : bind_state) :
  Forall has_spelling (declarations sig) ->
  call_binds kwargs ->
  bind_all_supplied check_type json_dumps sig (merged_params sig) bind_init kwargs
    = Ok st ->
  _method_sanity_check check_type json_dumps sig kwargs =
    match List.find (missing_required (bs_params st)) (declarations sig) with
    | Some p => Raise (ValueError (missing_argument_msg (canonical_name p)))
    | None => Ok (bs_params st)
    end
  /\ (forall k v p,
        In (k, v) kwargs ->
        od_get k (possible_arg_params sig) = Some p
        \/ (od_get k (possible_arg_params sig) = None
            /\ od_get k (possible_opt_params sig) = Some p
            /\ param_is_bool_flag p = false) ->
        missing_required (bs_params st) p = false).
Proof.
  intros Hsp Hcall Hbind. split.
  - rewrite (sanity_check_body _ _ _ _ Hcall), Hbind. simpl.
    fold (declarations sig). rewrite (check_required_find _ _ Hsp).
    destruct (List.find _ _); reflexivity.
  - intros k v p Hin Hp. unfold missing_required.
    rewrite (bind_all_supplied_enters check_type json_dumps sig _ kwargs
               bind_init st k v p Hbind Hin Hp).
    reflexivity.
Qed.

Lemma C6_required_enforcement_witness :
  _method_sanity_check Example.check_type Example.json_dumps
    (Example.sig_of [Example.retries]) [("retries", VAtom (AInt 5))] =
    Ok (mkMethodParams [] [("retries", VAtom (AInt 5))])
  /\ _method_sanity_check Example.check_type Example.json_dumps
       (Example.sig_of [Example.retries]) [] =
     Raise (ValueError "Missing argument: retries is required.").
Proof.
  assert (Hsp : Forall has_spelling (declarations (Example.sig_of [Example.retries]))).
  { repeat constructor. discriminate. }
  split.
  - exact (proj1 (C6_required_enforcement Example.check_type Example.json_dumps
                    (Example.sig_of [Example.retries])
                    [("retries", VAtom (AInt 5))]
                    (mkBindState (mkMethodParams [] [("retries", VAtom (AInt 5))])
                       (Some "retries"))
                    Hsp eq_refl eq_refl)).
  - exact (proj1 (C6_required_enforcement Example.check_type Example.json_dumps
                    (Example.sig_of [Example.retries]) [] bind_init
                    Hsp eq_refl eq_refl)).
Defined.

(** C6, the claim as worded fails: a required option that declares the
    default 5 and is not supplied makes the binder raise the
    missing-argument error, although the declaration has a usable default. *)
Lemma C6_required_claim_counterexample :
  ~ required_claim Example.check_type Example.json_dumps
      (Example.sig_of [Example.retries]) [].
Proof.
  unfold required_claim. intros [H _].
  destruct H as (p & Hin & _ & _ & Hd).
  - exists "retries". reflexivity.
  - simpl in Hin. destruct Hin as [<-|[]]. discriminate Hd.
Qed.

(** A required boolean flag supplied as [False] is stored under its
    secondary name, and the check of the required parameters, which looks
    under the first name, raises. *)
Example required_flag_supplied_false :
  _method_sanity_check Example.check_type Example.json_dumps
    (Example.sig_of [Example.confirm]) [("confirm", VAtom (ABool false))] =
  Raise (ValueError "Missing argument: confirm is required.").
Proof. reflexivity. Qed.

(** ** Unknown keys *)

Section UnknownFacts.
Variable check_type : value -> annotation -> bool.
Variable json_dumps : value -> string.

Lemma bind_all_supplied_app sig possible a b st :
  bind_all_supplied check_type json_dumps sig possible st (a ++ b) =
  (st' <- bind_all_supplied check_type json_dumps sig possible st a ;;
   bind_all_supplied check_type json_dumps sig possible st' b).
Proof.
  revert st. induction a as [|kv a IH]; intros st; simpl; auto.
  destruct (bind_supplied check_type json_dumps sig possible st kv); simpl; auto.
Qed.

Lemma bind_supplied_unknown sig possible st k v :
  od_mem k possible = false ->
  bind_supplied check_type json_dumps sig possible st (k, v) =
  Raise (ValueError (unknown_argument_msg k (od_keys possible))).
Proof. intros H. unfold bind_supplied. now rewrite H. Qed.

Lemma bind_all_supplied_unknown sig possible kwargs :
  (exists kv, In kv kwargs /\ od_mem (fst kv) possible = false) ->
  forall st, exists e,
    bind_all_supplied check_type json_dumps sig possible st kwargs = Raise e.
Proof.
  induction kwargs as [|kv0 kwargs IH]; intros (kv & Hin & Hun) st.
  - destruct Hin.
  - cbn [bind_all_supplied].
    destruct (bind_supplied check_type json_dumps sig possible st kv0)
      as [st1|e] eqn:E; simpl; [|eauto].
    destruct Hin as [<-|Hin].
    + destruct kv0 as [k v]. simpl in Hun.
      rewrite (bind_supplied_unknown _ _ _ _ _ Hun) in E. discriminate.
    + apply IH. eauto.
Qed.

Lemma sanity_check_raise sig kwargs e :
  call_binds kwargs ->
  bind_all_supplied check_type json_dumps sig (merged_params sig) bind_init kwargs
    = Raise e ->
  _method_sanity_check check_type json_dumps sig kwargs = Raise e.
Proof. intros Hc H. rewrite (sanity_check_body _ _ _ _ Hc). now rewrite H. Qed.

(** With a supplied key that matches no declaration the binder raises,
    whether Python binds its call or not. *)
Lemma sanity_check_unknown sig kwargs :
  has_unknown_key sig kwargs ->
  exists e, _method_sanity_check check_type json_dumps sig kwargs = Raise e.
Proof.
  intros Hun. unfold _method_sanity_check.
  destruct (List.find _ kwargs); [eauto|].
  destruct (bind_all_supplied_unknown sig (merged_params sig) kwargs Hun bind_init)
    as [e ->].
  eauto.
Qed.

(** A call whose binding raises leaves the state as it was. *)
Lemma call_method_raise st self m kwargs e :
  _method_sanity_check check_type json_dumps (callable_sig m) kwargs = Raise e ->
  call_method check_type json_dumps st self m kwargs =
  Raises st (if od_mem "_self" kwargs then TypeError_multiple_values "_self"
             else e).
Proof.
  unfold call_method. destruct (od_mem "_self" kwargs); auto.
  destruct m; simpl; now intros ->.
Qed.

Lemma root_kwargs_without_self sig kwargs :
  od_mem "_self" kwargs = false ->
  root_kwargs sig kwargs =
  match defaults sig with
  | [] => Raise (TypeError_missing_argument "_self")
  | _ :: _ => Ok kwargs
  end.
Proof. unfold root_kwargs. now intros ->. Qed.

Lemma root_kwargs_with_self sig kwargs :
  od_mem "_self" kwargs = true ->
  root_kwargs sig kwargs = Ok (other_than_self kwargs).
Proof. unfold root_kwargs. now intros ->. Qed.

Lemma call_root_raise st m kwargs e :
  od_mem "_self" kwargs = false ->
  _method_sanity_check check_type json_dumps (rm_sig m) kwargs = Raise e ->
  call_root check_type json_dumps st m kwargs =
  Raises st (match defaults (rm_sig m) with
             | [] => TypeError_missing_argument "_self"
             | _ :: _ => e
             end).
Proof.
  intros Hs H. unfold call_root. rewrite (root_kwargs_without_self _ _ Hs).
  destruct (defaults (rm_sig m)); auto. now rewrite H.
Qed.

Lemma has_unknown_key_other sig kwargs :
  has_unknown_key sig (other_than_self kwargs) -> has_unknown_key sig kwargs.
Proof.
  intros (kv & Hin & Hk). exists kv. split; auto.
  apply filter_In in Hin. tauto.
Qed.

Lemma call_root_unknown st m kwargs :
  has_unknown_key (rm_sig m) (other_than_self kwargs) ->
  exists e, call_root check_type json_dumps st m kwargs = Raises st e.
Proof.
  intros Hun. unfold call_root.
  destruct (od_mem "_self" kwargs) eqn:Hs.
  - rewrite (root_kwargs_with_self _ _ Hs).
    destruct (sanity_check_unknown _ _ Hun) as [e ->]. eauto.
  - rewrite (root_kwargs_without_self _ _ Hs).
    destruct (defaults (rm_sig m)); [eauto|].
    destruct (sanity_check_unknown _ _ (has_unknown_key_other _ _ Hun)) as [e ->].
    eauto.
Qed.

Lemma merged_keys_valid sig n :
  od_mem n (possible_arg_params sig) = true
  \/ od_mem n (possible_opt_params sig) = true ->
  In n (od_keys (merged_params sig)).
Proof.
  intros H. apply od_mem_keys. rewrite od_mem_merged.
  destruct H as [-> | ->]; auto using orb_true_r.
Qed.

End UnknownFacts.

(** C7 (as amended). Unknown-key rejection. When some supplied key matches
    no declaration of the invoked node, the binder raises, and the call of a
    group member or of a leaf member raises in the state it started in: no
    object is created and no chain is extended; so does the call of the root
    callable when the key is not [_self]. When Python binds the call, the
    exception is the unknown-argument error for the first unknown key, with
    the names of all declarations in its message, if the keyword arguments
    before that key bind without error, and the exception of the first of
    them that does not otherwise. *)
Theorem C7_unknown_key_rejection
    (check_type : value -> annotation -> bool) (json_dumps : value -> string)
    (sig : signature) (kwargs : list (string * value)) :
  has_unknown_key sig kwargs ->
  exists e,
    _method_sanity_check check_type json_dumps sig kwargs = Raise e
    /\ (call_binds kwargs ->
        forall pre k v post,
          kwargs = (pre ++ (k, v) :: post)%list ->
          od_mem k (merged_params sig) = false ->
          match bind_all_supplied check_type json_dumps sig (merged_params sig)
                  bind_init pre with
          | Ok _ =>
              e = ValueError ("Unknown argument: '" ++ k ++ "', possible args are: "
                                ++ String.concat ", " (od_keys (merged_params sig)))
          | Raise e0 => e = e0
          end)
    /\ (forall n, od_mem n (possible_arg_params sig) = true
                  \/ od_mem n (possible_opt_params sig) = true ->
                  In n (od_keys (merged_params sig)))
    /\ (forall st self m, callable_sig m = sig ->
          call_method check_type json_dumps st self m kwargs =
          Raises st (if od_mem "_self" kwargs
                     then TypeError_multiple_values "_self" else e))
    /\ (forall st m, rm_sig m = sig -> od_mem "_self" kwargs = false ->
          call_root check_type json_dumps st m kwargs =
          Raises st (match defaults sig with
                     | [] => TypeError_missing_argument "_self"
                     | _ :: _ => e
                     end))
    /\ (forall st m, rm_sig m = sig ->
          has_unknown_key sig (other_than_self kwargs) ->
          exists e', call_root check_type json_dumps st m kwargs = Raises st e').
Proof.
  intros Hun.
  destruct (sanity_check_unknown check_type json_dumps sig kwargs Hun) as [e He].
  exists e. split; [exact He|]. split; [|split; [|split; [|split]]].
  - intros Hcall pre k v post -> Hk.
    rewrite (sanity_check_body _ _ _ _ Hcall), bind_all_supplied_app in He.
    destruct (bind_all_supplied check_type json_dumps sig (merged_params sig)
                bind_init pre) as [st'|e0]; cbn [res_bind bind_all_supplied] in He.
    + rewrite (bind_supplied_unknown _ _ _ _ _ _ _ Hk) in He. simpl in He.
      now injection He as <-.
    + now injection He as <-.
  - apply merged_keys_valid.
  - intros st self m <-. now apply call_method_raise.
  - intros st m <- Hs. now apply call_root_raise.
  - intros st m <-. apply call_root_unknown.
Qed.

Lemma C7_unknown_key_rejection_witness :
  exists e,
    call_root Example.check_type Example.json_dumps
      (Example.initial Example.start)
      (mkRootMethod "flow.py" None (Example.sig_of [Example.metadata]))
      [("metadata", VAtom (AStr "local")); ("zzz", VAtom (AInt 1))] =
    Raises (Example.initial Example.start) e
    /\ e = ValueError "Unknown argument: 'zzz', possible args are: metadata".
Proof.
  assert (Hun : has_unknown_key (Example.sig_of [Example.metadata])
                  [("metadata", VAtom (AStr "local")); ("zzz", VAtom (AInt 1))]).
  { exists ("zzz", VAtom (AInt 1)). split; [right; left; reflexivity | reflexivity]. }
  destruct (C7_unknown_key_rejection Example.check_type Example.json_dumps
              (Example.sig_of [Example.metadata])
              [("metadata", VAtom (AStr "local")); ("zzz", VAtom (AInt 1))] Hun)
    as (e & _ & Hmsg & _ & _ & Hroot & _).
  exists e. split.
  - exact (Hroot (Example.initial Example.start)
             (mkRootMethod "flow.py" None (Example.sig_of [Example.metadata]))
             eq_refl eq_refl).
  - exact (Hmsg eq_refl [("metadata", VAtom (AStr "local"))] "zzz"
             (VAtom (AInt 1)) [] eq_refl eq_refl).
Defined.

(** C7, the claim as worded fails: with a known key of the wrong type
    before the unknown key, the binder raises the type error of the first
    and never reaches the second. *)
Lemma C7_unknown_key_claim_counterexample :
  ~ unknown_key_claim Example.check_type Example.json_dumps
      (Example.sig_of [Example.metadata])
      [("metadata", VAtom (AInt 1)); ("zzz", VAtom (AInt 1))].
Proof.
  unfold unknown_key_claim. intros H.
  destruct H as [k Hk].
  - exists ("zzz", VAtom (AInt 1)). split; [right; left; reflexivity | reflexivity].
  - discriminate Hk.
Qed.

(** ** The store: what the operations keep *)

Lemma keeps_identity_refl o : keeps_identity o o.
Proof. repeat split; auto. Qed.

Lemma keeps_identity_trans o1 o2 o3 :
  keeps_identity o1 o2 -> keeps_identity o2 o3 -> keeps_identity o1 o3.
Proof.
  intros (A1 & A2 & A3 & A4) (B1 & B2 & B3 & B4).
  repeat split; try congruence. auto.
Qed.

Lemma heap_extends_refl h : heap_extends h h.
Proof. intros l o H. eauto using keeps_identity_refl. Qed.

Lemma heap_extends_trans h1 h2 h3 :
  heap_extends h1 h2 -> heap_extends h2 h3 -> heap_extends h1 h3.
Proof.
  intros H12 H23 l o H. destruct (H12 l o H) as (o2 & H2 & K2).
  destruct (H23 l o2 H2) as (o3 & H3 & K3).
  eauto using keeps_identity_trans.
Qed.

Lemma heap_extends_insert (h : list api_object) l o o' :
  h !! l = Some o -> keeps_identity o o' -> heap_extends h (<[l := o']> h).
Proof.
  intros Hl K l0 o0 H0. destruct (decide (l0 = l)) as [->|Hne].
  - exists o'. split.
    + apply list_lookup_insert_eq. eapply lookup_lt_Some; eauto.
    + congruence.
  - exists o0. split; [|apply keeps_identity_refl].
    now rewrite list_lookup_insert_ne.
Qed.

Lemma heap_extends_app (h ext : list api_object) : heap_extends h (h ++ ext).
Proof.
  intros l o H. exists o. split; [|apply keeps_identity_refl].
  now apply lookup_app_l_Some.
Qed.

Lemma keeps_identity_set_chain o c : keeps_identity o (set_chain o c).
Proof. repeat split; auto. Qed.

Lemma keeps_identity_set_attrs o a : keeps_identity o (set_attrs o a).
Proof. repeat split; auto. Qed.

Lemma serialize_extends ls : forall h, heap_extends h (snd (serialize h ls)).
Proof.
  induction ls as [|l ls IH]; intros h; simpl.
  - apply heap_extends_refl.
  - destruct (h !! l) as [o|] eqn:E; [|apply IH].
    specialize (IH (<[l := set_chain o (map popped (_chain o))]> h)).
    destruct (serialize _ ls) as [toks h'']. simpl in *.
    eapply heap_extends_trans; [|exact IH].
    eapply heap_extends_insert; eauto using keeps_identity_set_chain.
Qed.

Lemma execute_extends st self st' :
  ends_in (execute st self) st' -> heap_extends (heap st) (heap st').
Proof.
  unfold execute.
  destruct (collect_parents _ _ _) as [ps|]; simpl; [|tauto].
  pose proof (serialize_extends (rev ps ++ [self]) (heap st)) as H.
  destruct (serialize _ _) as [toks h]. simpl in *. now intros <-.
Qed.

Lemma compute_extends st self st' :
  ends_in (_compute_flow_parameters st self) st' ->
  heap_extends (heap st) (heap st').
Proof.
  unfold _compute_flow_parameters.
  destruct (heap st !! self) as [o|] eqn:E; simpl; [|tauto].
  destruct (_flow_cls o), (_parent o); simpl;
    try (intros <-; apply heap_extends_refl).
  destruct (_cached_computed_parameters o) eqn:C; simpl; intros <-.
  - apply heap_extends_refl.
  - simpl. eapply heap_extends_insert; eauto.
    repeat split; auto. simpl. congruence.
Qed.

Lemma compute_cli st self st' :
  ends_in (_compute_flow_parameters st self) st' ->
  cli_collection st' = cli_collection st.
Proof.
  unfold _compute_flow_parameters.
  destruct (heap st !! self) as [o|]; simpl; [|tauto].
  destruct (_flow_cls o), (_parent o); simpl; try (now intros <-).
  destruct (_cached_computed_parameters o); simpl; now intros <-.
Qed.

(** The outcome of [__getattr__], as [py_getattr] hands it on. *)
Lemma ends_in_member (o : outcome callable) st' :
  ends_in match o with
          | Returns st1 m => Returns st1 (Member m)
          | Raises st1 e => Raises st1 e
          | Stuck => Stuck
          end st' <-> ends_in o st'.
Proof. destruct o; simpl; tauto. Qed.

Section StoreFacts.
Context {py : Python}.
Variable check_type : value -> annotation -> bool.
Variable json_dumps : value -> string.
Variable click_Option : string -> option_kwargs -> param.

Lemma lazy_load_extends st self name st' :
  ends_in (_lazy_load_command click_Option st self name) st' ->
  heap_extends (heap st) (heap st').
Proof.
  unfold _lazy_load_command.
  destruct (_compute_flow_parameters st self) as [st1 fps|st1 e|] eqn:E;
    simpl; [| |tauto].
  - assert (H1 : heap_extends (heap st) (heap st1)).
    { apply (compute_extends st self). now rewrite E. }
    destruct (get_command (cli_collection st1) name) as [[c|]|e];
      simpl; try (now intros <-).
    destruct (extract click_Option fps c) as [c' r].
    destruct r as [m|e]; simpl; [|now intros <-].
    destruct (heap st1 !! self) as [o|] eqn:Eo; simpl; [|tauto].
    intros <-. simpl. eapply heap_extends_trans; [exact H1|].
    eapply heap_extends_insert; eauto using keeps_identity_set_attrs.
  - intros <-. apply (compute_extends st self). now rewrite E.
Qed.

Lemma getattr_extends st obj name st' :
  ends_in (py_getattr click_Option st obj name) st' ->
  heap_extends (heap st) (heap st').
Proof.
  unfold py_getattr.
  destruct (heap st !! obj) as [o|]; simpl; [|tauto].
  destruct (normal_lookup o name); simpl;
    [intros <-; apply heap_extends_refl|].
  destruct (obj_class o).
  - intros H. apply ends_in_member in H. now apply lazy_load_extends in H.
  - simpl. intros <-. apply heap_extends_refl.
Qed.

Lemma call_method_extends st self m kwargs st' :
  ends_in (call_method check_type json_dumps st self m kwargs) st' ->
  heap_extends (heap st) (heap st').
Proof.
  unfold call_method.
  destruct (od_mem "_self" kwargs);
    [simpl; intros <-; apply heap_extends_refl|].
  destruct m as [n cd sig|n sig]; simpl.
  - destruct (_method_sanity_check _ _ _ _); simpl; intros <-.
    + apply heap_extends_app.
    + apply heap_extends_refl.
  - destruct (_method_sanity_check _ _ _ _) as [mp|e]; simpl;
      [|intros <-; apply heap_extends_refl].
    destruct (heap st !! self) as [o|] eqn:E; simpl; [|tauto].
    match goal with
    | |- context [execute ?s self] => set (st1 := s)
    end.
    assert (H1 : heap_extends (heap st) (heap st1)).
    { eapply heap_extends_insert; eauto.
      unfold append_chain. apply keeps_identity_set_chain. }
    destruct (execute st1 self) as [st2 toks|st2 e|] eqn:Ex; simpl; [| |tauto];
      intros <-; eapply heap_extends_trans; try exact H1;
      apply (execute_extends st1 self); now rewrite Ex.
Qed.

Lemma call_root_extends st m kwargs st' :
  ends_in (call_root check_type json_dumps st m kwargs) st' ->
  heap_extends (heap st) (heap st').
Proof.
  unfold call_root.
  destruct (root_kwargs _ _);
    [|simpl; intros <-; apply heap_extends_refl].
  destruct (_method_sanity_check _ _ _ _); simpl; intros <-.
  - apply heap_extends_app.
  - apply heap_extends_refl.
Qed.

Lemma api_step_extends st st' :
  api_step check_type json_dumps click_Option st st' ->
  heap_extends (heap st) (heap st').
Proof.
  intros [m kw H|self m kw H|obj name H|self H|self H].
  - eapply call_root_extends; eauto.
  - eapply call_method_extends; eauto.
  - eapply getattr_extends; eauto.
  - eapply execute_extends; eauto.
  - eapply compute_extends; eauto.
Qed.

(** No run of the API changes the parent, the flow class or a filled
    cache of an object. *)
Lemma api_steps_extends st st' :
  api_steps check_type json_dumps click_Option st st' ->
  heap_extends (heap st) (heap st').
Proof.
  induction 1 as [st|st st1 st2 H1 _ IH].
  - apply heap_extends_refl.
  - eapply heap_extends_trans; [|exact IH]. now apply api_step_extends.
Qed.

End StoreFacts.

(** ** Root-level parameters *)

(** C9. Root-level parameter computation. On a root object (one with a
    flow class and no parent) [_compute_flow_parameters] returns: the first
    call, which finds the cache empty, computes the flow-level parameters
    that are not config parameters, calling [init] on each, and stores them
    in the cache; a call that finds the cache filled returns its content and
    changes nothing; and after any run of API operations from the state the
    call returned in, a call returns the same parameters and changes
    nothing. On an object with a parent or without a flow class the call
    raises [RuntimeError] and leaves the state as it was. *)
Theorem C9_flow_parameters_computed_once {py : Python}
    (check_type : value -> annotation -> bool) (json_dumps : value -> string)
    (click_Option : string -> option_kwargs -> param)
    (st : state) (self : loc) (o : api_object) :
  heap st !! self = Some o ->
  (forall flow, _flow_cls o = Some flow -> _parent o = None ->
     exists st1 ps,
       _compute_flow_parameters st self = Returns st1 ps
       /\ (_cached_computed_parameters o = None ->
           ps = List.filter not_config (_get_parameters flow)
           /\ init_calls st1 = (init_calls st ++ map fp_name ps)%list)
       /\ (forall c, _cached_computed_parameters o = Some c -> ps = c /\ st1 = st)
       /\ (forall st2, api_steps check_type json_dumps click_Option st1 st2 ->
             _compute_flow_parameters st2 self = Returns st2 ps))
  /\ (_flow_cls o = None \/ _parent o <> None ->
      _compute_flow_parameters st self = Raises st (RuntimeError non_start_msg)).
Proof.
  intros Hl. split.
  - intros flow Hf Hp.
    assert (Hlater : forall st1 ps o1,
               heap st1 !! self = Some o1 -> keeps_identity o o1 ->
               _cached_computed_parameters o1 = Some ps ->
               forall st2, api_steps check_type json_dumps click_Option st1 st2 ->
                 _compute_flow_parameters st2 self = Returns st2 ps).
    { intros st1 ps o1 H1 (K1 & K2 & _ & _) Hc st2 Hsteps.
      destruct (api_steps_extends _ _ _ _ _ Hsteps self o1 H1)
        as (o2 & H2 & (L1 & L2 & _ & L4)).
      unfold _compute_flow_parameters.
      rewrite H2, L2, K2, Hf, L1, K1, Hp, (L4 ps Hc). reflexivity. }
    unfold _compute_flow_parameters. rewrite Hl, Hf, Hp.
    destruct (_cached_computed_parameters o) as [c|] eqn:Hc.
    + exists st, c. repeat split; try congruence.
      apply (Hlater st c o Hl (keeps_identity_refl o) Hc).
    + eexists _, _. split; [reflexivity|]. repeat split; try discriminate.
      intros st2. eapply Hlater.
      * simpl. apply list_lookup_insert_eq. eapply lookup_lt_Some; eauto.
      * repeat split; auto. simpl. congruence.
      * reflexivity.
  - intros H. unfold _compute_flow_parameters. rewrite Hl.
    destruct (_flow_cls o), (_parent o); auto; destruct H; congruence.
Qed.

Lemma C9_flow_parameters_computed_once_witness :
  exists st1,
    _compute_flow_parameters
      (Example.one_root (Some Example.flow_with_parameters)) 0 =
      Returns st1 [Example.alpha]
    /\ init_calls st1 = ["alpha"]
    /\ _compute_flow_parameters st1 0 = Returns st1 [Example.alpha].
Proof.
  destruct (proj1 (C9_flow_parameters_computed_once (py := Example.python)
                     Example.check_type Example.json_dumps Example.click_Option
                     (Example.one_root (Some Example.flow_with_parameters)) 0
                     (Example.root_object (Some Example.flow_with_parameters))
                     eq_refl)
              Example.flow_with_parameters eq_refl eq_refl)
    as (st1 & ps & H1 & H2 & _ & H4).
  destruct (H2 eq_refl) as [-> Hi].
  exists st1. split; [exact H1|]. split; [exact Hi|].
  apply H4. constructor.
Defined.

(** ** Member access *)

Lemma compute_chains st self st' :
  ends_in (_compute_flow_parameters st self) st' ->
  forall l, chain_at st' l = chain_at st l.
Proof.
  unfold _compute_flow_parameters, chain_at.
  destruct (heap st !! self) as [o|] eqn:E; simpl; [|tauto].
  destruct (_flow_cls o), (_parent o); simpl; try (now intros <-).
  destruct (_cached_computed_parameters o); simpl; intros <-; auto.
  intros l. simpl. destruct (decide (l = self)) as [->|Hne].
  - rewrite list_lookup_insert_eq by (eapply lookup_lt_Some; eauto).
    now rewrite E.
  - now rewrite list_lookup_insert_ne.
Qed.

Section AccessFacts.
Context {py : Python}.

(** The names of the attributes that the class [MetaflowAPI], its
    instances and [object] define are found by the normal lookup, whatever
    the members of the class. *)
Lemma normal_lookup_own o name :
  named properties name || named instance_attributes name
    || named methods name || object_attribute name = true ->
  exists a, normal_lookup o name = Some a.
Proof.
  unfold normal_lookup.
  destruct (class_member (obj_class o) name).
  - intros _. destruct (named instance_attributes name); [eauto|].
    destruct (od_get name (obj_attrs o)); eauto.
  - destruct (named properties name), (named instance_attributes name);
      cbn [orb]; eauto.
    destruct (od_get name (obj_attrs o)); [eauto|].
    destruct (named methods name); cbn [orb]; [eauto|].
    intros ->. rewrite orb_true_r. eauto.
Qed.

(** A name the normal lookup does not find is no attribute of the
    instance. *)
Lemma normal_lookup_None o name :
  normal_lookup o name = None ->
  class_member (obj_class o) name = None
  /\ named properties name || named instance_attributes name = false
  /\ od_get name (obj_attrs o) = None.
Proof.
  unfold normal_lookup.
  destruct (class_member (obj_class o) name).
  - destruct (named instance_attributes name); [discriminate|].
    destruct (od_get name (obj_attrs o)); discriminate.
  - destruct (named properties name || named instance_attributes name);
      [discriminate|].
    destruct (od_get name (obj_attrs o)); [discriminate|]. auto.
Qed.

(** What [setattr(_self, name, result)] makes of the lookup of a name that
    was not found. *)
Lemma normal_lookup_set o name m :
  normal_lookup o name = None ->
  normal_lookup (set_attrs o (od_set name m (obj_attrs o))) name =
  Some (Member m).
Proof.
  intros H. destruct (normal_lookup_None o name H) as (Hc & Hp & _).
  unfold normal_lookup. cbn [set_attrs obj_class obj_attrs].
  rewrite Hc, Hp. now rewrite od_get_set_eq.
Qed.

End AccessFacts.

(** C10 (as amended). Member access. A name that Python's normal lookup
    finds on the object ([execute], [chain], [parent], [name] and the other
    attributes of every [MetaflowAPI] object among them) is returned by it,
    in the state as it is. For a name it does not find: on a root object
    that has a flow class, the access to a name that matches no child
    command of the group raises [AttributeError] and leaves every chain as
    it was; on an object of a group class, the access raises
    [AttributeError] and leaves the state as it was; on a root object
    without a flow class the access raises the [RuntimeError] of
    [_compute_flow_parameters] and leaves the state as it was. When an
    access returns, the access to the same name in the state it returned in
    returns the same and leaves that state as it is: the first access to a
    command on a root object stores the callable on the object. *)
Theorem C10_member_access {py : Python}
    (click_Option : string -> option_kwargs -> param)
    (st : state) (obj : loc) (o : api_object) (name : string) :
  heap st !! obj = Some o ->
  (forall a, normal_lookup o name = Some a ->
     py_getattr click_Option st obj name = Returns st a)
  /\ (named properties name || named instance_attributes name
        || named methods name || object_attribute name = true ->
      exists a, py_getattr click_Option st obj name = Returns st a)
  /\ (forall flow_file flow,
        obj_class o = RootClass flow_file ->
        _flow_cls o = Some flow -> _parent o = None ->
        normal_lookup o name = None ->
        get_command (cli_collection st) name = Ok None ->
        exists st', py_getattr click_Option st obj name = Raises st' AttributeError
                    /\ forall l, chain_at st' l = chain_at st l)
  /\ (forall n class_dict,
        obj_class o = GroupClass n class_dict ->
        normal_lookup o name = None ->
        py_getattr click_Option st obj name = Raises st AttributeError)
  /\ (forall st' a,
        py_getattr click_Option st obj name = Returns st' a ->
        py_getattr click_Option st' obj name = Returns st' a)
  /\ (forall flow_file,
        obj_class o = RootClass flow_file ->
        normal_lookup o name = None ->
        _flow_cls o = None \/ _parent o <> None ->
        py_getattr click_Option st obj name = Raises st (RuntimeError non_start_msg)).
Proof.
  intros Hl.
  assert (Hfound : forall a, normal_lookup o name = Some a ->
                     py_getattr click_Option st obj name = Returns st a).
  { intros a Ha. unfold py_getattr. now rewrite Hl, Ha. }
  split; [exact Hfound|]. split; [|split; [|split; [|split]]].
  - intros H. destruct (normal_lookup_own o name H) as [a Ha]. eauto.
  - intros flow_file flow Hc Hf Hp Ha Hg.
    unfold py_getattr. rewrite Hl, Ha, Hc. unfold _lazy_load_command.
    destruct (_compute_flow_parameters st obj) as [st1 fps|st1 e|] eqn:E.
    + assert (Hends : ends_in (_compute_flow_parameters st obj) st1)
        by now rewrite E.
      rewrite (compute_cli _ _ _ Hends), Hg.
      eexists. split; [reflexivity|]. now apply (compute_chains st obj).
    + exfalso. unfold _compute_flow_parameters in E.
      rewrite Hl, Hf, Hp in E.
      destruct (_cached_computed_parameters o); discriminate.
    + exfalso. unfold _compute_flow_parameters in E.
      rewrite Hl, Hf, Hp in E.
      destruct (_cached_computed_parameters o); discriminate.
  - intros n cd Hc Ha. unfold py_getattr. now rewrite Hl, Ha, Hc.
  - intros st' a. unfold py_getattr at 1. rewrite Hl.
    destruct (normal_lookup o name) as [a0|] eqn:Ha.
    { intros [= <- <-]. now apply Hfound. }
    destruct (obj_class o) as [flow_file|n cd] eqn:Hc; [|discriminate].
    unfold _lazy_load_command.
    destruct (_compute_flow_parameters st obj) as [st1 fps|st1 e|] eqn:E;
      try discriminate.
    destruct (get_command (cli_collection st1) name) as [[c|]|e];
      try discriminate.
    destruct (extract click_Option fps c) as [c' r].
    destruct r as [m1|e]; try discriminate.
    simpl. destruct (heap st1 !! obj) as [o1|] eqn:E1; try discriminate.
    intros [= <- <-]. unfold py_getattr. simpl.
    rewrite list_lookup_insert_eq by (eapply lookup_lt_Some; eauto).
    assert (Ha1 : normal_lookup o1 name = None).
    { unfold _compute_flow_parameters in E. rewrite Hl in E.
      destruct (_flow_cls o), (_parent o); try discriminate.
      destruct (_cached_computed_parameters o); injection E as <- _.
      - rewrite Hl in E1. now injection E1 as <-.
      - simpl in E1.
        rewrite list_lookup_insert_eq in E1 by (eapply lookup_lt_Some; eauto).
        injection E1 as <-. exact Ha. }
    now rewrite (normal_lookup_set o1 name m1 Ha1).
  - intros flow_file Hc Ha Hnon.
    unfold py_getattr, _lazy_load_command, _compute_flow_parameters.
    rewrite Hl, Ha, Hc.
    destruct (_flow_cls o), (_parent o); auto; destruct Hnon; congruence.
Qed.

Lemma C10_member_access_witness :
  (exists st',
     py_getattr (py := Example.python) Example.click_Option
       (Example.one_root (Some Example.flow)) 0 "nope"
       = Raises st' AttributeError
     /\ forall l, chain_at st' l = chain_at (Example.one_root (Some Example.flow)) l)
  /\ (exists a,
        py_getattr (py := Example.python) Example.click_Option
          (Example.one_root (Some Example.flow)) 0 "execute"
        = Returns (Example.one_root (Some Example.flow)) a).
Proof.
  pose proof (C10_member_access (py := Example.python) Example.click_Option
                (Example.one_root (Some Example.flow)) 0
                (Example.root_object (Some Example.flow))) as H.
  split.
  - destruct (H "nope" eq_refl) as (_ & _ & H3 & _).
    exact (H3 "flow.py" Example.flow eq_refl eq_refl eq_refl eq_refl eq_refl).
  - destruct (H "execute" eq_refl) as (_ & H2 & _).
    exact (H2 eq_refl).
Defined.

(** C10, the claim as worded fails: on a root object without a flow class
    the access raises the [RuntimeError] of [_compute_flow_parameters]
    before the group is asked for the command. *)
Lemma C10_missing_member_claim_counterexample :
  ~ missing_member_claim (py := Example.python) Example.click_Option
      (Example.one_root None) 0 "nope".
Proof.
  unfold missing_member_claim. intros H.
  destruct H as [st' H]; [reflexivity|]. discriminate H.
Qed.

(** ** The serializer *)

Lemma collect_parents_root fuel h self o :
  h !! self = Some o -> _parent o = None -> collect_parents fuel h self = Some [].
Proof. intros Hl Hp. destruct fuel; simpl; now rewrite Hl, Hp. Qed.

Lemma emit_cmd_popped e : emit_cmd (popped e) = [AStr (fst e)].
Proof. reflexivity. Qed.

Lemma flat_map_emit_popped (c : list chain_entry) :
  flat_map emit_cmd (map popped c) = map (fun e => AStr (fst e)) c.
Proof. induction c as [|e c IH]; simpl; auto. now rewrite IH. Qed.

(** [execute] on an object without parent: the tokens of its chain, and
    every entry of the chain left without its arguments and options. *)
Lemma execute_root st self o :
  heap st !! self = Some o -> _parent o = None ->
  execute st self =
  Returns (set_heap st (<[self := set_chain o (map popped (_chain o))]> (heap st)))
    (flat_map emit_cmd (_chain o)).
Proof.
  intros Hl Hp. unfold execute.
  rewrite (collect_parents_root _ _ _ _ Hl Hp). simpl.
  rewrite Hl. simpl. now rewrite app_nil_r.
Qed.

(** A second [execute] on the same object returns the names of the chain
    entries only. *)
Lemma execute_root_twice st self o st1 toks :
  heap st !! self = Some o -> _parent o = None ->
  execute st self = Returns st1 toks ->
  toks = flat_map emit_cmd (_chain o)
  /\ exists st2, execute st1 self = Returns st2 (map (fun e => AStr (fst e)) (_chain o)).
Proof.
  intros Hl Hp. rewrite (execute_root _ _ _ Hl Hp). intros [= <- <-].
  split; auto. eexists.
  rewrite (execute_root _ self (set_chain o (map popped (_chain o)))).
  - simpl. now rewrite flat_map_emit_popped.
  - simpl. apply list_lookup_insert_eq. eapply lookup_lt_Some; eauto.
  - exact Hp.
Qed.

(** C8, evaluated on the root object of [api(metadata="local")]: the first
    [execute] returns the tokens of the binding and removes the binding from
    the chain, the second returns the name alone. *)
Theorem C8_execute_consumes_the_bindings :
  let st := Example.with_root (py := Example.python) Example.check_type
              Example.json_dumps "flow.py"
              (Some Example.flow) [("metadata", VAtom (AStr "local"))] in
  exists st1 st2,
    execute st 0 = Returns st1 (map AStr ["flow.py"; "--metadata"; "local"])
    /\ execute st1 0 = Returns st2 (map AStr ["flow.py"])
    /\ chain_at st 0 =
       Some [("flow.py",
              mkStored (Some []) (Some [("metadata", VAtom (AStr "local"))]))]
    /\ chain_at st1 0 = Some [("flow.py", mkStored None None)].
Proof. simpl. eexists _, _. repeat split. Qed.

(** C8, the claim as worded fails on that object. *)
Lemma C8_serializer_claim_fails :
  ~ serializer_claim
      (Example.with_root (py := Example.python) Example.check_type
         Example.json_dumps "flow.py"
         (Some Example.flow) [("metadata", VAtom (AStr "local"))]) 0.
Proof.
  intros H. destruct (H _ _ eq_refl) as [[st2 H2] _]. discriminate H2.
Qed.

(** ** Group invocations and the chains that exist *)













Section ShapeFacts.
Context {py : Python}.
Variable check_type : value -> annotation -> bool.
Variable json_dumps : value -> string.
Variable click_Option : string -> option_kwargs -> param.






End ShapeFacts.

(** ** Well-formed stores: the walk to the root ends *)






Lemma wf_heap_alloc h o :
  wf_heap h ->
  (forall p, _parent o = Some p -> p < length h) ->
  wf_heap (h ++ [o]).
Proof.
  intros Hwf Ho l x p Hl Hp.
  destruct (decide (l < length h)) as [Hlt|Hge].
  - rewrite lookup_app_l in Hl by assumption. eauto.
  - rewrite lookup_app_r in Hl by lia.
    destruct (l - length h) as [|n] eqn:E; simpl in Hl; [|discriminate].
    injection Hl as <-. specialize (Ho p Hp). lia.
Qed.





Section WellFormed.
Context {py : Python}.
Variable check_type : value -> annotation -> bool.
Variable json_dumps : value -> string.
Variable click_Option : string -> option_kwargs -> param.





End WellFormed.

Lemma wf_heap_empty : wf_heap [].
Proof. intros l o p H. discriminate H. Qed.






Example leaf_sibling_changes_tokens :
  let st := Example.with_group (py := Example.python) Example.check_type Example.json_dumps
              Example.click_Option "flow.py" (Some Example.flow) in
  exists st1 st' st2,
    execute st 1 = Returns st1 (map AStr ["flow.py"; "kubernetes"])
    /\ invoke (py := Example.python) Example.check_type Example.json_dumps
         Example.click_Option
         st 0 "run" [] = Returns st' (RTokens (map AStr ["flow.py"; "run"]))
    /\ execute st' 1 = Returns st2 (map AStr ["flow.py"; "run"; "kubernetes"]).
Proof.
  intros st. eexists _, _, _.
  split; [vm_compute; reflexivity|].
  split; [vm_compute; reflexivity|]. vm_compute. reflexivity.
Qed.

(** ** The end-to-end example *)

Section EndToEnd.
Context {py : Python}.

Lemma extract_all_params_accepted ps :
  first_error ps = None ->
  extract_all_params ps = Ok (signature_of (extracted empty_extraction ps)).
Proof. intros H. now rewrite extract_all_params_spec, H. Qed.

End EndToEnd.

(** C1 (as amended). For the callable [api] that [from_cli] returns for a
    flow file, with the declarations of the example (root: [metadata]
    optional string; [run]: [tags] and [decospecs] multiple string,
    [max-workers] optional integer), a Python that accepts the names of
    these options as parameter names and has no attribute [run] on every
    object, and a type check that accepts the supplied values,
    [api(metadata="local").run(tags=["abc", "def"],
    decospecs=["kubernetes"], max_workers=5)] returns the name of the root,
    which is the flow file, followed by exactly the tokens [--metadata],
    [local], [run], [--tags], [abc], [--tags], [def], [--decospecs],
    [kubernetes], [--max-workers], [5]. *)
Theorem C1_end_to_end {py : Python}
    (check_type : value -> annotation -> bool) (json_dumps : value -> string)
    (click_Option : string -> option_kwargs -> param)
    (flow_file : string) (flow : flow_cls) :
  (forall n, In n ["metadata"; "tags"; "decospecs"; "max_workers"] ->
             inspect_Parameter_error n KEYWORD_ONLY = None) ->
  inspect_Signature_error (map (inspect_of KEYWORD_ONLY) [Example.metadata])
    = None ->
  inspect_Signature_error
    (map (inspect_of KEYWORD_ONLY)
       [Example.tags; Example.decospecs; Example.max_workers]) = None ->
  object_attribute "run" = false ->
  check_type (VAtom (AStr "local")) (OptionalOf Pstr) = true ->
  check_type Example.abc_def (OptionalListOf Pstr) = true ->
  check_type (VList [AStr "kubernetes"]) (OptionalListOf Pstr) = true ->
  check_type (VAtom (AInt 5)) (OptionalOf Pint) = true ->
  exists st,
    Example.end_to_end check_type json_dumps click_Option flow_file (Some flow) =
    Returns st (RTokens (AStr flow_file :: Example.expected_tokens)).
Proof.
  intros Hn Hs1 Hs2 Hrun H1 H2 H3 H4.
  assert (E1 : first_error [Example.metadata] = None).
  { simpl. unfold param_error. simpl. rewrite Hn; simpl; auto. }
  assert (E2 : first_error [Example.tags; Example.decospecs; Example.max_workers]
               = None).
  { simpl. unfold param_error. simpl. rewrite !Hn; simpl; auto 10. }
  unfold Example.end_to_end, Example.call_api, from_cli.
  cbn [Example.start command_params].
  rewrite (extract_all_params_accepted _ E1). cbn [res_bind].
  unfold signature_replace.
  change (od_values (params_sigs (signature_of
            (extracted empty_extraction [Example.metadata]))))
    with (map (inspect_of KEYWORD_ONLY) [Example.metadata]).
  rewrite Hs1. cbn [res_bind].
  let v := eval vm_compute in
             (signature_of (extracted empty_extraction [Example.metadata])) in
  change (signature_of (extracted empty_extraction [Example.metadata])) with v.
  unfold call_root, root_kwargs. simpl.
  unfold _method_sanity_check. simpl. rewrite H1. simpl.
  unfold invoke, py_getattr. simpl.
  unfold normal_lookup. simpl. rewrite Hrun. simpl.
  unfold _lazy_load_command, _compute_flow_parameters. simpl.
  unfold extract_command. simpl.
  change (Example.tags :: Example.decospecs :: Example.max_workers :: nil)
    with [Example.tags; Example.decospecs; Example.max_workers].
  rewrite (extract_all_params_accepted _ E2). cbn [res_bind].
  unfold signature_replace.
  change (od_values (params_sigs (signature_of
            (extracted empty_extraction
               [Example.tags; Example.decospecs; Example.max_workers]))))
    with (map (inspect_of KEYWORD_ONLY)
            [Example.tags; Example.decospecs; Example.max_workers]).
  rewrite Hs2. cbn [res_bind].
  let v := eval vm_compute in
             (signature_of (extracted empty_extraction
                [Example.tags; Example.decospecs; Example.max_workers])) in
  change (signature_of (extracted empty_extraction
            [Example.tags; Example.decospecs; Example.max_workers])) with v.
  simpl. unfold call_method. simpl.
  unfold _method_sanity_check. simpl.
  rewrite H2, H3, H4. eexists. reflexivity.
Qed.

Lemma C1_end_to_end_witness :
  exists st,
    Example.end_to_end (py := Example.python) Example.check_type
      Example.json_dumps Example.click_Option "../try.py" (Some Example.flow) =
    Returns st (RTokens (AStr "../try.py" :: Example.expected_tokens)).
Proof.
  refine (C1_end_to_end (py := Example.python) Example.check_type
            Example.json_dumps Example.click_Option "../try.py" Example.flow
            _ eq_refl eq_refl eq_refl eq_refl eq_refl eq_refl eq_refl).
  intros n Hn. simpl in Hn.
  destruct Hn as [<-|[<-|[<-|[<-|[]]]]]; reflexivity.
Defined.

(** C1, the claim as worded fails: the tokens returned begin with the flow
    file. *)
Lemma C1_end_to_end_claim_counterexample : ~ end_to_end_claim "../try.py".
Proof. intros [st H]. vm_compute in H. discriminate H. Qed.

(** ** Compilation *)

Section AugmentedFacts.
Context {py : Python}.
Variable click_Option : string -> option_kwargs -> param.

Lemma augmented_at_refl fps (cs : list (string * command)) :
  Forall2 (fun kc kc' => fst kc = fst kc'
                         /\ augmented_at click_Option fps (snd kc) (snd kc'))
    cs cs.
Proof. induction cs; constructor; auto. split; [reflexivity|constructor]. Qed.

(** The loop of [extract_group] changes its children only where their own
    compilation does, and none after the one that raises. *)
Lemma extract_loop_augmented_at fps cs :
  Forall (fun kc => augmented_at click_Option fps (snd kc)
                      (fst (extract click_Option fps (snd kc)))) cs ->
  forall class_dict,
    Forall2 (fun kc kc' => fst kc = fst kc'
                           /\ augmented_at click_Option fps (snd kc) (snd kc'))
      cs (fst (extract_loop (extract click_Option fps) cs class_dict)).
Proof.
  induction 1 as [|[k c] cs Hc _ IH]; intros class_dict; simpl.
  - constructor.
  - simpl in Hc. destruct (extract click_Option fps c) as [c' r].
    simpl in Hc. destruct r as [m|e]; simpl.
    + specialize (IH (od_set (command_name c) m class_dict)).
      destruct (extract_loop _ cs _) as [rest' r']. simpl in *.
      constructor; auto.
    + constructor; auto. apply augmented_at_refl.
Qed.

Lemma extract_augmented_at fps c :
  augmented_at click_Option fps c (fst (extract click_Option fps c)).
Proof.
  induction c as [n ps h|n ps cs IH|n ty] using command_tree_ind; simpl.
  - destruct h; simpl; [|constructor].
    rewrite insert_flow_params_app. constructor.
  - pose proof (extract_loop_augmented_at fps cs IH []) as H.
    destruct (extract_loop _ cs []) as [cs' r]. simpl in *.
    now constructor.
  - constructor.
Qed.

(** When the loop returns, every child was compiled. *)
Lemma extract_loop_augmented fps cs :
  Forall (fun kc => forall m,
            snd (extract click_Option fps (snd kc)) = Ok m ->
            fst (extract click_Option fps (snd kc)) =
            augmented click_Option fps (snd kc)) cs ->
  forall class_dict cd,
    snd (extract_loop (extract click_Option fps) cs class_dict) = Ok cd ->
    fst (extract_loop (extract click_Option fps) cs class_dict) =
    (fix all (cs : list (string * command)) : list (string * command) :=
       match cs with
       | [] => []
       | (k, sub) :: rest => (k, augmented click_Option fps sub) :: all rest
       end) cs.
Proof.
  induction 1 as [|[k c] cs Hc _ IH]; intros class_dict cd; simpl; auto.
  simpl in Hc. destruct (extract click_Option fps c) as [c' r].
  simpl in Hc. destruct r as [m|e]; simpl; [|discriminate].
  specialize (IH (od_set (command_name c) m class_dict) cd).
  destruct (extract_loop _ cs _) as [rest' r']. simpl in *.
  intros Hr. now rewrite (Hc m eq_refl), (IH Hr).
Qed.

(** A compilation that returns has put the options in front of the
    parameters of every flagged leaf. *)
Lemma extract_augmented fps c m :
  snd (extract click_Option fps c) = Ok m ->
  fst (extract click_Option fps c) = augmented click_Option fps c.
Proof.
  revert m.
  induction c as [n ps h|n ps cs IH|n ty] using command_tree_ind;
    intros m; simpl.
  - intros _. destruct h; simpl; auto. now rewrite insert_flow_params_app.
  - pose proof (extract_loop_augmented fps cs IH []) as H.
    destruct (extract_loop _ cs []) as [cs' r]. simpl in *.
    destruct r as [cd|e]; [|discriminate]. intros _.
    now rewrite (H cd eq_refl).
  - discriminate.
Qed.

End AugmentedFacts.

(** C2 (as amended). Compilation is a function of the metadata and the
    flow-level parameters, and a second compilation, run on the metadata as
    the first left it, returns the same callable: the same member names,
    parameters in the same order, the same types. Compilation changes the
    metadata at leaves flagged [has_flow_params] only, where it puts the
    options built from the flow-level parameters, in their order, in front
    of the parameter list of the leaf: every other node, and the names, the
    keys and the order of all nodes, stay as they are. A compilation that
    returns has done so at every flagged leaf of the tree; a tree without
    flagged leaves is left as it is. *)
Theorem C2_compilation {py : Python}
    (click_Option : string -> option_kwargs -> param)
    (fps : list flow_parameter) (c : command) :
  snd (extract click_Option fps (fst (extract click_Option fps c))) =
  snd (extract click_Option fps c)
  /\ augmented_at click_Option fps c (fst (extract click_Option fps c))
  /\ (forall m, snd (extract click_Option fps c) = Ok m ->
        fst (extract click_Option fps c) = augmented click_Option fps c)
  /\ (no_flow_params c = true -> fst (extract click_Option fps c) = c).
Proof.
  split; [apply extract_twice|]. split; [apply extract_augmented_at|].
  split; [apply extract_augmented | apply extract_unchanged].
Qed.

Lemma C2_compilation_witness :
  fst (extract (py := Example.python) Example.click_Option [Example.alpha]
         Example.start) = Example.start
  /\ fst (extract (py := Example.python) Example.click_Option [Example.alpha]
            Example.start_with_flow_params) =
     Group "start" [Example.metadata]
       [("run",
         Command "run"
           (flow_option Example.click_Option Example.alpha
              :: [Example.tags; Example.decospecs; Example.max_workers]) true);
        ("kubernetes", Example.kubernetes)].
Proof.
  split.
  - exact (proj2 (proj2 (proj2 (C2_compilation (py := Example.python)
                                  Example.click_Option [Example.alpha]
                                  Example.start))) eq_refl).
  - destruct (snd (extract (py := Example.python) Example.click_Option
                     [Example.alpha] Example.start_with_flow_params))
      as [m|e] eqn:E.
    + exact (proj1 (proj2 (proj2 (C2_compilation (py := Example.python)
                                    Example.click_Option [Example.alpha]
                                    Example.start_with_flow_params))) m E).
    + vm_compute in E. discriminate E.
Defined.

(** C2, the claim as worded fails: compiling a leaf flagged
    [has_flow_params] changes its parameter list. *)
Lemma C2_compilation_claim_counterexample :
  ~ compilation_claim (py := Example.python) Example.click_Option
      [Example.alpha] Example.run_with_flow_params.
Proof. intros [_ H]. discriminate H. Qed.

(** A second compilation inserts the flow-level options a second time. *)
Example second_compilation_inserts_again :
  fst (extract (py := Example.python) Example.click_Option [Example.alpha]
         (fst (extract (py := Example.python) Example.click_Option
                 [Example.alpha] Example.run_with_flow_params))) =
  Command "run"
    (flow_option Example.click_Option Example.alpha
       :: flow_option Example.click_Option Example.alpha
       :: [Example.tags; Example.decospecs; Example.max_workers]) true.
Proof. reflexivity. Qed.

(** * Further properties *)

(** ** The loader of the flow class *)

Lemma pick_flow_class_found flow_file classes kls :
  pick_flow_class flow_file classes (Some kls) =
  match flow_subclasses classes with
  | [] => inr (Some kls)
  | _ :: _ => inl (MetaflowException (multiple_classes_msg flow_file))
  end.
Proof.
  unfold flow_subclasses.
  induction classes as [|[n c] classes IH]; simpl; auto.
  destruct (is_flow_subclass c); auto.
Qed.

(** X1. The class [extract_flow_class_from_file] picks from the members
    of the module: [None] when no member is a proper subclass of
    [FlowSpec], the subclass when there is exactly one, and the
    [MetaflowException] "Multiple FlowSpec classes found" when there are two
    or more. The class [FlowSpec] itself and the other classes are passed
    over. *)
Theorem X1_pick_flow_class (flow_file : string)
    (classes : list (string * module_class)) :
  pick_flow_class flow_file classes None =
  match flow_subclasses classes with
  | [] => inr None
  | [kls] => inr (Some kls)
  | _ :: _ :: _ => inl (MetaflowException (multiple_classes_msg flow_file))
  end.
Proof.
  unfold flow_subclasses.
  induction classes as [|[n c] classes IH]; simpl; auto.
  destruct (is_flow_subclass c) eqn:E; auto.
  rewrite pick_flow_class_found. unfold flow_subclasses.
  destruct (List.filter is_flow_subclass (map snd classes)); reflexivity.
Qed.

Lemma remove_first_head x l : remove_first x (x :: l) = l.
Proof. simpl. now rewrite String.eqb_refl. Qed.

Section LoaderFacts.
Variable path_exists : string -> bool.
Variable flow_dir_of : string -> string.
Variable spec_found : string -> bool.
Variable load_module : string -> list string -> list string * (string + py_module).

(** X2. A flow file that does not exist: the call raises
    [FileNotFoundError] and changes neither [sys.path] nor the cache, and
    executes nothing. *)
Theorem X2_missing_flow_file (st : loader_state) (flow_file : string) :
  path_exists flow_file = false ->
  extract_flow_class_from_file path_exists flow_dir_of spec_found load_module st flow_file =
  (st, inl (FileNotFoundError (file_not_present_msg flow_file))).
Proof. intros H. unfold extract_flow_class_from_file. now rewrite H. Qed.

(** X3. [sys.path] is restored. When the code of the module leaves
    [sys.path] as it finds it, the call leaves [sys.path] as it found it,
    whether it returns a class, returns [None] or raises, and whether the
    module was cached or not. *)
Theorem X3_sys_path_restored (st : loader_state) (flow_file : string) :
  (forall p, fst (load_module flow_file p) = p) ->
  sys_path (fst (extract_flow_class_from_file path_exists flow_dir_of
                   spec_found load_module st flow_file)) = sys_path st.
Proof.
  intros Hload. unfold extract_flow_class_from_file.
  destruct (negb (path_exists flow_file)); auto.
  set (dir := flow_dir_of flow_file).
  set (p1 := if negb (in_path dir (sys_path st)) then dir :: sys_path st
             else sys_path st).
  assert (Hfin : (if negb (in_path dir (sys_path st))
                  then remove_first dir p1 else p1) = sys_path st).
  { unfold p1. destruct (negb (in_path dir (sys_path st))); auto.
    apply remove_first_head. }
  destruct (od_get flow_file (loaded_modules st)) as [m|]; simpl; auto.
  destruct (negb (spec_found flow_file)); simpl; auto.
  pose proof (Hload p1) as Hp.
  destruct (load_module flow_file p1) as [p2 [text|m]]; simpl in *; subst p2;
    exact Hfin.
Qed.

Lemma loaded_modules_cache (st : loader_state) (flow_file : string) :
  path_exists flow_file = true ->
  let out := extract_flow_class_from_file path_exists flow_dir_of
               spec_found load_module st flow_file in
  (forall m, od_get flow_file (loaded_modules st) = Some m ->
     executed (fst out) = executed st
     /\ loaded_modules (fst out) = loaded_modules st
     /\ snd out = pick_flow_class flow_file (class_members m) None)
  /\ (od_get flow_file (loaded_modules st) = None ->
      spec_found flow_file = false ->
      executed (fst out) = executed st
      /\ loaded_modules (fst out) = loaded_modules st
      /\ snd out = inl NoneType_AttributeError)
  /\ (od_get flow_file (loaded_modules st) = None ->
      spec_found flow_file = true ->
      executed (fst out) = (executed st ++ [flow_file])%list
      /\ forall p m,
           load_module flow_file
             (if negb (in_path (flow_dir_of flow_file) (sys_path st))
              then flow_dir_of flow_file :: sys_path st else sys_path st)
           = (p, inr m) ->
           od_get flow_file (loaded_modules (fst out)) = Some m
           /\ snd out = pick_flow_class flow_file (class_members m) None).
Proof.
  intros Hex out. unfold out, extract_flow_class_from_file. rewrite Hex. simpl.
  split; [|split].
  - intros m Hm. rewrite Hm. simpl. auto.
  - intros Hnone Hspec. rewrite Hnone, Hspec. simpl. auto.
  - intros Hnone Hspec. rewrite Hnone, Hspec. simpl.
    destruct (load_module flow_file _) as [p2 [text|m2]] eqn:E; simpl.
    + split; auto. intros p m H. discriminate H.
    + split; auto. intros p m [= _ <-]. split; auto. apply od_get_set_eq.
Qed.

(** The second of two calls in a row for a file whose code leaves
    [sys.path] alone and loads: it executes nothing and gives the result of
    the first. *)
Lemma second_call_cached st flow_file :
  path_exists flow_file = true ->
  spec_found flow_file = true ->
  (forall p, exists m, load_module flow_file p = (p, inr m)) ->
  let first := extract_flow_class_from_file path_exists flow_dir_of
                 spec_found load_module st flow_file in
  let second := extract_flow_class_from_file path_exists flow_dir_of
                  spec_found load_module (fst first) flow_file in
  snd second = snd first
  /\ executed (fst second) = executed (fst first)
  /\ loaded_modules (fst second) = loaded_modules (fst first).
Proof.
  intros Hex Hspec Hload first second.
  assert (Hcached : exists m, od_get flow_file (loaded_modules (fst first)) = Some m
                              /\ snd first = pick_flow_class flow_file (class_members m) None).
  { destruct (od_get flow_file (loaded_modules st)) as [m|] eqn:E.
    - destruct (proj1 (loaded_modules_cache st flow_file Hex) m E)
        as (_ & Hl & Hs).
      exists m. fold first in Hl, Hs. rewrite Hl. auto.
    - destruct (Hload (if negb (in_path (flow_dir_of flow_file) (sys_path st))
                       then flow_dir_of flow_file :: sys_path st
                       else sys_path st)) as [m Hm].
      destruct (proj2 (proj2 (loaded_modules_cache st flow_file Hex)) E Hspec)
        as (_ & H).
      destruct (H _ m Hm) as [Hg Hs]. exists m. auto. }
  destruct Hcached as (m & Hm & Hs).
  destruct (proj1 (loaded_modules_cache (fst first) flow_file Hex) m Hm)
    as (He & Hl & Hs2).
  fold second in He, Hl, Hs2. rewrite Hs, Hs2. auto.
Qed.

End LoaderFacts.

Lemma X2_missing_flow_file_witness :
  extract_flow_class_from_file LoaderExample.path_exists
    LoaderExample.flow_dir_of LoaderExample.spec_found
           LoaderExample.load_module
    LoaderExample.fresh "nope.py" =
  (LoaderExample.fresh, inl (FileNotFoundError "Flow file not present at 'nope.py'")).
Proof.
  exact (X2_missing_flow_file LoaderExample.path_exists
           LoaderExample.flow_dir_of LoaderExample.spec_found
           LoaderExample.load_module
           LoaderExample.fresh "nope.py" eq_refl).
Defined.

Lemma X3_sys_path_restored_witness :
  sys_path (fst (extract_flow_class_from_file LoaderExample.path_exists
                   LoaderExample.flow_dir_of LoaderExample.spec_found
           LoaderExample.load_module
                   LoaderExample.fresh "flow.py")) = ["/usr/lib/python"].
Proof.
  exact (X3_sys_path_restored LoaderExample.path_exists
           LoaderExample.flow_dir_of LoaderExample.spec_found
           LoaderExample.load_module
           LoaderExample.fresh "flow.py" (fun p => eq_refl)).
Defined.

(** X4. The cache of loaded modules. A call that finds the file in
    [loaded_modules] executes no code, leaves the cache as it is, and
    decides on the cached module. A call that does not find it, for a file
    that [importlib] has no loader for, raises the [AttributeError] of
    [module_from_spec(None)], executes no code and leaves the cache as it
    is; for a file that has a loader, it executes the file once, and stores
    the module under the file name when the execution succeeds, also when
    the choice of the class then raises. *)
Theorem X4_loaded_modules_cache
    (path_exists : string -> bool) (flow_dir_of : string -> string)
    (spec_found : string -> bool)
    (load_module : string -> list string -> list string * (string + py_module))
    (st : loader_state) (flow_file : string) :
  path_exists flow_file = true ->
  let out := extract_flow_class_from_file path_exists flow_dir_of
               spec_found load_module st flow_file in
  (forall m, od_get flow_file (loaded_modules st) = Some m ->
     executed (fst out) = executed st
     /\ loaded_modules (fst out) = loaded_modules st
     /\ snd out = pick_flow_class flow_file (class_members m) None)
  /\ (od_get flow_file (loaded_modules st) = None ->
      spec_found flow_file = false ->
      executed (fst out) = executed st
      /\ loaded_modules (fst out) = loaded_modules st
      /\ snd out = inl NoneType_AttributeError)
  /\ (od_get flow_file (loaded_modules st) = None ->
      spec_found flow_file = true ->
      executed (fst out) = (executed st ++ [flow_file])%list
      /\ forall p m,
           load_module flow_file
             (if negb (in_path (flow_dir_of flow_file) (sys_path st))
              then flow_dir_of flow_file :: sys_path st else sys_path st)
           = (p, inr m) ->
           od_get flow_file (loaded_modules (fst out)) = Some m
           /\ snd out = pick_flow_class flow_file (class_members m) None).
Proof. apply loaded_modules_cache. Qed.

Lemma X4_loaded_modules_cache_witness :
  executed (fst (extract_flow_class_from_file LoaderExample.path_exists
                   LoaderExample.flow_dir_of LoaderExample.spec_found
           LoaderExample.load_module
                   LoaderExample.fresh "flow.py")) = ["flow.py"]
  /\ od_get "flow.py"
       (loaded_modules
          (fst (extract_flow_class_from_file LoaderExample.path_exists
                  LoaderExample.flow_dir_of LoaderExample.spec_found
           LoaderExample.load_module
                  LoaderExample.fresh "flow.py"))) = Some LoaderExample.hello_module
  /\ snd (extract_flow_class_from_file LoaderExample.path_exists
            LoaderExample.flow_dir_of LoaderExample.spec_found
           LoaderExample.load_module
            LoaderExample.fresh "flow.py") = inr (Some LoaderExample.hello_flow).
Proof.
  destruct (proj2 (proj2 (X4_loaded_modules_cache LoaderExample.path_exists
                            LoaderExample.flow_dir_of LoaderExample.spec_found
                            LoaderExample.load_module
                            LoaderExample.fresh "flow.py" eq_refl))
              eq_refl eq_refl)
    as [He H].
  destruct (H _ LoaderExample.hello_module eq_refl) as [Hg Hs].
  split; [exact He|]. split; [exact Hg | exact Hs].
Defined.

(** X5. Two calls in a row for a file that loads ([importlib] has a
    loader for it and its code runs without exception) and whose code
    leaves [sys.path] alone: the second call executes nothing, leaves the
    cache as the first left it, and gives the result of the first, be it a
    class, [None] or the exception for several classes. *)
Theorem X5_second_call_uses_cache
    (path_exists : string -> bool) (flow_dir_of : string -> string)
    (spec_found : string -> bool)
    (load_module : string -> list string -> list string * (string + py_module))
    (st : loader_state) (flow_file : string) :
  path_exists flow_file = true ->
  spec_found flow_file = true ->
  (forall p, exists m, load_module flow_file p = (p, inr m)) ->
  let first := extract_flow_class_from_file path_exists flow_dir_of
                 spec_found load_module st flow_file in
  let second := extract_flow_class_from_file path_exists flow_dir_of
                  spec_found load_module (fst first) flow_file in
  snd second = snd first
  /\ executed (fst second) = executed (fst first)
  /\ loaded_modules (fst second) = loaded_modules (fst first).
Proof. apply second_call_cached. Qed.

Lemma X5_second_call_uses_cache_witness :
  let first := extract_flow_class_from_file LoaderExample.path_exists
                 LoaderExample.flow_dir_of LoaderExample.spec_found
           LoaderExample.load_module
                 LoaderExample.fresh "flow.py" in
  let second := extract_flow_class_from_file LoaderExample.path_exists
                  LoaderExample.flow_dir_of LoaderExample.spec_found
           LoaderExample.load_module
                  (fst first) "flow.py" in
  snd second = snd first
  /\ executed (fst second) = executed (fst first)
  /\ loaded_modules (fst second) = loaded_modules (fst first).
Proof.
  exact (X5_second_call_uses_cache LoaderExample.path_exists
           LoaderExample.flow_dir_of LoaderExample.spec_found
           LoaderExample.load_module
           LoaderExample.fresh "flow.py" eq_refl eq_refl
           (fun p => ex_intro _ LoaderExample.hello_module eq_refl)).
Defined.

(** ** The order of a signature *)

Lemma od_set_fresh {V : Type} k (v : V) d :
  od_mem k d = false -> od_set k v d = (d ++ [(k, v)])%list.
Proof.
  unfold od_mem. induction d as [|[k' v'] d IH]; simpl; auto.
  destruct (String.eqb k k'); [discriminate|].
  intros H. now rewrite IH.
Qed.

Lemma od_mem_app {V : Type} k (a b : odict V) :
  od_mem k (a ++ b)%list = od_mem k a || od_mem k b.
Proof.
  unfold od_mem. induction a as [|[k' v'] a IH]; simpl; auto.
  destruct (String.eqb k k'); auto.
Qed.

Lemma param_name_inj ps p q :
  NoDup (map param_name ps) -> In p ps -> In q ps ->
  param_name p = param_name q -> p = q.
Proof.
  induction ps as [|x ps IH]; simpl; [tauto|].
  intros Hnd Hp Hq Hn. apply NoDup_cons in Hnd as [Hx Hnd].
  assert (Hin : forall y, In y ps -> param_name y ∈ map param_name ps).
  { intros y Hy. apply list_elem_of_In, in_map, Hy. }
  destruct Hp as [<-|Hp], Hq as [<-|Hq]; auto.
  - exfalso. apply Hx. rewrite Hn. auto.
  - exfalso. apply Hx. rewrite <- Hn. auto.
Qed.

Lemma od_mem_entries {W : Type} sel (val : param -> W) ps k :
  od_mem k (entries sel val ps) = true ->
  exists q, In q ps /\ sel q = true /\ param_name q = k.
Proof.
  intros H. apply od_mem_keys in H. unfold od_keys, entries in H.
  rewrite map_map in H. simpl in H. apply in_map_iff in H as (q & <- & Hq).
  apply filter_In in Hq as [Hq Hs]. eauto.
Qed.

(** Assignments in a loop over parameters of different names, to keys that
    the dictionary does not hold, append in the order of the loop. *)
Lemma od_update_entries_fresh {W : Type} sel (val : param -> W) ps :
  NoDup (map param_name ps) ->
  forall d,
    (forall p, In p ps -> sel p = true -> od_mem (param_name p) d = false) ->
    od_update (entries sel val ps) d = (d ++ entries sel val ps)%list.
Proof.
  induction ps as [|p ps IH]; intros Hnd d Hd.
  - simpl. now rewrite app_nil_r.
  - pose proof Hnd as Hnd0. apply NoDup_cons in Hnd as [Hp Hnd].
    rewrite od_update_entries_cons, entries_cons.
    destruct (sel p) eqn:Hs.
    + rewrite od_set_fresh by (apply Hd; simpl; auto).
      rewrite IH; auto.
      * now rewrite <- app_assoc.
      * intros q Hq Hsq. rewrite od_mem_app, (Hd q); simpl; auto.
        unfold od_mem. simpl.
        destruct (String.eqb (param_name q) (param_name p)) eqn:E; auto.
        apply String.eqb_eq in E. exfalso. apply Hp. rewrite <- E.
        apply list_elem_of_In, in_map, Hq.
    + rewrite IH; auto. intros q Hq Hsq. apply Hd; simpl; auto.
Qed.

Lemma od_update_entries_nil {W : Type} sel (val : param -> W) ps :
  NoDup (map param_name ps) ->
  od_update (entries sel val ps) [] = entries sel val ps.
Proof.
  intros Hnd. rewrite od_update_entries_fresh; auto.
Qed.

(** X6. The signature of a parameter list. For parameters of different
    names whose types are all in the table, [extract_all_params] returns:
    as [params_sigs] the positional parameters in the order of their
    declaration, each positional-only, followed by the options in the order
    of their declaration, each keyword-only, every one with its name, its
    default and its annotation; the positional parameters and the options
    under their names in that same order; and the annotation and the default
    of every parameter in the order of declaration. *)
Theorem X6_signature_order {py : Python} (ps : list param) (sig : signature) :
  NoDup (map param_name ps) ->
  extract_all_params ps = Ok sig ->
  params_sigs sig =
    (entries is_argument (inspect_of POSITIONAL_ONLY) ps
     ++ entries is_option (inspect_of KEYWORD_ONLY) ps)%list
  /\ possible_arg_params sig = entries is_argument (fun p => p) ps
  /\ possible_opt_params sig = entries is_option (fun p => p) ps
  /\ annotations sig = entries (fun _ => true) ann_of ps
  /\ defaults sig = entries (fun _ => true) param_default ps.
Proof.
  intros Hnd. rewrite extract_all_params_spec.
  destruct (first_error ps); [discriminate|]. intros [= <-].
  unfold signature_of, extracted. simpl.
  rewrite !od_update_entries_nil by assumption. repeat split.
  apply od_update_entries_fresh; auto.
  intros p Hp Hopt.
  destruct (od_mem (param_name p) (entries is_argument _ ps)) eqn:E; auto.
  apply od_mem_entries in E as (q & Hq & Harg & Hn).
  assert (q = p) by (eapply param_name_inj; eauto). subst q.
  unfold is_argument, is_option in *. destruct (param_class_of p); discriminate.
Qed.

Lemma X6_signature_order_witness :
  od_keys (params_sigs (Example.sig_of
                          [Example.tags; Example.files; Example.max_workers])) =
  ["files"; "tags"; "max_workers"].
Proof.
  exact (f_equal od_keys
           (proj1 (X6_signature_order (py := Example.python)
                     [Example.tags; Example.files; Example.max_workers]
                     (Example.sig_of
                        [Example.tags; Example.files; Example.max_workers])
                     ltac:(repeat constructor; simpl;
                             rewrite ?list_elem_of_In; simpl; intuition discriminate)
                     eq_refl))).
Defined.

(** ** When compilation succeeds, and what a group class holds *)

Section CompileFacts.
Context {py : Python}.
Variable click_Option : string -> option_kwargs -> param.

Lemma extract_all_params_error ps :
  match first_error ps with
  | Some e => extract_all_params ps = Raise e
  | None => exists sig, extract_all_params ps = Ok sig
  end.
Proof.
  rewrite extract_all_params_spec. destruct (first_error ps); eauto.
Qed.

(** The signature of a node: [extract_all_params], then the assignment
    to [__signature__]. *)
Lemma params_error_spec ps :
  match params_error ps with
  | Some e =>
      (sig <- extract_all_params ps ;; _ <- signature_replace sig ;; Ok sig)
      = Raise e
  | None =>
      exists sig,
        (sig <- extract_all_params ps ;; _ <- signature_replace sig ;; Ok sig)
        = Ok sig
  end.
Proof.
  unfold params_error. rewrite extract_all_params_spec.
  destruct (first_error ps); simpl; auto.
  unfold signature_replace.
  destruct (inspect_Signature_error _); simpl; eauto.
Qed.

Lemma insert_flow_params_app_if (h : bool) fps ps :
  (if h then insert_flow_params click_Option fps ps else ps) =
  (if h then (map (flow_option click_Option) fps ++ ps)%list else ps).
Proof. destruct h; auto. apply insert_flow_params_app. Qed.

Lemma extract_loop_error fps cs :
  Forall (fun kc =>
            match compile_error click_Option fps (snd kc) with
            | Some e => snd (extract click_Option fps (snd kc)) = Raise e
            | None => exists m, snd (extract click_Option fps (snd kc)) = Ok m
            end) cs ->
  forall class_dict,
    match (fix first (cs : list (string * command)) : option exn :=
             match cs with
             | [] => None
             | (_, sub) :: rest =>
                 match compile_error click_Option fps sub with
                 | Some e => Some e
                 | None => first rest
                 end
             end) cs with
    | Some e => snd (extract_loop (extract click_Option fps) cs class_dict) = Raise e
    | None => exists cd, snd (extract_loop (extract click_Option fps) cs class_dict) = Ok cd
    end.
Proof.
  induction 1 as [|[k c] cs Hc _ IH]; intros class_dict; [simpl; eauto|].
  cbn [extract_loop snd] in *.
  destruct (extract click_Option fps c) as [c' r]. cbn [snd] in Hc.
  destruct (compile_error click_Option fps c) as [e|].
  - subst r. reflexivity.
  - destruct Hc as [m ->].
    specialize (IH (od_set (command_name c) m class_dict)).
    destruct (extract_loop (extract click_Option fps) cs _) as [rest' r'].
    exact IH.
Qed.

Lemma compile_error_spec fps c :
  match compile_error click_Option fps c with
  | Some e => snd (extract click_Option fps c) = Raise e
  | None => exists m, snd (extract click_Option fps c) = Ok m
  end.
Proof.
  induction c as [n ps h|n ps cs IH|n ty] using command_tree_ind.
  - simpl. rewrite insert_flow_params_app_if.
    pose proof (params_error_spec
                  (if h then (map (flow_option click_Option) fps ++ ps)%list else ps))
      as H.
    destruct (params_error _) as [e|].
    + destruct (extract_all_params _) as [sig|e0]; simpl in *; [|congruence].
      destruct (signature_replace sig); simpl in *; congruence.
    + destruct H as [sig H].
      destruct (extract_all_params _) as [sig0|e0]; simpl in *; [|discriminate].
      destruct (signature_replace sig0); simpl in *; [eauto|discriminate].
  - pose proof (extract_loop_error fps cs IH []) as Hl. simpl in *.
    destruct (extract_loop (extract click_Option fps) cs []) as [cs' r].
    simpl in *.
    match goal with
    | |- match (match ?x with Some _ => _ | None => _ end) with _ => _ end =>
        destruct x as [e|]
    end; simpl in *.
    + subst r. reflexivity.
    + destruct Hl as [cd ->]. simpl.
      pose proof (params_error_spec ps) as H.
      destruct (params_error ps) as [e|].
      * destruct (extract_all_params ps) as [sig|e0]; simpl in *; [|congruence].
        destruct (signature_replace sig); simpl in *; congruence.
      * destruct H as [sig H].
        destruct (extract_all_params ps) as [sig0|e0]; simpl in *; [|discriminate].
        destruct (signature_replace sig0); simpl in *; [eauto|discriminate].
  - simpl. reflexivity.
Qed.

End CompileFacts.

(** X7. When compilation fails. [extract_group] and [extract_command]
    raise exactly when some node of the tree is neither a command nor a
    group, or has parameters that [extract_all_params] or the assignment of
    the signature refuses: a parameter whose type is not in
    [click_to_python_types], an argument or an option whose name
    [inspect.Parameter] refuses (a keyword of Python, a name that is no
    identifier), or parameters whose order [Signature.replace] refuses (for
    a leaf flagged [has_flow_params], the options built from the flow-level
    parameters included). The exception is that of the first such node, the
    children of a group in their order before the group's own parameters,
    and within a node that of the first such parameter, before that of the
    signature: [RuntimeError] "Cannot handle ..." for the node, [KeyError]
    with the type for the parameter, and what [inspect] raises. Otherwise
    they return a callable. *)
Theorem X7_compilation_error {py : Python}
    (click_Option : string -> option_kwargs -> param)
    (fps : list flow_parameter) (c : command) :
  match compile_error click_Option fps c with
  | Some e => snd (extract click_Option fps c) = Raise e
  | None => exists m, snd (extract click_Option fps c) = Ok m
  end.
Proof. apply compile_error_spec. Qed.

Section MemberFacts.
Context {py : Python}.
Variable click_Option : string -> option_kwargs -> param.

Lemma extract_loop_members fps cs : forall cd0 cd,
  NoDup (child_names cs) ->
  (forall n, In n (child_names cs) -> od_mem n cd0 = false) ->
  snd (extract_loop (extract click_Option fps) cs cd0) = Ok cd ->
  exists members,
    cd = (cd0 ++ members)%list
    /\ od_keys members = child_names cs
    /\ Forall2 (fun kc km => snd (extract click_Option fps (snd kc)) = Ok (snd km))
         cs members.
Proof.
  induction cs as [|[k c] cs IH]; intros cd0 cd Hnd Hfresh; simpl.
  - intros [= <-]. exists []. rewrite app_nil_r. repeat split. constructor.
  - simpl in Hnd. apply NoDup_cons in Hnd as [Hc Hnd].
    destruct (extract click_Option fps c) as [c' r] eqn:E.
    destruct r as [m|e]; simpl; [|discriminate].
    destruct (extract_loop (extract click_Option fps) cs
                (od_set (command_name c) m cd0)) as [rest' r'] eqn:E2.
    simpl. intros ->.
    rewrite od_set_fresh in E2 by (apply Hfresh; simpl; auto).
    destruct (IH (cd0 ++ [(command_name c, m)])%list cd Hnd) as (ms & -> & Hk & Hf).
    + intros n Hn. rewrite od_mem_app, (Hfresh n) by (simpl; auto).
      unfold od_mem. simpl.
      destruct (String.eqb n (command_name c)) eqn:En; auto.
      apply String.eqb_eq in En. subst n. exfalso. apply Hc.
      now apply list_elem_of_In.
    + now rewrite E2.
    + exists ((command_name c, m) :: ms). rewrite <- app_assoc. simpl.
      repeat split.
      * now rewrite Hk.
      * constructor; auto. simpl. now rewrite E.
Qed.

Lemma extract_group_members fps n ps cs m :
  NoDup (child_names cs) ->
  snd (extract click_Option fps (Group n ps cs)) = Ok m ->
  exists class_dict sig,
    m = GroupMethod n class_dict sig
    /\ od_keys class_dict = child_names cs
    /\ Forall2 (fun kc km => snd (extract click_Option fps (snd kc)) = Ok (snd km))
         cs class_dict
    /\ extract_all_params ps = Ok sig.
Proof.
  intros Hnd. simpl.
  destruct (extract_loop (extract click_Option fps) cs []) as [cs' r] eqn:E.
  simpl. destruct r as [cd|e]; simpl; [|discriminate].
  destruct (extract_all_params ps) as [sig|e]; simpl; [|discriminate].
  destruct (signature_replace sig); simpl; [|discriminate].
  intros [= <-].
  destruct (extract_loop_members fps cs [] cd Hnd) as (ms & -> & Hk & Hf).
  - reflexivity.
  - now rewrite E.
  - exists ms, sig. simpl. auto.
Qed.

End MemberFacts.

(** X8. The members of a group class. When [extract_group] returns for a
    group whose children bear different names, the class it builds is named
    after the group and holds one member per child, in the order of
    [commands], under the name the child command bears (not the key it is
    registered under), and each member is the callable that compiling that
    child returns; the callable binds with the signature of the group's own
    parameters. *)
Theorem X8_group_members {py : Python}
    (click_Option : string -> option_kwargs -> param)
    (fps : list flow_parameter) (n : string) (ps : list param)
    (cs : list (string * command)) (m : callable) :
  NoDup (child_names cs) ->
  snd (extract click_Option fps (Group n ps cs)) = Ok m ->
  exists class_dict sig,
    m = GroupMethod n class_dict sig
    /\ od_keys class_dict = child_names cs
    /\ Forall2 (fun kc km => snd (extract click_Option fps (snd kc)) = Ok (snd km))
         cs class_dict
    /\ extract_all_params ps = Ok sig.
Proof. apply extract_group_members. Qed.

Lemma X8_group_members_witness :
  exists class_dict sig,
    snd (extract (py := Example.python) Example.click_Option [] Example.start) =
      Ok (GroupMethod "start" class_dict sig)
    /\ od_keys class_dict = ["run"; "kubernetes"].
Proof.
  destruct (X8_group_members (py := Example.python) Example.click_Option []
              "start" [Example.metadata]
              [("run", Example.run); ("kubernetes", Example.kubernetes)]
              (CompileExample.returned_callable
                 (snd (extract (py := Example.python) Example.click_Option []
                         Example.start)))
              ltac:(repeat constructor; simpl;
                      rewrite ?list_elem_of_In; simpl; intuition discriminate)
              eq_refl)
    as (cd & sig & Hm & Hk & _).
  exists cd, sig. split; [|exact Hk].
  rewrite <- Hm. reflexivity.
Defined.

(** ** The exceptions of the binder *)

Lemma od_get_In {V : Type} k (d : odict V) v :
  od_get k d = Some v -> In v (od_values d).
Proof.
  induction d as [|[k' v'] d IH]; simpl; [discriminate|].
  destruct (String.eqb k k'); [intros [= ->]; auto | auto].
Qed.

Lemma od_values_set {V : Type} k (v : V) d x :
  In x (od_values (od_set k v d)) -> x = v \/ In x (od_values d).
Proof.
  induction d as [|[k' v'] d IH]; simpl.
  - intros [<-|[]]. auto.
  - destruct (String.eqb k k'); simpl.
    + intros [<-|H]; auto.
    + intros [<-|H]; auto. destruct (IH H); auto.
Qed.

Lemma od_values_update {V : Type} (l : list (string * V)) : forall d x,
  In x (od_values (od_update l d)) -> In x (od_values l) \/ In x (od_values d).
Proof.
  induction l as [|[k v] l IH]; intros d x; simpl; auto.
  change (In x (od_values (od_update l (od_set k v d))) ->
          (v = x \/ In x (od_values l)) \/ In x (od_values d)).
  intros H. destruct (IH _ _ H) as [H1|H1]; auto.
  destruct (od_values_set _ _ _ _ H1) as [->|H2]; auto.
Qed.

Lemma od_values_entries sel ps p :
  In p (od_values (entries sel (fun p => p) ps)) -> In p ps.
Proof.
  unfold od_values, entries. rewrite map_map. simpl. rewrite map_id.
  intros H. now apply filter_In in H.
Qed.

Lemma od_mem_entries_intro {W : Type} sel (val : param -> W) ps q :
  In q ps -> sel q = true -> od_mem (param_name q) (entries sel val ps) = true.
Proof.
  intros Hq Hs. apply od_mem_keys. unfold od_keys, entries.
  rewrite map_map. simpl. apply in_map_iff. exists q. split; auto.
  apply filter_In. auto.
Qed.

Section CompiledSignature.
Context {py : Python}.
Variable ps : list param.
Variable sig : signature.
Hypothesis Hsig : extract_all_params ps = Ok sig.

Lemma compiled_sig_eq : sig = signature_of (extracted empty_extraction ps).
Proof.
  rewrite extract_all_params_spec in Hsig.
  destruct (first_error ps); [discriminate|]. now injection Hsig as <-.
Qed.

Lemma compiled_arg_In p :
  In p (od_values (possible_arg_params sig)) -> In p ps.
Proof.
  rewrite compiled_sig_eq. simpl. intros H.
  apply od_values_update in H as [H|[]]. eapply od_values_entries; eauto.
Qed.

Lemma compiled_opt_In p :
  In p (od_values (possible_opt_params sig)) -> In p ps.
Proof.
  rewrite compiled_sig_eq. simpl. intros H.
  apply od_values_update in H as [H|[]]. eapply od_values_entries; eauto.
Qed.

Lemma compiled_declarations_In p : In p (declarations sig) -> In p ps.
Proof.
  unfold declarations, merged_params. intros H.
  apply od_values_update in H as [H|H].
  - now apply compiled_opt_In.
  - apply od_values_update in H as [H|[]]. now apply compiled_arg_In.
Qed.

(** Every name the binder accepts has an annotation and a default. *)
Lemma compiled_known_key k :
  od_mem k (merged_params sig) = true ->
  od_mem k (annotations sig) = true /\ od_mem k (defaults sig) = true.
Proof.
  rewrite od_mem_merged, compiled_sig_eq. simpl.
  rewrite !od_mem_update. unfold od_mem at 2 4 6 8. simpl.
  rewrite !orb_false_r. intros H.
  assert (exists q, In q ps /\ param_name q = k) as (q & Hq & <-).
  { apply orb_true_iff in H as [H|H];
      apply od_mem_entries in H as (q & Hq & _ & Hn); eauto. }
  split; now apply od_mem_entries_intro.
Qed.

End CompiledSignature.

Section BinderErrors.
Context {py : Python}.
Variable check_type : value -> annotation -> bool.
Variable json_dumps : value -> string.
Variable ps : list param.
Variable sig : signature.
Hypothesis Hsig : extract_all_params ps = Ok sig.
Hypothesis Hsp : Forall has_spelling ps.

Lemma compiled_spelled p :
  In p (od_values (possible_arg_params sig))
  \/ In p (od_values (possible_opt_params sig)) ->
  cli_name_of p = Ok (canonical_name p).
Proof.
  intros H. apply cli_name_of_spelled.
  rewrite List.Forall_forall in Hsp. apply Hsp.
  destruct H; [eapply compiled_arg_In | eapply compiled_opt_In]; eauto.
Qed.

Lemma bind_supplied_errors st kv e :
  bind_supplied check_type json_dumps sig (merged_params sig) st kv = Raise e ->
  binder_error e.
Proof.
  destruct kv as [k v]. unfold bind_supplied.
  destruct (od_mem k (merged_params sig)) eqn:Hk; simpl.
  2:{ intros [= <-]. left. eauto. }
  destruct (compiled_known_key ps sig Hsig k Hk) as [Ha Hd].
  unfold od_index, od_mem in *.
  destruct (od_get k (annotations sig)) as [ann|]; [|discriminate]. simpl.
  destruct (od_get k (defaults sig)) as [dflt|]; [|discriminate].
  destruct (check_type v ann); simpl.
  2:{ intros [= <-]. right. left. eauto. }
  destruct (od_get k (possible_arg_params sig)) as [p|] eqn:Harg.
  { rewrite (compiled_spelled p) by (left; eapply od_get_In; eauto).
    discriminate. }
  destruct (od_get k (possible_opt_params sig)) as [p|] eqn:Hopt; [|discriminate].
  rewrite (compiled_spelled p) by (right; eapply od_get_In; eauto). simpl.
  destruct (param_is_bool_flag p); [|discriminate].
  destruct (py_eq_True _); [discriminate|].
  destruct (py_eq_False _).
  - destruct (param_secondary_opts p); discriminate.
  - destruct (bs_cli_name st); [discriminate|].
    intros [= <-]. right. right. right. left. reflexivity.
Qed.

Lemma bind_all_supplied_errors kwargs : forall st e,
  bind_all_supplied check_type json_dumps sig (merged_params sig) st kwargs
    = Raise e ->
  binder_error e.
Proof.
  induction kwargs as [|kv kwargs IH]; intros st e; cbn [bind_all_supplied].
  - discriminate.
  - destruct (bind_supplied check_type json_dumps sig (merged_params sig) st kv)
      as [st1|e1] eqn:E; simpl.
    + apply IH.
    + intros [= <-]. eapply bind_supplied_errors; eauto.
Qed.

Lemma sanity_check_errors kwargs e :
  _method_sanity_check check_type json_dumps sig kwargs = Raise e ->
  binder_error e.
Proof.
  unfold _method_sanity_check.
  destruct (List.find _ kwargs) as [kv|] eqn:Hf.
  { intros [= <-]. do 4 right. exists (fst kv). split; [|reflexivity].
    apply List.find_some in Hf as [_ Hf]. unfold is_binder_parameter in Hf.
    apply existsb_exists in Hf as (k & Hk & He).
    apply String.eqb_eq in He. now subst k. }
  destruct (bind_all_supplied check_type json_dumps sig (merged_params sig)
              bind_init kwargs) as [st|e1] eqn:E; simpl.
  - fold (declarations sig). rewrite check_required_find.
    + destruct (List.find (missing_required _) _); simpl; [|discriminate].
      intros [= <-]. right. right. left. eauto.
    + apply List.Forall_forall. intros p Hp.
      rewrite List.Forall_forall in Hsp. apply Hsp.
      eapply compiled_declarations_In; eauto.
  - intros [= <-]. eapply bind_all_supplied_errors; eauto.
Qed.

End BinderErrors.

(** X9. The exceptions of the binder. With a signature that
    [extract_all_params] returned for parameters that each have a spelling,
    a call of [_method_sanity_check] raises nothing but: the [ValueError]
    "Unknown argument", the [TypeError] of a value of the wrong type, the
    [ValueError] "Missing argument", the [UnboundLocalError] of the
    variable [cli_name], and the [TypeError] "got multiple values for
    argument" of Python for a supplied key that is the name of one of the
    four parameters of the function itself. It never raises [KeyError] on
    the annotations or the defaults, nor [IndexError] on the spellings. *)
Theorem X9_binder_exceptions {py : Python}
    (check_type : value -> annotation -> bool) (json_dumps : value -> string)
    (ps : list param) (sig : signature) (kwargs : list (string * value))
    (e : exn) :
  extract_all_params ps = Ok sig ->
  Forall has_spelling ps ->
  _method_sanity_check check_type json_dumps sig kwargs = Raise e ->
  binder_error e.
Proof. intros Hsig Hsp. eapply sanity_check_errors; eauto. Qed.

Lemma X9_binder_exceptions_witness :
  binder_error (UnboundLocalError "cli_name")
  /\ _method_sanity_check Example.check_type Example.json_dumps
       (Example.sig_of [Example.verbose]) [("verbose", VAtom ANone)] =
     Raise (UnboundLocalError "cli_name").
Proof.
  split; [|reflexivity].
  exact (X9_binder_exceptions (py := Example.python)
           Example.check_type Example.json_dumps
           [Example.verbose] (Example.sig_of [Example.verbose])
           [("verbose", VAtom ANone)] (UnboundLocalError "cli_name")
           eq_refl
           ltac:(repeat constructor; discriminate)
           eq_refl).
Defined.

(** ** The names in a binding *)

Section BindingNames.
Variable check_type : value -> annotation -> bool.
Variable json_dumps : value -> string.
Variable sig : signature.

Lemma first_stripped_canonical p n :
  cli_name_of p = Ok n -> n = canonical_name p.
Proof.
  unfold cli_name_of, first_stripped, canonical_name.
  destruct (param_opts p); [discriminate|]. now intros [= <-].
Qed.

(** One iteration stores under the name of a declared parameter, or under
    the name the previous iterations left in [cli_name]. *)
Lemma bind_supplied_provenance possible st kv st' :
  bind_supplied check_type json_dumps sig possible st kv = Ok st' ->
  st' = st
  \/ exists n v,
       (st' = set_arg n v st \/ st' = set_option n v st)
       /\ (declared_name sig n \/ bs_cli_name st = Some n).
Proof.
  destruct kv as [k v]. unfold bind_supplied.
  destruct (negb (od_mem k possible)); [discriminate|].
  unfold od_index.
  destruct (od_get k (annotations sig)) as [ann|]; [|discriminate]. simpl.
  destruct (check_type v ann); simpl;
    [|destruct (od_get k (defaults sig)); discriminate].
  destruct (od_get k (possible_arg_params sig)) as [p|] eqn:Harg.
  { destruct (cli_name_of p) as [n|] eqn:En; [|discriminate]. simpl.
    intros [= <-]. right. eexists n, _. split; [left; reflexivity|].
    left. exists p. split; [left; eapply od_get_In; eauto|].
    left. now apply first_stripped_canonical. }
  destruct (od_get k (possible_opt_params sig)) as [p|] eqn:Hopt;
    [|intros [= <-]; auto].
  assert (Hin : In p (od_values (possible_arg_params sig))
                \/ In p (od_values (possible_opt_params sig)))
    by (right; eapply od_get_In; eauto).
  destruct (param_is_bool_flag p).
  - destruct (py_eq_True _).
    + destruct (cli_name_of p) as [n|] eqn:En; [|discriminate]. simpl.
      intros [= <-]. right. eexists n, _. split; [right; reflexivity|].
      left. exists p. split; auto. left. now apply first_stripped_canonical.
    + destruct (py_eq_False _).
      * destruct (param_secondary_opts p) as [|s rest] eqn:Es;
          [intros [= <-]; auto|].
        simpl. intros [= <-]. right. eexists _, _.
        split; [right; reflexivity|].
        left. exists p. split; auto. right. eauto.
      * destruct (bs_cli_name st) as [n|] eqn:Ec; [|discriminate].
        intros [= <-]. right. eexists n, _. split; [right; reflexivity|]. auto.
  - destruct (cli_name_of p) as [n|] eqn:En; [|discriminate]. simpl.
    intros [= <-]. right. eexists n, _. split; [right; reflexivity|].
    left. exists p. split; auto. left. now apply first_stripped_canonical.
Qed.

Lemma in_binding_set_arg_inv st n v n' :
  in_binding (bs_params (set_arg n v st)) n' = true ->
  n' = n \/ in_binding (bs_params st) n' = true.
Proof.
  unfold in_binding. simpl. rewrite od_mem_set.
  destruct (String.eqb n' n) eqn:E; simpl; auto.
  apply String.eqb_eq in E. auto.
Qed.

Lemma in_binding_set_option_inv st n v n' :
  in_binding (bs_params (set_option n v st)) n' = true ->
  n' = n \/ in_binding (bs_params st) n' = true.
Proof.
  unfold in_binding. simpl. rewrite od_mem_set.
  destruct (String.eqb n' n) eqn:E; simpl; auto.
  apply String.eqb_eq in E. auto.
Qed.

Lemma names_declared_step possible st kv st' :
  names_declared sig st ->
  bind_supplied check_type json_dumps sig possible st kv = Ok st' ->
  names_declared sig st'.
Proof.
  intros [Hb Hc] H.
  apply bind_supplied_provenance in H as [->|(n & v & Hst & Hn)];
    [split; auto|].
  assert (Hd : declared_name sig n) by (destruct Hn; auto).
  destruct Hst as [-> | ->]; split.
  - intros n' Hn'. apply in_binding_set_arg_inv in Hn' as [->|Hn']; auto.
  - simpl. now intros n' [= <-].
  - intros n' Hn'. apply in_binding_set_option_inv in Hn' as [->|Hn']; auto.
  - simpl. now intros n' [= <-].
Qed.

Lemma names_declared_all possible kwargs : forall st st',
  names_declared sig st ->
  bind_all_supplied check_type json_dumps sig possible st kwargs = Ok st' ->
  names_declared sig st'.
Proof.
  induction kwargs as [|kv kwargs IH]; intros st st' Hst;
    cbn [bind_all_supplied].
  - now intros [= <-].
  - destruct (bind_supplied check_type json_dumps sig possible st kv)
      as [st1|e] eqn:E; simpl; [|discriminate].
    apply IH. eapply names_declared_step; eauto.
Qed.

Lemma binding_names_declared kwargs mp n :
  _method_sanity_check check_type json_dumps sig kwargs = Ok mp ->
  in_binding mp n = true -> declared_name sig n.
Proof.
  intros H. apply sanity_check_returns in H as (_ & st & E & _ & ->).
  assert (Hinit : names_declared sig bind_init).
  { split; intros n0 H0; discriminate H0. }
  destruct (names_declared_all _ _ _ _ Hinit E) as [Hb _]. apply Hb.
Qed.

End BindingNames.

(** X10. The names in a binding. Every name under which a binding that
    [_method_sanity_check] returns holds a value, among the positionals or
    among the options, is the name of a declared parameter: its first
    spelling, or its first secondary spelling, without the dashes. The
    binder stores nothing under a name that no declaration gives. *)
Theorem X10_binding_names
    (check_type : value -> annotation -> bool) (json_dumps : value -> string)
    (sig : signature) (kwargs : list (string * value)) (mp : method_params)
    (n : string) :
  _method_sanity_check check_type json_dumps sig kwargs = Ok mp ->
  in_binding mp n = true ->
  declared_name sig n.
Proof. apply binding_names_declared. Qed.

Lemma X10_binding_names_witness :
  declared_name (Example.sig_of [Example.verbose]) "quiet".
Proof.
  exact (X10_binding_names Example.check_type Example.json_dumps
           (Example.sig_of [Example.verbose])
           [("verbose", VAtom (ABool false))]
           (mkMethodParams [] [("quiet", VAtom (AStr "flag"))]) "quiet"
           eq_refl eq_refl).
Defined.

(** ** The order of the options in a binding *)

Lemma od_update_fresh {V : Type} (l : list (string * V)) : forall d,
  NoDup (od_keys l) ->
  (forall k, In k (od_keys l) -> od_mem k d = false) ->
  od_update l d = (d ++ l)%list.
Proof.
  induction l as [|[k v] l IH]; intros d Hnd Hd.
  - simpl. now rewrite app_nil_r.
  - simpl in Hnd. apply NoDup_cons in Hnd as [Hk Hnd].
    change (od_update l (od_set k v d) = (d ++ (k, v) :: l)%list).
    rewrite od_set_fresh by (apply Hd; simpl; auto).
    rewrite IH; auto.
    + now rewrite <- app_assoc.
    + intros k' Hk'. rewrite od_mem_app, (Hd k') by (simpl; auto).
      unfold od_mem. simpl. destruct (String.eqb k' k) eqn:E; auto.
      apply String.eqb_eq in E. subst k'. exfalso. apply Hk.
      now apply list_elem_of_In.
Qed.

Section SuppliedOrder.
Variable check_type : value -> annotation -> bool.
Variable json_dumps : value -> string.
Variable sig : signature.

Lemma bind_plain_option st kv :
  plain_option check_type sig kv ->
  bind_supplied check_type json_dumps sig (merged_params sig) st kv =
  Ok (set_option (option_name sig (fst kv)) (snd kv) st).
Proof.
  destruct kv as [k v]. intros (Harg & p & ann & Hopt & Hf & Hsp & Ha & Hj & Ht).
  cbn [fst snd] in *.
  rewrite (bind_supplied_option check_type json_dumps sig k v p ann st
             Harg Hopt Ha Hj Ht).
  rewrite Hf, (cli_name_of_spelled p Hsp). unfold option_name. now rewrite Hopt.
Qed.

Lemma bind_all_plain_options kwargs : forall st,
  Forall (plain_option check_type sig) kwargs ->
  exists st',
    bind_all_supplied check_type json_dumps sig (merged_params sig) st kwargs
      = Ok st'
    /\ mp_args (bs_params st') = mp_args (bs_params st)
    /\ mp_options (bs_params st') =
       od_update (bound_as_supplied sig kwargs) (mp_options (bs_params st)).
Proof.
  induction kwargs as [|kv kwargs IH]; intros st Hall; cbn [bind_all_supplied].
  - eauto.
  - apply List.Forall_cons_iff in Hall as [Hkv Hall].
    rewrite (bind_plain_option st kv Hkv). simpl.
    destruct (IH (set_option (option_name sig (fst kv)) (snd kv) st) Hall)
      as (st' & -> & Ha & Ho).
    exists st'. repeat split; auto.
Qed.

Lemma supplied_order kwargs node :
  call_binds kwargs ->
  Forall (plain_option check_type sig) kwargs ->
  NoDup (od_keys (bound_as_supplied sig kwargs)) ->
  let mp := mkMethodParams [] (bound_as_supplied sig kwargs) in
  _method_sanity_check check_type json_dumps sig kwargs =
    (_ <- check_required mp (od_values (merged_params sig)) ;; Ok mp)
  /\ emit_cmd (node, store_params mp) =
     AStr node :: flat_map emit_option (bound_as_supplied sig kwargs).
Proof.
  intros Hcall Hall Hnd mp. split; [|reflexivity].
  destruct (bind_all_plain_options kwargs bind_init Hall) as (st' & Hb & Ha & Ho).
  rewrite sanity_check_body by exact Hcall. rewrite Hb. simpl.
  rewrite od_update_fresh in Ho by (auto; intros; reflexivity).
  simpl in Ha, Ho. destruct st' as [[args opts] c]. simpl in *. now subst.
Qed.

End SuppliedOrder.

(** X11. The order of the options. Keyword arguments supplied for options
    that are not boolean flags, stored under different names, none of them
    under the name of one of the four parameters of [_method_sanity_check]
    itself (which Python refuses to bind), are bound in the order in which
    they are supplied, whatever the order of the declarations; the tokens of
    the node are its name followed by the tokens of each option in that
    order. The binder returns this binding unless its check of the required
    parameters raises. *)
Theorem X11_supplied_order
    (check_type : value -> annotation -> bool) (json_dumps : value -> string)
    (sig : signature) (kwargs : list (string * value)) (node : string) :
  call_binds kwargs ->
  Forall (plain_option check_type sig) kwargs ->
  NoDup (od_keys (bound_as_supplied sig kwargs)) ->
  let mp := mkMethodParams [] (bound_as_supplied sig kwargs) in
  _method_sanity_check check_type json_dumps sig kwargs =
    (_ <- check_required mp (od_values (merged_params sig)) ;; Ok mp)
  /\ emit_cmd (node, store_params mp) =
     AStr node :: flat_map emit_option (bound_as_supplied sig kwargs).
Proof. apply supplied_order. Qed.

Lemma X11_supplied_order_witness :
  _method_sanity_check Example.check_type Example.json_dumps
    (Example.sig_of [Example.tags; Example.max_workers])
    [("max_workers", VAtom (AInt 5)); ("tags", VList [AStr "a"])] =
    Ok (mkMethodParams [] [("max-workers", VAtom (AInt 5)); ("tags", VList [AStr "a"])])
  /\ emit_cmd ("run", store_params
                 (mkMethodParams []
                    [("max-workers", VAtom (AInt 5)); ("tags", VList [AStr "a"])])) =
     map AStr ["run"; "--max-workers"; "5"; "--tags"; "a"].
Proof.
  assert (Hp1 : plain_option Example.check_type
                  (Example.sig_of [Example.tags; Example.max_workers])
                  ("max_workers", VAtom (AInt 5))).
  { split; [reflexivity|]. exists Example.max_workers, (OptionalOf Pint).
    repeat split. discriminate. }
  assert (Hp2 : plain_option Example.check_type
                  (Example.sig_of [Example.tags; Example.max_workers])
                  ("tags", VList [AStr "a"])).
  { split; [reflexivity|]. exists Example.tags, (OptionalListOf Pstr).
    repeat split. discriminate. }
  exact (X11_supplied_order Example.check_type Example.json_dumps
           (Example.sig_of [Example.tags; Example.max_workers])
           [("max_workers", VAtom (AInt 5)); ("tags", VList [AStr "a"])] "run"
           eq_refl
           (List.Forall_cons _ _ _ Hp1 (List.Forall_cons _ _ _ Hp2 (List.Forall_nil _)))
           ltac:(repeat constructor; simpl;
                   rewrite ?list_elem_of_In; simpl; intuition discriminate)).
Defined.

(** ** Scalar values, JSON values, and the marker of the flags *)

(** X12. A scalar option. A value that is not a list, supplied for an
    option that is not a boolean flag and has no JSON annotation, is stored
    as it is under the name of the first spelling, whatever the keyword
    arguments before it have stored. In a call whose only keyword argument
    it is, and whose key is not the name of one of the four parameters of
    [_method_sanity_check] itself, the binder returns the binding that holds
    this value alone, unless its check of the required parameters raises,
    and the binding is serialized as the token [--name] followed by
    [str(value)]. Two values stand out: the string [flag], which is the
    marker of the boolean flags, is serialized as [--name] alone, without
    its value; and [None], supplied explicitly and accepted by the type
    check, is serialized as [--name] followed by the text [None]. *)
Theorem X12_scalar_option
    (check_type : value -> annotation -> bool) (json_dumps : value -> string)
    (sig : signature) (k : string) (p : param) (ann : annotation) (a : atom)
    (o : string) (os : list string) (node : string) :
  od_get k (possible_arg_params sig) = None ->
  od_get k (possible_opt_params sig) = Some p ->
  param_is_bool_flag p = false ->
  param_opts p = o :: os ->
  od_get k (annotations sig) = Some ann ->
  annotation_is_JSON ann = false ->
  check_type (VAtom a) ann = true ->
  is_binder_parameter k = false ->
  let mp := mkMethodParams [] [(strip_dashes o, VAtom a)] in
  (forall st,
     bind_supplied check_type json_dumps sig (merged_params sig) st (k, VAtom a) =
     Ok (set_option (strip_dashes o) (VAtom a) st))
  /\ _method_sanity_check check_type json_dumps sig [(k, VAtom a)] =
    (_ <- check_required mp (od_values (merged_params sig)) ;; Ok mp)
  /\ emit_cmd (node, store_params mp) = AStr node :: scalar_tokens (strip_dashes o) a
  /\ (a = AStr "flag" ->
      emit_cmd (node, store_params mp) = [AStr node; flag_token (strip_dashes o)])
  /\ (a = ANone ->
      emit_cmd (node, store_params mp) =
      [AStr node; flag_token (strip_dashes o); AStr "None"]).
Proof.
  intros Harg Hopt Hflag Hopts Hann Hjson Hty Hk mp.
  assert (Hstep : forall st,
             bind_supplied check_type json_dumps sig (merged_params sig)
               st (k, VAtom a) =
             Ok (set_option (strip_dashes o) (VAtom a) st)).
  { intros st.
    rewrite (bind_supplied_option check_type json_dumps sig k _ p ann _
               Harg Hopt Hann Hjson Hty).
    rewrite Hflag. unfold cli_name_of. now rewrite Hopts. }
  split; [exact Hstep|]. split; [|split; [|split]].
  - now rewrite (sanity_check_single _ _ _ (k, VAtom a) _ Hk (Hstep bind_init)).
  - unfold emit_cmd, emit_options, scalar_tokens. simpl. now rewrite app_nil_r.
  - intros ->. reflexivity.
  - intros ->. reflexivity.
Qed.

Lemma X12_scalar_option_witness :
  _method_sanity_check Example.check_type Example.json_dumps
    (Example.sig_of [Example.metadata]) [("metadata", VAtom (AStr "flag"))] =
    Ok (mkMethodParams [] [("metadata", VAtom (AStr "flag"))])
  /\ emit_cmd ("start", store_params
                 (mkMethodParams [] [("metadata", VAtom (AStr "flag"))])) =
     map AStr ["start"; "--metadata"].
Proof.
  destruct (X12_scalar_option Example.check_type Example.json_dumps
              (Example.sig_of [Example.metadata]) "metadata" Example.metadata
              (OptionalOf Pstr) (AStr "flag") "--metadata" [] "start"
              eq_refl eq_refl eq_refl eq_refl eq_refl eq_refl eq_refl eq_refl)
    as (_ & H1 & _ & H3 & _).
  split; [exact H1 | exact (H3 eq_refl)].
Defined.

(** X13. A JSON value. A value supplied for an option whose annotation is
    [JSON] (the type of a JSON parameter that is not multiple, required or
    not), whether the value is a list or not, is replaced by the string
    [json.dumps] gives for it before it is stored under the name of the
    first spelling, whatever the keyword arguments before it have stored.
    In a call whose only keyword argument it is, and whose key is not the
    name of one of the four parameters of [_method_sanity_check] itself, the
    binder returns the binding that holds this string alone, unless its
    check of the required parameters raises, and the binding is serialized
    as [--name] followed by that string; a list is not serialized element
    by element. *)
Theorem X13_json_option
    (check_type : value -> annotation -> bool) (json_dumps : value -> string)
    (sig : signature) (k : string) (p : param) (ann : annotation) (v : value)
    (o : string) (os : list string) (node : string) :
  od_get k (possible_arg_params sig) = None ->
  od_get k (possible_opt_params sig) = Some p ->
  param_is_bool_flag p = false ->
  param_opts p = o :: os ->
  od_get k (annotations sig) = Some ann ->
  annotation_is_JSON ann = true ->
  check_type v ann = true ->
  is_binder_parameter k = false ->
  let mp := mkMethodParams [] [(strip_dashes o, VAtom (AStr (json_dumps v)))] in
  (forall st,
     bind_supplied check_type json_dumps sig (merged_params sig) st (k, v) =
     Ok (set_option (strip_dashes o) (VAtom (AStr (json_dumps v))) st))
  /\ _method_sanity_check check_type json_dumps sig [(k, v)] =
    (_ <- check_required mp (od_values (merged_params sig)) ;; Ok mp)
  /\ emit_cmd (node, store_params mp) =
     AStr node :: scalar_tokens (strip_dashes o) (AStr (json_dumps v)).
Proof.
  intros Harg Hopt Hflag Hopts Hann Hjson Hty Hk mp.
  assert (Hstep : forall st,
             bind_supplied check_type json_dumps sig (merged_params sig)
               st (k, v) =
             Ok (set_option (strip_dashes o) (VAtom (AStr (json_dumps v))) st)).
  { intros st. unfold bind_supplied, od_index.
    rewrite od_mem_merged, (od_mem_get _ _ _ Hopt). simpl.
    rewrite Hann. simpl. rewrite Hty. simpl.
    rewrite Hjson, Harg, Hopt, Hflag. unfold cli_name_of. now rewrite Hopts. }
  split; [exact Hstep|]. split.
  - now rewrite (sanity_check_single _ _ _ (k, v) _ Hk (Hstep bind_init)).
  - unfold emit_cmd, emit_options, scalar_tokens. simpl. now rewrite app_nil_r.
Qed.

Lemma X13_json_option_witness :
  _method_sanity_check Example.check_type Example.json_dumps
    (Example.sig_of [BinderExample.config_value])
    [("config_value", VAtom (AInt 3))] =
    Ok (mkMethodParams [] [("config-value", VAtom (AStr "3"))])
  /\ emit_cmd ("run", store_params
                 (mkMethodParams [] [("config-value", VAtom (AStr "3"))])) =
     map AStr ["run"; "--config-value"; "3"].
Proof.
  exact (proj2 (X13_json_option Example.check_type Example.json_dumps
           (Example.sig_of [BinderExample.config_value]) "config_value"
           BinderExample.config_value (OptionalOf PJSON) (VAtom (AInt 3))
           "--config-value" [] "run"
           eq_refl eq_refl eq_refl eq_refl eq_refl eq_refl eq_refl eq_refl)).
Defined.

(** X14. A boolean flag supplied with a value that is neither [True] nor
    [False] (such as [None], which the type check of an optional flag
    accepts), in a call none of whose keys is the name of one of the four
    parameters of [_method_sanity_check] itself. As the only keyword
    argument it makes the binder raise [UnboundLocalError], the variable
    [cli_name] having no value yet. As the second of two, after a keyword
    argument for an option that is not a flag, it makes the binder store the
    marker of the flags under the name of that option, in place of the value
    supplied for it: the node is then serialized as its name followed by
    [--name] of that option alone. *)
Theorem X14_flag_neither_true_nor_false
    (check_type : value -> annotation -> bool) (json_dumps : value -> string)
    (sig : signature) (k0 : string) (v0 : value) (k : string) (p : param)
    (ann : annotation) (v : value) (node : string) :
  plain_option check_type sig (k0, v0) ->
  od_get k (possible_arg_params sig) = None ->
  od_get k (possible_opt_params sig) = Some p ->
  param_is_bool_flag p = true ->
  od_get k (annotations sig) = Some ann ->
  annotation_is_JSON ann = false ->
  check_type v ann = true ->
  py_eq_True v = false ->
  py_eq_False v = false ->
  is_binder_parameter k0 = false ->
  is_binder_parameter k = false ->
  _method_sanity_check check_type json_dumps sig [(k, v)] =
    Raise (UnboundLocalError "cli_name")
  /\ (let mp := mkMethodParams [] [(option_name sig k0, VAtom (AStr "flag"))] in
      _method_sanity_check check_type json_dumps sig [(k0, v0); (k, v)] =
        (_ <- check_required mp (od_values (merged_params sig)) ;; Ok mp)
      /\ emit_cmd (node, store_params mp) =
         [AStr node; flag_token (option_name sig k0)]).
Proof.
  intros Hplain Harg Hopt Hflag Hann Hjson Hty Ht Hf Hk0 Hk.
  assert (Hstep : forall st,
             bind_supplied check_type json_dumps sig (merged_params sig) st (k, v) =
             match bs_cli_name st with
             | Some cli_name => Ok (set_option cli_name flag_marker st)
             | None => Raise (UnboundLocalError "cli_name")
             end).
  { intros st.
    rewrite (bind_supplied_option check_type json_dumps sig k v p ann st
               Harg Hopt Hann Hjson Hty).
    now rewrite Hflag, Ht, Hf. }
  split.
  - rewrite sanity_check_body
      by (unfold call_binds; cbn [List.find fst]; now rewrite Hk).
    cbn [bind_all_supplied]. now rewrite Hstep.
  - split; [|reflexivity].
    rewrite sanity_check_body
      by (unfold call_binds; cbn [List.find fst]; now rewrite Hk0, Hk).
    cbn [bind_all_supplied].
    rewrite (bind_plain_option check_type json_dumps sig bind_init (k0, v0) Hplain).
    cbn [res_bind]. rewrite Hstep. simpl. now rewrite String.eqb_refl.
Qed.

Lemma X14_flag_neither_true_nor_false_witness :
  _method_sanity_check Example.check_type Example.json_dumps
    (Example.sig_of [Example.metadata; Example.verbose])
    [("verbose", VAtom ANone)] = Raise (UnboundLocalError "cli_name")
  /\ _method_sanity_check Example.check_type Example.json_dumps
       (Example.sig_of [Example.metadata; Example.verbose])
       [("metadata", VAtom (AStr "local")); ("verbose", VAtom ANone)] =
     Ok (mkMethodParams [] [("metadata", VAtom (AStr "flag"))])
  /\ emit_cmd ("start", store_params
                 (mkMethodParams [] [("metadata", VAtom (AStr "flag"))])) =
     map AStr ["start"; "--metadata"].
Proof.
  assert (Hp : plain_option Example.check_type
                 (Example.sig_of [Example.metadata; Example.verbose])
                 ("metadata", VAtom (AStr "local"))).
  { split; [reflexivity|]. exists Example.metadata, (OptionalOf Pstr).
    repeat split. discriminate. }
  destruct (X14_flag_neither_true_nor_false Example.check_type Example.json_dumps
              (Example.sig_of [Example.metadata; Example.verbose])
              "metadata" (VAtom (AStr "local")) "verbose" Example.verbose
              (OptionalOf Pbool) (VAtom ANone) "start"
              Hp eq_refl eq_refl eq_refl eq_refl eq_refl eq_refl eq_refl eq_refl
              eq_refl eq_refl)
    as (H1 & H2 & H3).
  split; [exact H1|]. split; [exact H2 | exact H3].
Defined.

(** X15. A value of the wrong type. When Python binds the call of the
    binder (no key is the name of one of its four parameters), the keyword
    arguments before it bind without error and its key is declared, a value
    that the type check rejects makes the binder raise [TypeError] with the
    key, the annotation expected and the declared default; when no key is
    [_self] either, the call of the root callable or of a member raises it
    in the state it started in, so that no object is created, no chain
    extended, and the default is not used in place of the value. *)
Theorem X15_type_error
    (check_type : value -> annotation -> bool) (json_dumps : value -> string)
    (sig : signature) (pre post : list (string * value)) (k : string)
    (v : value) (ann : annotation) (dflt : value) (st' : bind_state) :
  call_binds (pre ++ (k, v) :: post)%list ->
  bind_all_supplied check_type json_dumps sig (merged_params sig) bind_init pre
    = Ok st' ->
  od_mem k (merged_params sig) = true ->
  od_get k (annotations sig) = Some ann ->
  od_get k (defaults sig) = Some dflt ->
  check_type v ann = false ->
  _method_sanity_check check_type json_dumps sig (pre ++ (k, v) :: post)%list =
    Raise (TypeError k ann dflt)
  /\ (od_mem "_self" (pre ++ (k, v) :: post)%list = false ->
      (forall st self m, callable_sig m = sig ->
         call_method check_type json_dumps st self m (pre ++ (k, v) :: post)%list =
         Raises st (TypeError k ann dflt))
      /\ (forall st m, rm_sig m = sig ->
            call_root check_type json_dumps st m (pre ++ (k, v) :: post)%list =
            Raises st (TypeError k ann dflt))).
Proof.
  intros Hcall Hpre Hk Hann Hd Hty.
  assert (Hs : _method_sanity_check check_type json_dumps sig
                 (pre ++ (k, v) :: post)%list = Raise (TypeError k ann dflt)).
  { apply sanity_check_raise; [exact Hcall|].
    rewrite bind_all_supplied_app, Hpre.
    cbn [res_bind bind_all_supplied]. unfold bind_supplied, od_index.
    rewrite Hk, Hann. simpl. rewrite Hty, Hd. reflexivity. }
  split; [exact Hs|]. intros Hself. split.
  - intros st self m <-.
    rewrite (call_method_raise _ _ _ _ _ _ _ Hs). now rewrite Hself.
  - intros st m <-.
    rewrite (call_root_raise _ _ _ _ _ _ Hself Hs).
    destruct (defaults (rm_sig m)); [discriminate Hd | reflexivity].
Qed.

Lemma X15_type_error_witness :
  call_root Example.check_type Example.json_dumps
    (Example.initial Example.start)
    (mkRootMethod "flow.py" None (Example.sig_of [Example.metadata]))
    [("metadata", VAtom (AInt 1))] =
  Raises (Example.initial Example.start)
    (TypeError "metadata" (OptionalOf Pstr) (VAtom ANone)).
Proof.
  exact (proj2 (proj2 (X15_type_error Example.check_type Example.json_dumps
                         (Example.sig_of [Example.metadata]) [] []
                         "metadata" (VAtom (AInt 1)) (OptionalOf Pstr)
                         (VAtom ANone) bind_init
                         eq_refl eq_refl eq_refl eq_refl eq_refl eq_refl)
                  eq_refl)
           (Example.initial Example.start)
           (mkRootMethod "flow.py" None (Example.sig_of [Example.metadata]))
           eq_refl).
Defined.

(** ** What [execute] returns and what it leaves *)
















(** ** The stores the API builds *)



Section BuiltFacts.
Context {py : Python}.
Variable check_type : value -> annotation -> bool.
Variable json_dumps : value -> string.
Variable click_Option : string -> option_kwargs -> param.



End BuiltFacts.




(** ** Chains: how the invocations compose *)

Lemma ancestors_app h ext l ps :
  ancestors h l ps -> ancestors (h ++ ext) l ps.
Proof.
  induction 1 as [l o Hl Hp|l o p ps Hl Hp _ IH].
  - eapply ancestors_root; eauto. now apply lookup_app_l_Some.
  - eapply ancestors_parent; eauto. now apply lookup_app_l_Some.
Qed.

Lemma chain_tokens_app h ext l :
  l < length h -> chain_tokens (h ++ ext) l = chain_tokens h l.
Proof. intros H. unfold chain_tokens. now rewrite lookup_app_l. Qed.

Section ChainFacts.
Variable check_type : value -> annotation -> bool.
Variable json_dumps : value -> string.


Lemma group_node st self o ps n class_dict sig kwargs mp :
  wf_heap (heap st) ->
  heap st !! self = Some o ->
  ancestors (heap st) self ps ->
  od_mem "_self" kwargs = false ->
  _method_sanity_check check_type json_dumps sig kwargs = Ok mp ->
  exists st',
    call_method check_type json_dumps st self (GroupMethod n class_dict sig) kwargs
      = Returns st' (RObject (length (heap st)))
    /\ wf_heap (heap st')
    /\ ancestors (heap st') (length (heap st)) (self :: ps)
    /\ chain_tokens (heap st') (length (heap st)) = emit_cmd (n, store_params mp)
    /\ (forall l, l < length (heap st) -> heap st' !! l = heap st !! l).
Proof.
  intros Hwf Ho Ha Hself Hs. unfold call_method. rewrite Hself, Hs.
  eexists. split; [reflexivity|].
  simpl. pose proof (lookup_lt_Some _ _ _ Ho) as Hlt. repeat split.
  - apply wf_heap_alloc; auto. simpl. intros p [= <-]. exact Hlt.
  - eapply ancestors_parent.
    + apply list_lookup_middle. reflexivity.
    + reflexivity.
    + now apply ancestors_app.
  - unfold chain_tokens. rewrite list_lookup_middle by reflexivity.
    simpl. now rewrite app_nil_r.
  - intros l Hl. now rewrite lookup_app_l.
Qed.

Lemma root_node st m kwargs kwargs' mp :
  wf_heap (heap st) ->
  root_kwargs (rm_sig m) kwargs = Ok kwargs' ->
  _method_sanity_check check_type json_dumps (rm_sig m) kwargs' = Ok mp ->
  exists st',
    call_root check_type json_dumps st m kwargs
      = Returns st' (RObject (length (heap st)))
    /\ wf_heap (heap st')
    /\ ancestors (heap st') (length (heap st)) []
    /\ chain_tokens (heap st') (length (heap st)) =
       emit_cmd (rm_flow_file m, store_params mp)
    /\ (forall l, l < length (heap st) -> heap st' !! l = heap st !! l).
Proof.
  intros Hwf Hk Hs. unfold call_root. rewrite Hk, Hs.
  eexists. split; [reflexivity|].
  simpl. repeat split.
  - apply wf_heap_alloc; auto. simpl. discriminate.
  - eapply ancestors_root.
    + apply list_lookup_middle. reflexivity.
    + reflexivity.
  - unfold chain_tokens. rewrite list_lookup_middle by reflexivity.
    simpl. now rewrite app_nil_r.
  - intros l Hl. now rewrite lookup_app_l.
Qed.

End ChainFacts.


(** X20. The chain objects. The call of the root callable that Python
    binds (a keyword argument [_self] fills the parameter of that name and
    is not among the keyword arguments bound; without one the parameter
    takes the last of the defaults, so the command line must declare a
    parameter) and whose binding of the other keyword arguments succeeds
    creates an object without ancestors whose chain is the one entry of the
    flow file with the binding; the call of a Group member without a
    keyword argument [_self] whose binding succeeds, on an object that
    exists, creates an object whose ancestors are that object followed by
    its ancestors and whose chain is the one entry of the group with the
    binding. Both leave every existing object as it was and the store one
    in which every parent was created before its children. *)
Theorem X20_chain_objects
    (check_type : value -> annotation -> bool) (json_dumps : value -> string)
    (st : state) (kwargs : list (string * value)) (mp : method_params) :
  wf_heap (heap st) ->
  (forall m kwargs',
     root_kwargs (rm_sig m) kwargs = Ok kwargs' ->
     _method_sanity_check check_type json_dumps (rm_sig m) kwargs' = Ok mp ->
     exists st',
       call_root check_type json_dumps st m kwargs
         = Returns st' (RObject (length (heap st)))
       /\ wf_heap (heap st')
       /\ ancestors (heap st') (length (heap st)) []
       /\ chain_tokens (heap st') (length (heap st)) =
          emit_cmd (rm_flow_file m, store_params mp)
       /\ (forall l, l < length (heap st) -> heap st' !! l = heap st !! l))
  /\ (forall self o ps n class_dict sig,
        heap st !! self = Some o ->
        ancestors (heap st) self ps ->
        od_mem "_self" kwargs = false ->
        _method_sanity_check check_type json_dumps sig kwargs = Ok mp ->
        exists st',
          call_method check_type json_dumps st self
            (GroupMethod n class_dict sig) kwargs
            = Returns st' (RObject (length (heap st)))
          /\ wf_heap (heap st')
          /\ ancestors (heap st') (length (heap st)) (self :: ps)
          /\ chain_tokens (heap st') (length (heap st)) =
             emit_cmd (n, store_params mp)
          /\ (forall l, l < length (heap st) -> heap st' !! l = heap st !! l)).
Proof.
  intros Hwf. split.
  - intros m kwargs'. now apply root_node.
  - intros self o ps n cd sig Ho Ha Hself Hs. eapply group_node; eauto.
Qed.


Lemma example_root_wf :
  wf_heap (heap (Example.with_root (py := Example.python) Example.check_type Example.json_dumps
                   "flow.py" (Some Example.flow)
                   [("metadata", VAtom (AStr "local"))])).
Proof.
  intros [|l] o p H Hp; simpl in H; try discriminate.
  injection H as <-. discriminate Hp.
Qed.

Lemma X20_chain_objects_witness :
  (exists st',
     call_root Example.check_type Example.json_dumps
       (Example.initial Example.start)
       (mkRootMethod "flow.py" (Some Example.flow)
          (Example.sig_of [Example.metadata]))
       [("metadata", VAtom (AStr "local"))] = Returns st' (RObject 0)
     /\ chain_tokens (heap st') 0 = map AStr ["flow.py"; "--metadata"; "local"])
  /\ (exists st',
        call_method Example.check_type Example.json_dumps
          (Example.with_root (py := Example.python) Example.check_type Example.json_dumps
             "flow.py" (Some Example.flow) [("metadata", VAtom (AStr "local"))])
          0 (GroupMethod "kubernetes" [] (Example.sig_of [])) [] =
        Returns st' (RObject 1)
        /\ ancestors (heap st') 1 [0]
        /\ chain_tokens (heap st') 1 = map AStr ["kubernetes"]).
Proof.
  split.
  - destruct (proj1 (X20_chain_objects Example.check_type Example.json_dumps
                       (Example.initial Example.start)
                       [("metadata", VAtom (AStr "local"))]
                       (mkMethodParams [] [("metadata", VAtom (AStr "local"))])
                       wf_heap_empty)
                (mkRootMethod "flow.py" (Some Example.flow)
                   (Example.sig_of [Example.metadata]))
                [("metadata", VAtom (AStr "local"))] eq_refl eq_refl)
      as (st' & H & _ & _ & Ht & _).
    exists st'. split; [exact H | exact Ht].
  - destruct (proj2 (X20_chain_objects Example.check_type Example.json_dumps
                       (Example.with_root (py := Example.python) Example.check_type Example.json_dumps
                          "flow.py" (Some Example.flow)
                          [("metadata", VAtom (AStr "local"))])
                       [] (mkMethodParams [] []) example_root_wf)
                0
                (MetaflowAPI__init__ (RootClass "flow.py") None (Some Example.flow)
                   (mkMethodParams [] [("metadata", VAtom (AStr "local"))]))
                [] "kubernetes" [] (Example.sig_of [])
                eq_refl
                ltac:(eapply ancestors_root; reflexivity)
                eq_refl eq_refl)
      as (st' & H & _ & Ha & Ht & _).
    exists st'. split; [exact H|]. split; [exact Ha | exact Ht].
Defined.

(** ** Flags and lists in the call of a leaf *)


Section LeafCalls.
Variable check_type : value -> annotation -> bool.
Variable json_dumps : value -> string.


End LeafCalls.





(** ** The first access to a leaf on a root object *)

Lemma get_command_with_command cli name c c' :
  get_command cli name = Ok (Some c) ->
  get_command (with_command cli name c') name = Ok (Some c').
Proof.
  destruct cli as [n ps h|n ps cs|n ty]; simpl; try discriminate.
  intros _. now rewrite od_get_set_eq.
Qed.

Lemma compute_on_root st r o flow :
  heap st !! r = Some o -> _flow_cls o = Some flow -> _parent o = None ->
  exists st1 o1,
    _compute_flow_parameters st r = Returns st1 (flow_parameters_of o flow)
    /\ heap st1 !! r = Some o1
    /\ obj_attrs o1 = obj_attrs o
    /\ cli_collection st1 = cli_collection st
    /\ (forall l, l <> r -> heap st1 !! l = heap st !! l).
Proof.
  intros Hl Hf Hp. unfold _compute_flow_parameters, flow_parameters_of.
  rewrite Hl, Hf, Hp.
  destruct (_cached_computed_parameters o) as [c|].
  - exists st, o. auto.
  - eexists _, (set_cached o _). split; [reflexivity|]. simpl.
    split; [|split; [reflexivity|split; [reflexivity|]]].
    + apply list_lookup_insert_eq. eapply lookup_lt_Some; eauto.
    + intros l Hne. now rewrite list_lookup_insert_ne.
Qed.

Section LeafAccess.
Context {py : Python}.
Variable click_Option : string -> option_kwargs -> param.

Lemma extract_leaf fps n ps h :
  extract click_Option fps (Command n ps h) =
  (Command n (compiled_params click_Option fps ps h) h,
   sig <- compiled_signature (compiled_params click_Option fps ps h) ;;
   Ok (CommandMethod n sig)).
Proof.
  simpl. unfold extract_command, compiled_params, compiled_signature.
  rewrite insert_flow_params_app_if.
  destruct (extract_all_params _) as [sig|e]; simpl; [|reflexivity].
  destruct (signature_replace sig); reflexivity.
Qed.

Lemma compiled_signature_twice a b :
  compiled_signature (a ++ a ++ b) = compiled_signature (a ++ b).
Proof. unfold compiled_signature. now rewrite extract_all_params_twice. Qed.

Lemma leaf_access st r o flow_file flow name n ps h :
  heap st !! r = Some o ->
  obj_class o = RootClass flow_file ->
  _flow_cls o = Some flow -> _parent o = None ->
  normal_lookup o name = None ->
  get_command (cli_collection st) name = Ok (Some (Command n ps h)) ->
  let ps' := compiled_params click_Option (flow_parameters_of o flow) ps h in
  match compiled_signature ps' with
  | Ok sig =>
      exists st',
        py_getattr click_Option st r name =
          Returns st' (Member (CommandMethod n sig))
        /\ get_command (cli_collection st') name = Ok (Some (Command n ps' h))
  | Raise e =>
      exists st', py_getattr click_Option st r name = Raises st' e
  end.
Proof.
  intros Hl Hc Hf Hp Ha Hg ps'.
  unfold py_getattr. rewrite Hl, Ha, Hc. unfold _lazy_load_command.
  destruct (compute_on_root st r o flow Hl Hf Hp)
    as (st1 & o1 & -> & Hl1 & _ & Hcli & _).
  rewrite Hcli, Hg, extract_leaf. fold ps'.
  destruct (compiled_signature ps') as [sig|e]; cbn [res_bind].
  - cbn [heap set_cli]. rewrite Hl1. eexists. split; [reflexivity|].
    cbn [cli_collection set_heap set_cli].
    eapply get_command_with_command; eauto.
  - eauto.
Qed.

End LeafAccess.

(** X21. The first access to a leaf on a root object. On a root object
    with a flow class, the first access to a name that the normal lookup
    does not find and that is a command compiles it with the flow-level
    parameters of the object, which on an empty cache are the parameters of
    the flow class that are not config parameters: a leaf flagged
    [has_flow_params] gets the options built from them, in their order, in
    front of its own parameters, and the metadata keeps that list; a leaf
    that is not flagged is compiled with its own parameters. The access
    returns the callable with the signature of that list, or raises what
    [extract_all_params] or the assignment of the signature raises for that
    list. *)
Theorem X21_leaf_access {py : Python}
    (click_Option : string -> option_kwargs -> param)
    (st : state) (r : loc) (o : api_object) (flow_file : string)
    (flow : flow_cls) (name n : string) (ps : list param) (h : bool) :
  heap st !! r = Some o ->
  obj_class o = RootClass flow_file ->
  _flow_cls o = Some flow -> _parent o = None ->
  normal_lookup o name = None ->
  get_command (cli_collection st) name = Ok (Some (Command n ps h)) ->
  let ps' := compiled_params click_Option (flow_parameters_of o flow) ps h in
  match compiled_signature ps' with
  | Ok sig =>
      exists st',
        py_getattr click_Option st r name =
          Returns st' (Member (CommandMethod n sig))
        /\ get_command (cli_collection st') name = Ok (Some (Command n ps' h))
  | Raise e =>
      exists st', py_getattr click_Option st r name = Raises st' e
  end.
Proof. apply leaf_access. Qed.

Lemma X21_leaf_access_witness :
  exists st',
    py_getattr (py := Example.python) Example.click_Option
      LeafExample.two_roots 0 "run" =
    Returns st'
      (Member
         (CommandMethod "run"
            (Example.sig_of [LeafExample.alpha_option; Example.tags;
                             Example.decospecs; Example.max_workers])))
    /\ get_command (cli_collection st') "run" =
       Ok (Some (Command "run"
                   [LeafExample.alpha_option; Example.tags;
                    Example.decospecs; Example.max_workers] true)).
Proof.
  pose proof (X21_leaf_access (py := Example.python) Example.click_Option
                LeafExample.two_roots 0
                (Example.root_object (Some Example.flow_with_parameters))
                "flow.py" Example.flow_with_parameters "run" "run"
                [Example.tags; Example.decospecs; Example.max_workers] true
                eq_refl eq_refl eq_refl eq_refl eq_refl eq_refl) as H.
  vm_compute in H. vm_compute. exact H.
Defined.

(** ** A second root object *)

Section SecondRoot.
Context {py : Python}.
Variable click_Option : string -> option_kwargs -> param.

Lemma leaf_access_frame st r o flow_file flow name n ps h st' a :
  heap st !! r = Some o ->
  obj_class o = RootClass flow_file ->
  _flow_cls o = Some flow -> _parent o = None ->
  normal_lookup o name = None ->
  get_command (cli_collection st) name = Ok (Some (Command n ps h)) ->
  py_getattr click_Option st r name = Returns st' a ->
  exists sig,
    compiled_signature
      (compiled_params click_Option (flow_parameters_of o flow) ps h) = Ok sig
    /\ a = Member (CommandMethod n sig)
    /\ get_command (cli_collection st') name =
       Ok (Some (Command n
                   (compiled_params click_Option (flow_parameters_of o flow) ps h)
                   h))
    /\ (forall l, l <> r -> heap st' !! l = heap st !! l).
Proof.
  intros Hl Hc Hf Hp Ha Hg.
  unfold py_getattr. rewrite Hl, Ha, Hc. unfold _lazy_load_command.
  destruct (compute_on_root st r o flow Hl Hf Hp)
    as (st1 & o1 & -> & Hl1 & _ & Hcli & Hfr).
  rewrite Hcli, Hg, extract_leaf.
  destruct (compiled_signature _) as [sig|e]; cbn [res_bind]; [|discriminate].
  cbn [heap set_cli]. rewrite Hl1. intros [= <- <-].
  cbn [cli_collection set_heap set_cli heap].
  exists sig. repeat split.
  - eapply get_command_with_command; eauto.
  - intros l Hne. rewrite list_lookup_insert_ne by congruence. auto.
Qed.

Lemma second_root st r r2 o o2 flow_file flow_file2 flow flow2 name n ps st1 a :
  heap st !! r = Some o -> heap st !! r2 = Some o2 -> r2 <> r ->
  obj_class o = RootClass flow_file -> obj_class o2 = RootClass flow_file2 ->
  _flow_cls o = Some flow -> _flow_cls o2 = Some flow2 ->
  _parent o = None -> _parent o2 = None ->
  normal_lookup o name = None -> normal_lookup o2 name = None ->
  flow_parameters_of o2 flow2 = flow_parameters_of o flow ->
  get_command (cli_collection st) name = Ok (Some (Command n ps true)) ->
  py_getattr click_Option st r name = Returns st1 a ->
  let options := map (flow_option click_Option) (flow_parameters_of o flow) in
  exists st2,
    py_getattr click_Option st1 r2 name = Returns st2 a
    /\ get_command (cli_collection st1) name =
       Ok (Some (Command n (options ++ ps) true))
    /\ get_command (cli_collection st2) name =
       Ok (Some (Command n (options ++ options ++ ps) true)).
Proof.
  intros Hl Hl2 Hne Hc Hc2 Hf Hf2 Hp Hp2 Ha Ha2 Hfp Hg Hget options.
  destruct (leaf_access_frame _ _ _ _ _ _ _ _ _ _ _ Hl Hc Hf Hp Ha Hg Hget)
    as (sig & Hsig & Hm & Hg1 & Hfr).
  cbn [compiled_params] in Hsig, Hg1. fold options in Hsig, Hg1.
  assert (Hl2' : heap st1 !! r2 = Some o2) by (rewrite Hfr; auto).
  pose proof (leaf_access click_Option st1 r2 o2 flow_file2 flow2 name n
                (options ++ ps) true Hl2' Hc2 Hf2 Hp2 Ha2 Hg1) as H.
  cbn [compiled_params] in H. rewrite Hfp in H. fold options in H.
  rewrite compiled_signature_twice, Hsig in H.
  destruct H as (st2 & H & Hg2). exists st2. rewrite <- Hm in H. auto.
Qed.

End SecondRoot.

(** X22. A second root object. Two root objects of the API share the
    metadata of the command line. When a first root object has loaded a leaf
    flagged [has_flow_params], under a name that the normal lookup finds on
    neither object, a second root object with the same flow-level
    parameters that accesses the same name gets the same callable, and the
    options of the flow-level parameters are put in front of the leaf's
    parameter list a second time: after the first access the list is the
    options followed by the leaf's own parameters, after the second it holds
    the options twice. *)
Theorem X22_second_root_object {py : Python}
    (click_Option : string -> option_kwargs -> param)
    (st : state) (r r2 : loc) (o o2 : api_object)
    (flow_file flow_file2 : string) (flow flow2 : flow_cls)
    (name n : string) (ps : list param) (st1 : state) (a : attribute) :
  heap st !! r = Some o -> heap st !! r2 = Some o2 -> r2 <> r ->
  obj_class o = RootClass flow_file -> obj_class o2 = RootClass flow_file2 ->
  _flow_cls o = Some flow -> _flow_cls o2 = Some flow2 ->
  _parent o = None -> _parent o2 = None ->
  normal_lookup o name = None -> normal_lookup o2 name = None ->
  flow_parameters_of o2 flow2 = flow_parameters_of o flow ->
  get_command (cli_collection st) name = Ok (Some (Command n ps true)) ->
  py_getattr click_Option st r name = Returns st1 a ->
  let options := map (flow_option click_Option) (flow_parameters_of o flow) in
  exists st2,
    py_getattr click_Option st1 r2 name = Returns st2 a
    /\ get_command (cli_collection st1) name =
       Ok (Some (Command n (options ++ ps) true))
    /\ get_command (cli_collection st2) name =
       Ok (Some (Command n (options ++ options ++ ps) true)).
Proof. apply second_root. Qed.

Lemma X22_second_root_object_witness :
  exists st2,
    py_getattr (py := Example.python) Example.click_Option
      LeafExample.after_first 1 "run" =
    Returns st2
      (Member
         (CommandMethod "run"
            (Example.sig_of [LeafExample.alpha_option; Example.tags;
                             Example.decospecs; Example.max_workers])))
    /\ get_command (cli_collection LeafExample.after_first) "run" =
       Ok (Some (Command "run"
                   [LeafExample.alpha_option; Example.tags;
                    Example.decospecs; Example.max_workers] true))
    /\ get_command (cli_collection st2) "run" =
       Ok (Some (Command "run"
                   [LeafExample.alpha_option; LeafExample.alpha_option;
                    Example.tags; Example.decospecs; Example.max_workers]
                   true)).
Proof.
  assert (Hne : 1 <> 0) by discriminate.
  assert (Hget : py_getattr (py := Example.python) Example.click_Option
                   LeafExample.two_roots 0 "run" =
                 Returns LeafExample.after_first
                   (Member
                      (CommandMethod "run"
                         (Example.sig_of [LeafExample.alpha_option; Example.tags;
                                          Example.decospecs; Example.max_workers]))))
    by (vm_compute; reflexivity).
  pose proof (X22_second_root_object (py := Example.python) Example.click_Option
                LeafExample.two_roots 0 1
                (Example.root_object (Some Example.flow_with_parameters))
                (Example.root_object (Some Example.flow_with_parameters))
                "flow.py" "flow.py"
                Example.flow_with_parameters Example.flow_with_parameters
                "run" "run"
                [Example.tags; Example.decospecs; Example.max_workers]
                LeafExample.after_first _
                eq_refl eq_refl Hne eq_refl eq_refl eq_refl eq_refl
                eq_refl eq_refl eq_refl eq_refl eq_refl eq_refl Hget) as H.
  vm_compute in H. vm_compute. exact H.
Defined.
